(** * Light-curve transformer autoencoder: the training script

    A shallow embedding of [scripts/train_transformer_autoencoder.py]:
    the HDF5 loader, [LightCurveDataset], [collate_with_masking],
    [train_epoch], [validate_epoch] and the epoch loop of [main] with its
    checkpoints.

    Python floats and tensor elements are IEEE-754 numbers, taken from the
    standard library's [SpecFloat]; dictionaries are [gmap]s keyed by
    strings; exceptions and the mutable objects of a run (model, optimizer,
    scheduler, global random generator, files on disk) are threaded through
    a state-and-exception monad.  PyTorch itself (the network, autograd,
    AdamW, OneCycleLR, the random generators) is an interface, class
    [Runtime], of which a small executable instance is given for concrete
    runs. *)

From Stdlib Require Import ZArith Bool List Lia.
From Stdlib Require Import Floats.SpecFloat.
From stdpp Require Import base option list strings pretty gmap.

(** ** IEEE-754 numbers *)

Record format := Format { prec : Z; emax : Z }.

Definition binary64 : format := Format 53 1024.
Definition binary32 : format := Format 24 128.

Abbreviation float := spec_float.

Module Fl.

Definition nan : float := S754_nan.
Definition inf : float := S754_infinity false.
Definition neg_inf : float := S754_infinity true.
Definition zero : float := S754_zero false.

Definition isnan (x : float) : bool :=
  match x with S754_nan => true | _ => false end.

Definition isinf (x : float) : bool :=
  match x with S754_infinity _ => true | _ => false end.

Definition isfinite (x : float) : bool := negb (isnan x || isinf x).

(** Round a number to the given format (NumPy [astype], torch [.float()],
    and the widening done by [.item()]). *)
Definition round (f : format) (x : float) : float :=
  match x with
  | S754_finite s m e => binary_round (prec f) (emax f) s m e
  | _ => x
  end.

Definition of_Z (f : format) (n : Z) : float :=
  binary_normalize (prec f) (emax f) n 0 false.

Definition one (f : format) : float := of_Z f 1.
Definition max_float (f : format) : float := SFmax_float (prec f) (emax f).

Definition add (f : format) := SFadd (prec f) (emax f).
Definition sub (f : format) := SFsub (prec f) (emax f).
Definition mul (f : format) := SFmul (prec f) (emax f).
Definition div (f : format) := SFdiv (prec f) (emax f).
Definition ltb : float -> float -> bool := SFltb.
Definition leb : float -> float -> bool := SFleb.

(** The integer part of a finite number, towards zero. *)
Definition trunc (x : float) : option Z :=
  match x with
  | S754_zero _ => Some 0%Z
  | S754_finite s m e =>
      let a := match e with
               | Zneg k => Z.shiftr (Zpos m) (Zpos k)
               | _ => Z.shiftl (Zpos m) e
               end in
      Some (if s then Z.opp a else a)
  | _ => None
  end.

End Fl.

(** ** Exceptions *)

(** The Python exceptions the script can meet, and the three names of the
    specification's error taxonomy, which have no [raise] in the script. *)
Inductive py_exn :=
  | ValueError | IndexError | KeyError | TypeError | OSError | ZeroDivisionError
  | OverflowError | RuntimeError | StopIteration
  | ShapeMismatchError | EmptyDatasetError | NumericInstability.

#[global] Instance py_exn_eq_dec : EqDecision py_exn.
Proof. solve_decision. Defined.

Inductive outcome (A : Type) :=
  | Ok (a : A)
  | Raise (e : py_exn).
Arguments Ok {A} a.
Arguments Raise {A} e.

Definition is_ok {A} (o : outcome A) : bool :=
  match o with Ok _ => true | Raise _ => false end.

Definition ok_or {A} (d : A) (o : outcome A) : A :=
  match o with Ok a => a | Raise _ => d end.

(** Pure computations that may raise. *)
#[global] Instance outcome_ret : MRet outcome := @Ok.
#[global] Instance outcome_bind : MBind outcome := fun A B f o =>
  match o with Ok a => f a | Raise e => Raise e end.

(** Computations on a mutable state [S] that may raise; the state
    survives the exception (files written before a crash stay on disk). *)
Definition M (S A : Type) : Type := S -> outcome A * S.

#[global] Instance M_ret {S} : MRet (M S) := fun A a s => (Ok a, s).
#[global] Instance M_bind {S} : MBind (M S) := fun A B f m s =>
  match m s with
  | (Ok a, s') => f a s'
  | (Raise e, s') => (Raise e, s')
  end.

Definition raise {S A} (e : py_exn) : M S A := fun s => (Raise e, s).
Definition get {S} : M S S := fun s => (Ok s, s).
Definition modify {S} (f : S -> S) : M S unit := fun s => (Ok tt, f s).
Definition lift {S A} (o : outcome A) : M S A := fun s => (o, s).

(** [for x in xs: body x] *)
Fixpoint for_each {S A} (xs : list A) (body : A -> M S unit) : M S unit :=
  match xs with
  | [] => mret tt
  | x :: xs' => _ ← body x; for_each xs' body
  end.

(** ** Python numbers *)

(** [int(x)] of a float. *)
Definition py_int (x : float) : outcome Z :=
  match x with
  | S754_nan => Raise ValueError
  | S754_infinity _ => Raise OverflowError
  | _ => match Fl.trunc x with Some z => Ok z | None => Raise ValueError end
  end.

(** [n * x] and [x / n] with [n] an [int]: the integer is converted first. *)
Definition py_int_mul (n : Z) (x : float) : float :=
  Fl.mul binary64 (Fl.of_Z binary64 n) x.

Definition py_truediv (x : float) (n : Z) : outcome float :=
  if decide (n = 0%Z) then Raise ZeroDivisionError
  else Ok (Fl.div binary64 x (Fl.of_Z binary64 n)).

Definition py_add (x y : float) : float := Fl.add binary64 x y.

(** [a % b] on integers. *)
Definition py_mod (a b : Z) : outcome Z :=
  if decide (b = 0%Z) then Raise ZeroDivisionError else Ok (a mod b)%Z.

(** A float literal [a/b] written in decimal: the nearest binary64 number. *)
Definition lit (a b : Z) : float :=
  Fl.div binary64 (Fl.of_Z binary64 a) (Fl.of_Z binary64 b).

(** [l[a:b]] *)
Definition py_slice {A} (l : list A) (a b : Z) : list A :=
  let n := Z.of_nat (length l) in
  let norm x := if (x <? 0)%Z then Z.max (x + n) 0 else Z.min x n in
  let a' := norm a in
  let b' := norm b in
  take (Z.to_nat (b' - a')) (drop (Z.to_nat a') l).

(** ** NumPy arrays of shape (N, seq_len) *)

Inductive dtype := float32 | float64.

Definition finfo (d : dtype) : format :=
  match d with float32 => binary32 | float64 => binary64 end.

Record ndarray := NdArray {
  nd_dtype : dtype;
  nd_cols : nat;
  nd_rows : list (list float)
}.

(** Every row of an array has [nd_cols] elements. *)
Definition nd_wf (a : ndarray) : Prop :=
  Forall (fun r => length r = nd_cols a) (nd_rows a).

Definition nd_shape (a : ndarray) : nat * nat := (length (nd_rows a), nd_cols a).
Definition nd_size (a : ndarray) : nat := (length (nd_rows a) * nd_cols a)%nat.

(** [np.sum(np.isnan(a))] *)
Definition count_nan_row (r : list float) : nat := length (filter (fun x => Fl.isnan x = true) r).
Definition count_nan (a : ndarray) : nat :=
  foldr (fun r acc => (count_nan_row r + acc)%nat) 0%nat (nd_rows a).

(** [np.nan_to_num(a, nan=0.0)]: NaN becomes 0.0 and, [posinf] and
    [neginf] being left at their defaults, the infinities become the
    largest and the smallest finite number of the array's dtype. *)
Definition nan_to_num1 (d : dtype) (x : float) : float :=
  match x with
  | S754_nan => Fl.zero
  | S754_infinity false => Fl.max_float (finfo d)
  | S754_infinity true => SFopp (Fl.max_float (finfo d))
  | _ => x
  end.

Definition nan_to_num (a : ndarray) : ndarray :=
  NdArray (nd_dtype a) (nd_cols a) (map (map (nan_to_num1 (nd_dtype a))) (nd_rows a)).

Definition repr_shape (a : ndarray) : string :=
  "(" +:+ pretty (length (nd_rows a)) +:+ ", " +:+ pretty (nd_cols a) +:+ ")".

(** ** load_lightcurve_data *)

(** An object of an HDF5 file, as [f[name][:]] meets it: a dataset
    holding a 2-D array of floats, a scalar dataset, or a group. *)
Inductive h5obj :=
  | H5Dataset (a : ndarray)
  | H5Scalar
  | H5Group.

(** An HDF5 file: its named objects. *)
Abbreviation h5file := (gmap string h5obj).

(** [f[k][:]]: h5py raises KeyError for a name the file does not have,
    TypeError for the slice of a group and ValueError for the slice of
    a scalar dataset. *)
Definition h5_get (f : h5file) (k : string) : outcome ndarray :=
  match f !! k with
  | Some (H5Dataset a) => Ok a
  | Some H5Scalar => Raise ValueError
  | Some H5Group => Raise TypeError
  | None => Raise KeyError
  end.

(** What the function returns, and the lines it prints. *)
Record loaded := Loaded {
  ld_flux : ndarray;
  ld_timestamps : ndarray;
  ld_printed : list string
}.

Definition load_lightcurve_data (disk : gmap string h5file) (hdf5_file : string)
  : outcome loaded :=
  f ← match disk !! hdf5_file with Some f => Ok f | None => Raise OSError end;
  flux ← h5_get f "flux";
  timestamps ← h5_get f "time";
  let out0 := ["Loaded flux: " +:+ repr_shape flux +:+ ", time: " +:+ repr_shape timestamps] in
  let n_nans_flux := count_nan flux in
  let n_nans_time := count_nan timestamps in
  let '(flux, out1) :=
    if decide (0 < n_nans_flux)%nat
    then (nan_to_num flux,
          out0 ++ ["Warning: " +:+ pretty n_nans_flux +:+ " NaN values found in flux"])
    else (flux, out0) in
  let '(timestamps, out2) :=
    if decide (0 < n_nans_time)%nat
    then (nan_to_num timestamps,
          out1 ++ ["Warning: " +:+ pretty n_nans_time +:+ " NaN values found in timestamps"])
    else (timestamps, out1) in
  Ok (Loaded flux timestamps out2).

(** ** Tensors *)

(** A 1-D tensor is the list of its elements, a 2-D tensor the list of its
    rows.  The elements of float tensors are binary32. *)
Abbreviation tensor1 := (list float).
Abbreviation tensor2 := (list (list float)).

(** [torch.stack(ts, dim=0)]: all tensors of one size, and at least one. *)
Definition stack {A} (ts : list (list A)) : outcome (list (list A)) :=
  match ts with
  | [] => Raise RuntimeError
  | t :: _ =>
      if forallb (fun u => Nat.eqb (length u) (length t)) ts then Ok ts
      else Raise RuntimeError
  end.

(** [torch.stack([a, b], dim=-1)] of two 1-D tensors. *)
Definition stack_last {A} (a b : list A) : outcome (list (A * A)) :=
  if Nat.eqb (length a) (length b) then Ok (zip a b) else Raise RuntimeError.

(** [seq_len] of the shape of a stacked batch. *)
Definition seq_len_of {A} (t : list (list A)) : nat :=
  match t with [] => 0%nat | r :: _ => length r end.

(** [mask.float()] *)
Definition bool_to_float (b : bool) : float :=
  if b then Fl.one binary32 else Fl.zero.

(** [t[mask]] for a boolean mask of the shape of [t]: the selected
    elements, row after row. *)
Fixpoint select_row {A} (r : list A) (m : list bool) : list A :=
  match r, m with
  | x :: r', b :: m' => if b then x :: select_row r' m' else select_row r' m'
  | _, _ => []
  end.

Fixpoint masked_select {A} (t : list (list A)) (mask : list (list bool)) : list A :=
  match t, mask with
  | r :: t', m :: mask' => select_row r m ++ masked_select t' mask'
  | _, _ => []
  end.

(** [~mask] *)
Definition mask_not (mask : list (list bool)) : list (list bool) :=
  map (map negb) mask.

(** ** LightCurveDataset *)

Record LightCurveDataset := Dataset {
  ds_flux : tensor2;
  ds_timestamps : tensor2
}.

(** [torch.from_numpy(a).float()] *)
Definition from_numpy_float (a : ndarray) : tensor2 :=
  map (map (Fl.round binary32)) (nd_rows a).

(** [LightCurveDataset.__init__]: the two arrays are converted and stored;
    nothing about their shapes is looked at. *)
Definition LightCurveDataset_init (flux timestamps : ndarray) : outcome LightCurveDataset :=
  Ok (Dataset (from_numpy_float flux) (from_numpy_float timestamps)).

(** [__len__] *)
Definition ds_len (d : LightCurveDataset) : nat := length (ds_flux d).

Record sample := Sample {
  s_flux : tensor1;
  s_time : tensor1
}.

(** [__getitem__] *)
Definition ds_getitem (d : LightCurveDataset) (idx : nat) : outcome sample :=
  match ds_flux d !! idx with
  | None => Raise IndexError
  | Some f =>
      match ds_timestamps d !! idx with
      | None => Raise IndexError
      | Some t => Ok (Sample f t)
      end
  end.

(** [torch.utils.data.Subset] *)
Record Subset := MkSubset {
  sub_dataset : LightCurveDataset;
  sub_indices : list nat
}.

Definition sub_len (s : Subset) : nat := length (sub_indices s).

Definition sub_getitem (s : Subset) (idx : nat) : outcome sample :=
  match sub_indices s !! idx with
  | None => Raise IndexError
  | Some i => ds_getitem (sub_dataset s) i
  end.

(** [itertools.accumulate] *)
Fixpoint accumulate_from (acc : Z) (l : list Z) : list Z :=
  match l with
  | [] => []
  | x :: l' => (acc + x)%Z :: accumulate_from (acc + x)%Z l'
  end.

Definition sum_Z (l : list Z) : Z := foldr Z.add 0%Z l.

(** The batches of indices of a [BatchSampler] with [drop_last=False]. *)
Fixpoint chunks_fuel {A} (fuel k : nat) (l : list A) : list (list A) :=
  match fuel, l with
  | _, [] => []
  | O, _ => []
  | S fuel', _ => take k l :: chunks_fuel fuel' k (drop k l)
  end.

Definition chunks {A} (k : nat) (l : list A) : list (list A) :=
  chunks_fuel (length l) k l.

(** Map with a function that may raise, left to right. *)
Fixpoint map_outcome {A B} (f : A -> outcome B) (l : list A) : outcome (list B) :=
  match l with
  | [] => Ok []
  | x :: l' => y ← f x; ys ← map_outcome f l'; Ok (y :: ys)
  end.

(** ** Command line and model configuration *)

(** The namespace returned by [parser.parse_args()]. *)
Record Args := MkArgs {
  arg_input : string;
  arg_output_dir : string;
  arg_epochs : Z;
  arg_batch_size : Z;
  arg_lr : float;
  arg_encoder_dims : list Z;
  arg_nhead : Z;
  arg_num_layers : Z;
  arg_num_transformer_blocks : Z;
  arg_mask_ratio : float;
  arg_block_size : Z;
  arg_val_split : float;
  arg_seed : Z;
  arg_device : string;
  arg_save_every : Z
}.

(** The fields [main] passes to [lcgen.models.transformer.TransformerConfig]. *)
Record TransformerConfig := MkConfig {
  input_dim : Z;
  input_length : nat;
  encoder_dims : list Z;
  nhead : Z;
  num_layers : Z;
  num_transformer_blocks : Z;
  dropout : float;
  min_period : float;
  max_period : float
}.

(** ** PyTorch and the network, as an interface

    What the script calls but does not define.  A loss tensor is
    represented by the function of the parameters that its autograd graph
    denotes: [backward] differentiates that function at the current
    parameters and accumulates the result into the [.grad] buffers, and
    [.item()] is its value at the parameters of the forward pass. *)
Class Runtime := {
  (** [torch.device(name)] accepts the name *)
  device_ok : string -> bool;
  (** random generators: [torch.Generator], and the global one *)
  Generator : Type;
  manual_seed : Z -> Generator;
  randperm : nat -> Generator -> list nat * Generator;
  randperm_perm : forall n g, (randperm n g).1 ≡ₚ seq 0 n;
  (** the order drawn by a [RandomSampler] over [n] items, and the base
      seed a [DataLoader] iterator draws when it is created *)
  random_sampler : nat -> Generator -> list nat * Generator;
  loader_iter : Generator -> Generator;
  (** the random choices of [lcgen.data.masking.dynamic_block_mask] for a
      sequence of the given length: mask, block size, achieved ratio *)
  draw_block_mask :
    nat -> Z -> Z -> float -> float -> Generator -> (list bool * Z * float) * Generator;
  (** [TimeSeriesTransformer]: parameters, construction, and
      [model(x, t)['reconstructed'].squeeze(-1)] in train or eval mode *)
  Params : Type;
  init_params : TransformerConfig -> Generator -> Params * Generator;
  reconstruct : bool -> Params -> list (list (float * float)) -> tensor2 -> tensor2;
  (** [nn.MSELoss()] on the elements of two tensors *)
  mse_loss : list float -> list float -> float;
  (** autograd: the [.grad] buffers, [loss.backward()], gradient clipping *)
  Grad : Type;
  grad_none : Grad;
  backward : (Params -> float) -> Params -> Grad -> Grad;
  clip_grad_norm_ : float -> Grad -> Grad;
  (** [optim.AdamW] and [optim.lr_scheduler.OneCycleLR] *)
  OptState : Type;
  AdamW : Params -> float -> float -> OptState;
  optimizer_step : Grad -> Params -> OptState -> Params * OptState;
  Sched : Type;
  OneCycleLR : float -> Z -> float -> float -> float -> Sched;
  scheduler_step : Sched -> OptState -> Sched * OptState
}.

(** A saved object: the values found in the script's checkpoint dicts. *)
Inductive ckpt_value `{Runtime} :=
  | VInt (z : Z)
  | VFloat (x : float)
  | VModelState (p : Params)
  | VOptimState (o : OptState)
  | VConfig (c : TransformerConfig).

(** A file written by the run: a [torch.save]d dict or a figure. *)
Inductive artifact `{Runtime} :=
  | Checkpoint (d : gmap string ckpt_value)
  | Figure.

(** The mutable objects of a run. *)
Record world `{Runtime} := World {
  rng : Generator;
  params : Params;
  training : bool;
  grads : Grad;
  opt : OptState;
  sched : Sched;
  files : gmap string artifact
}.
Arguments World {_} _ _ _ _ _ _ _.
Arguments VInt {_} z.
Arguments VFloat {_} x.
Arguments VModelState {_} p.
Arguments VOptimState {_} o.
Arguments VConfig {_} c.
Arguments Checkpoint {_} d.
Arguments Figure {_}.

Section Script.
Context `{RT : Runtime}.

Definition set_rng (g : Generator) (w : world) : world :=
  World g (params w) (training w) (grads w) (opt w) (sched w) (files w).
Definition set_training (b : bool) (w : world) : world :=
  World (rng w) (params w) b (grads w) (opt w) (sched w) (files w).
Definition set_grads (g : Grad) (w : world) : world :=
  World (rng w) (params w) (training w) g (opt w) (sched w) (files w).
Definition set_params_opt (po : Params * OptState) (w : world) : world :=
  World (rng w) po.1 (training w) (grads w) po.2 (sched w) (files w).
Definition set_sched_opt (so : Sched * OptState) (w : world) : world :=
  World (rng w) (params w) (training w) (grads w) so.2 so.1 (files w).
Definition set_files (f : gmap string artifact) (w : world) : world :=
  World (rng w) (params w) (training w) (grads w) (opt w) (sched w) f.

(** Run a computation on the global generator inside the world. *)
Definition with_rng {A} (m : M Generator A) : M world A := fun w =>
  let '(o, g) := m (rng w) in (o, set_rng g w).

(** ** dynamic_block_mask *)

(** The values with those under the mask replaced by 0.0. *)
Fixpoint zero_masked (flux : tensor1) (mask : list bool) : tensor1 :=
  match flux, mask with
  | x :: flux', m :: mask' => (if m then Fl.zero else x) :: zero_masked flux' mask'
  | _, [] => flux
  | [], _ => []
  end.

(** Modelled from the spec: [lcgen.data.masking.dynamic_block_mask] is
    imported by the script and is not among its sources.  The mask, the
    block size and the achieved ratio are the generator's draw
    ([draw_block_mask]); the masked signal is, in the specification's
    words, a copy of the raw value sequence with the positions where the
    mask is true zeroed.  The tensor given, a view of the stacked flux,
    is left as it is. *)
Definition dynamic_block_mask (flux : tensor1)
    (min_block_size max_block_size : Z) (min_mask_ratio max_mask_ratio : float)
  : M Generator (tensor1 * list bool * Z * float) := fun g =>
  let '((mask, block_size, mask_ratio), g') :=
    draw_block_mask (length flux) min_block_size max_block_size
                    min_mask_ratio max_mask_ratio g in
  (Ok (zero_masked flux mask, mask, block_size, mask_ratio), g').

(** ** collate_with_masking *)

(** The dict returned: the tensors of floats are float32, and so is
    [mask_ratio], which [torch.tensor] builds from Python floats. *)
Record batch := Batch {
  b_input : list (list (float * float));
  b_target : tensor2;
  b_time : tensor2;
  b_mask : list (list bool);
  b_block_size : list Z;
  b_mask_ratio : list float
}.

(** The lists the loop appends to. *)
Record collate_acc := CollateAcc {
  batch_inputs : list (list (float * float));
  batch_targets : list tensor1;
  batch_masks : list (list bool);
  batch_block_sizes : list Z;
  batch_mask_ratios : list float
}.

(** The body of [for i in range(batch_size)]. *)
Definition collate_sample (min_block_size max_block_size : Z)
    (min_mask_ratio max_mask_ratio : float) (acc : collate_acc) (flux : tensor1)
  : M Generator collate_acc :=
  '(flux_masked, mask, block_size, mask_ratio) ←
    dynamic_block_mask flux min_block_size max_block_size min_mask_ratio max_mask_ratio;
  input_with_mask ← lift (stack_last flux_masked (map bool_to_float mask));
  mret (CollateAcc (batch_inputs acc ++ [input_with_mask])
                   (batch_targets acc ++ [flux])
                   (batch_masks acc ++ [mask])
                   (batch_block_sizes acc ++ [block_size])
                   (batch_mask_ratios acc ++ [mask_ratio])).

Fixpoint collate_loop (min_block_size max_block_size : Z)
    (min_mask_ratio max_mask_ratio : float) (acc : collate_acc) (rows : list tensor1)
  : M Generator collate_acc :=
  match rows with
  | [] => mret acc
  | flux :: rows' =>
      acc' ← collate_sample min_block_size max_block_size
                            min_mask_ratio max_mask_ratio acc flux;
      collate_loop min_block_size max_block_size min_mask_ratio max_mask_ratio acc' rows'
  end.

Definition collate_with_masking (items : list sample)
    (min_block_size : Z) (max_block_size : option Z)
    (min_mask_ratio max_mask_ratio : float) : M Generator batch :=
  batch_flux ← lift (stack (map s_flux items));
  batch_time ← lift (stack (map s_time items));
  let seq_len := seq_len_of batch_flux in
  let max_block_size :=
    match max_block_size with
    | None => (Z.of_nat seq_len / 2)%Z
    | Some m => m
    end in
  acc ← collate_loop min_block_size max_block_size min_mask_ratio max_mask_ratio
                     (CollateAcc [] [] [] [] []) batch_flux;
  input ← lift (stack (batch_inputs acc));
  target ← lift (stack (batch_targets acc));
  mask ← lift (stack (batch_masks acc));
  mret (Batch input target batch_time mask (batch_block_sizes acc)
              (map (Fl.round binary32) (batch_mask_ratios acc))).

(** ** random_split, DataLoader *)

(** [torch.utils.data.random_split(dataset, lengths, generator)] for
    integer lengths.  Lengths that add up to 1 are read as fractions:
    each must lie between 0 and 1, and is replaced by that fraction of
    the size of the dataset, rounded down (integers leave no remainder
    to distribute).  The lengths must then add up to the size of the
    dataset; a permutation is drawn from the generator and cut at the
    accumulated lengths. *)
Definition random_split (dataset : LightCurveDataset) (lengths : list Z) (g : Generator)
  : outcome (list Subset) :=
  lengths ←
    (if decide (sum_Z lengths = 1)%Z then
       if decide (Forall (fun frac => 0 ≤ frac ≤ 1)%Z lengths)
       then Ok (map (fun frac => Z.of_nat (ds_len dataset) * frac)%Z lengths)
       else Raise ValueError
     else Ok lengths);
  if decide (sum_Z lengths = Z.of_nat (ds_len dataset)) then
    let indices := (randperm (Z.to_nat (sum_Z lengths)) g).1 in
    Ok (map (fun ol : Z * Z => MkSubset dataset (py_slice indices (ol.1 - ol.2) ol.1))
            (zip (accumulate_from 0 lengths) lengths))
  else Raise ValueError.

Record DataLoader := MkLoader {
  dl_dataset : Subset;
  dl_batch_size : nat;
  dl_shuffle : bool;
  dl_collate_fn : list sample -> M Generator batch
}.

(** [DataLoader(dataset, batch_size=.., shuffle=.., collate_fn=..)]: with
    [shuffle] a [RandomSampler] is built, which refuses a dataset
    without items; then the [BatchSampler], which refuses a batch size
    that is not positive. *)
Definition DataLoader_init (dataset : Subset) (batch_size : Z) (shuffle : bool)
    (collate_fn : list sample -> M Generator batch) : outcome DataLoader :=
  if decide (shuffle = true ∧ sub_len dataset = 0%nat) then Raise ValueError
  else if decide (batch_size ≤ 0)%Z then Raise ValueError
  else Ok (MkLoader dataset (Z.to_nat batch_size) shuffle collate_fn).

(** [len(dataloader)] *)
Definition dl_len (dl : DataLoader) : nat :=
  length (chunks (dl_batch_size dl) (seq 0 (sub_len (dl_dataset dl)))).

(** [iter(dataloader)]: the order of the sampler, cut into batches of
    indices.  A sequential sampler is used unless [shuffle] is set. *)
Definition loader_order (dl : DataLoader) : M Generator (list (list nat)) := fun g =>
  let g0 := loader_iter g in
  let n := sub_len (dl_dataset dl) in
  let '(order, g1) := if dl_shuffle dl then random_sampler n g0 else (seq 0 n, g0) in
  (Ok (chunks (dl_batch_size dl) order), g1).

(** One [next()]: fetch the items of a batch of indices and collate them. *)
Definition fetch (dl : DataLoader) (chunk : list nat) : M Generator batch :=
  items ← lift (map_outcome (sub_getitem (dl_dataset dl)) chunk);
  dl_collate_fn dl items.

(** A loop that updates local variables [acc]. *)
Fixpoint for_fold {S A B} (xs : list A) (acc : B) (body : B -> A -> M S B) : M S B :=
  match xs with
  | [] => mret acc
  | x :: xs' => acc' ← body acc x; for_fold xs' acc' body
  end.

(** [for batch in dataloader: body] *)
Definition for_batches {B} (dl : DataLoader) (acc : B) (body : B -> batch -> M world B)
  : M world B :=
  order ← with_rng (loader_order dl);
  for_fold order acc (fun acc chunk => b ← with_rng (fetch dl chunk); body acc b).

(** ** train_epoch, validate_epoch *)

Record totals := Totals {
  total_loss : float;
  total_masked_loss : float;
  total_unmasked_loss : float;
  n_batches : Z
}.

Record metrics := Metrics {
  m_total_loss : float;
  m_masked_loss : float;
  m_unmasked_loss : float
}.

(** [t.item()] *)
Definition item (x : float) : float := Fl.round binary64 x.

(** The three losses of a batch as functions of the parameters. *)
Definition full_loss (criterion : list float -> list float -> float) (mode : bool)
    (b : batch) (p : Params) : float :=
  criterion (concat (reconstruct mode p (b_input b) (b_time b))) (concat (b_target b)).

Definition region_loss (criterion : list float -> list float -> float) (mode : bool)
    (b : batch) (mask : list (list bool)) (p : Params) : float :=
  criterion (masked_select (reconstruct mode p (b_input b) (b_time b)) mask)
            (masked_select (b_target b) mask).

(** The body of the loop of [train_epoch]. *)
Definition train_step (criterion : list float -> list float -> float) (scheduler : bool)
    (acc : totals) (b : batch) : M world totals :=
  let mask := b_mask b in
  _ ← modify (set_grads grad_none);
  w ← get;
  let loss := full_loss criterion (training w) b in
  let masked_loss := region_loss criterion (training w) b mask in
  let unmasked_loss := region_loss criterion (training w) b (mask_not mask) in
  _ ← modify (fun w => set_grads (backward loss (params w) (grads w)) w);
  _ ← modify (fun w => set_grads (clip_grad_norm_ (Fl.one binary64) (grads w)) w);
  _ ← modify (fun w => set_params_opt (optimizer_step (grads w) (params w) (opt w)) w);
  _ ← (if scheduler
       then modify (fun w => set_sched_opt (scheduler_step (sched w) (opt w)) w)
       else mret tt);
  mret (Totals (py_add (total_loss acc) (item (loss (params w))))
               (py_add (total_masked_loss acc) (item (masked_loss (params w))))
               (py_add (total_unmasked_loss acc) (item (unmasked_loss (params w))))
               (n_batches acc + 1)).

(** The dict returned by both loops. *)
Definition epoch_means (acc : totals) : outcome metrics :=
  a ← py_truediv (total_loss acc) (n_batches acc);
  b ← py_truediv (total_masked_loss acc) (n_batches acc);
  c ← py_truediv (total_unmasked_loss acc) (n_batches acc);
  Ok (Metrics a b c).

Definition totals0 : totals := Totals Fl.zero Fl.zero Fl.zero 0.

Definition train_epoch (dataloader : DataLoader)
    (criterion : list float -> list float -> float) (scheduler : bool) : M world metrics :=
  _ ← modify (set_training true);
  acc ← for_batches dataloader totals0 (train_step criterion scheduler);
  lift (epoch_means acc).

(** The body of the loop of [validate_epoch], under [torch.no_grad()]. *)
Definition validate_step (criterion : list float -> list float -> float)
    (acc : totals) (b : batch) : M world totals :=
  let mask := b_mask b in
  w ← get;
  let loss := full_loss criterion (training w) b (params w) in
  let masked_loss := region_loss criterion (training w) b mask (params w) in
  let unmasked_loss := region_loss criterion (training w) b (mask_not mask) (params w) in
  mret (Totals (py_add (total_loss acc) (item loss))
               (py_add (total_masked_loss acc) (item masked_loss))
               (py_add (total_unmasked_loss acc) (item unmasked_loss))
               (n_batches acc + 1)).

Definition validate_epoch (dataloader : DataLoader)
    (criterion : list float -> list float -> float) : M world metrics :=
  _ ← modify (set_training false);
  acc ← for_batches dataloader totals0 (validate_step criterion);
  lift (epoch_means acc).

(** ** plot_reconstruction_examples *)

(** Only what the function does to the run is kept: the model is put in
    eval mode, one batch is drawn from the loader, [plt.subplots] makes
    [n_examples] rows of axes (it refuses to make none), each of the
    [n_examples] rows is indexed and plotted against its timestamps, and
    the figure is saved. *)
Definition plot_reconstruction_examples (dataloader : DataLoader) (save_path : string)
    (n_examples : nat) : M world unit :=
  _ ← modify (set_training false);
  order ← with_rng (loader_order dataloader);
  b ← match order with
      | [] => raise StopIteration
      | chunk :: _ => with_rng (fetch dataloader chunk)
      end;
  let x_input := take n_examples (b_input b) in
  let x_target := take n_examples (b_target b) in
  let timestamps := take n_examples (b_time b) in
  w ← get;
  let x_recon := reconstruct (training w) (params w) x_input timestamps in
  _ ← (if decide (n_examples = 0%nat) then raise ValueError else mret tt);
  _ ← for_each (seq 0 n_examples) (fun i =>
        match timestamps !! i, x_target !! i, x_recon !! i with
        | Some t, Some target, Some recon =>
            if decide (length t = length target ∧ length t = length recon)
            then mret tt else raise ValueError
        | _, _, _ => raise IndexError
        end);
  modify (fun w => set_files (<[save_path := Figure]> (files w)) w).

(** ** main *)

(** [output_dir / name] *)
Definition path_join (dir name : string) : string := dir +:+ "/" +:+ name.

(** [collate_fn = partial(collate_with_masking, ...)] *)
Definition main_collate_fn (args : Args) : list sample -> M Generator batch :=
  fun items =>
    collate_with_masking items 1 (Some (arg_block_size args)) (lit 1 10) (arg_mask_ratio args).

(** [val_size], [train_size] and the call of [random_split]. *)
Definition split_dataset (dataset : LightCurveDataset) (val_split : float) (seed : Z)
  : outcome (Subset * Subset) :=
  val_size ← py_int (py_int_mul (Z.of_nat (ds_len dataset)) val_split);
  let train_size := (Z.of_nat (ds_len dataset) - val_size)%Z in
  subsets ← random_split dataset [train_size; val_size] (manual_seed seed);
  match subsets with
  | [train_dataset; val_dataset] => Ok (train_dataset, val_dataset)
  | _ => Raise ValueError
  end.

(** What [main] has built when the epoch loop starts. *)
Record prepared := Prepared {
  pr_dataset : LightCurveDataset;
  pr_train_dataset : Subset;
  pr_val_dataset : Subset;
  pr_train_loader : DataLoader;
  pr_val_loader : DataLoader;
  pr_config : TransformerConfig;
  pr_printed : list string
}.

(** [torch.manual_seed(seed)] takes a seed of 64 bits, signed or
    unsigned, and [np.random.seed(seed)] one of 32 bits, unsigned. *)
Definition seed_all (seed : Z) : outcome unit :=
  _ ← (if decide (- 2 ^ 63 ≤ seed ≤ 2 ^ 64 - 1)%Z then Ok tt else Raise RuntimeError);
  if decide (0 ≤ seed ≤ 2 ^ 32 - 1)%Z then Ok tt else Raise ValueError.

(** [# Device]: with [auto], cuda or cpu, whichever is there; any other
    name is given to [torch.device]. *)
Definition select_device (device : string) : outcome unit :=
  if decide (device = "auto") then Ok tt
  else if device_ok device then Ok tt else Raise RuntimeError.

(** [main] up to the epoch loop: seeding, the device, loading, the
    statistics printout (NumPy refuses the minimum of an empty array),
    dataset, split, loaders, model, optimizer (AdamW refuses a learning
    rate [lr] for which [0.0 <= lr] is false) and scheduler (OneCycleLR
    refuses a total of steps that is not positive).  Creating the output
    directory, building the model and moving it to the device are taken
    to succeed. *)
Definition prepare (args : Args) (disk : gmap string h5file)
  : outcome (prepared * (gmap string artifact -> world)) :=
  _ ← seed_all (arg_seed args);
  let g := manual_seed (arg_seed args) in
  _ ← select_device (arg_device args);
  ld ← load_lightcurve_data disk (arg_input args);
  let flux := ld_flux ld in
  let timestamps := ld_timestamps ld in
  _ ← (if decide (nd_size flux = 0%nat) then Raise ValueError else Ok tt);
  _ ← (if decide (nd_size timestamps = 0%nat) then Raise ValueError else Ok tt);
  dataset ← LightCurveDataset_init flux timestamps;
  '(train_dataset, val_dataset) ← split_dataset dataset (arg_val_split args) (arg_seed args);
  let collate_fn := main_collate_fn args in
  train_loader ← DataLoader_init train_dataset (arg_batch_size args) true collate_fn;
  val_loader ← DataLoader_init val_dataset (arg_batch_size args) false collate_fn;
  let seq_len := nd_cols flux in
  let config :=
    MkConfig 2 seq_len (arg_encoder_dims args) (arg_nhead args) (arg_num_layers args)
             (arg_num_transformer_blocks args) Fl.zero (lit 278 100000) (lit 1640 1) in
  let '(p, g1) := init_params config g in
  _ ← (if Fl.leb Fl.zero (arg_lr args) then Ok tt else Raise ValueError);
  let optimizer := AdamW p (arg_lr args) (lit 1 100) in
  let total_steps := (Z.of_nat (dl_len train_loader) * arg_epochs args)%Z in
  _ ← (if decide (total_steps ≤ 0)%Z then Raise ValueError else Ok tt);
  let scheduler := OneCycleLR (arg_lr args) total_steps (lit 1 10) (lit 100 1) (lit 100 1) in
  Ok (Prepared dataset train_dataset val_dataset train_loader val_loader config
               (ld_printed ld),
      World g1 p true grad_none optimizer scheduler).

(** The local variables of the epoch loop. *)
Record loop_state := LoopState {
  best_val_loss : float;
  train_losses : list float;
  val_losses : list float
}.

(** [torch.save(d, path)] *)
Definition torch_save (d : gmap string ckpt_value) (path : string) : M world unit :=
  modify (fun w => set_files (<[path := Checkpoint d]> (files w)) w).

Definition best_path (args : Args) : string :=
  path_join (arg_output_dir args) "transformer_best.pt".
Definition periodic_path (args : Args) (epoch : Z) : string :=
  path_join (arg_output_dir args)
            ("transformer_checkpoint_epoch" +:+ pretty (epoch + 1)%Z +:+ ".pt").
Definition final_path (args : Args) : string :=
  path_join (arg_output_dir args) "transformer_final.pt".
Definition recon_path (args : Args) (epoch : Z) : string :=
  path_join (arg_output_dir args)
            ("transformer_recon_epoch" +:+ pretty (epoch + 1)%Z +:+ ".png").
Definition curve_path (args : Args) : string :=
  path_join (arg_output_dir args) "transformer_training_curve.png".

(** The three dicts given to [torch.save]. *)
Definition best_checkpoint (epoch : Z) (w : world) (config : TransformerConfig)
    (train_loss val_loss : float) : gmap string ckpt_value :=
  {[ "epoch" := VInt epoch;
     "model_state_dict" := VModelState (params w);
     "optimizer_state_dict" := VOptimState (opt w);
     "train_loss" := VFloat train_loss;
     "val_loss" := VFloat val_loss;
     "config" := VConfig config ]}.

Definition periodic_checkpoint (epoch : Z) (w : world) (config : TransformerConfig)
    (val_loss : float) : gmap string ckpt_value :=
  {[ "epoch" := VInt epoch;
     "model_state_dict" := VModelState (params w);
     "optimizer_state_dict" := VOptimState (opt w);
     "val_loss" := VFloat val_loss;
     "config" := VConfig config ]}.

Definition final_checkpoint (epochs : Z) (w : world) (config : TransformerConfig)
  : gmap string ckpt_value :=
  {[ "epoch" := VInt epochs;
     "model_state_dict" := VModelState (params w);
     "optimizer_state_dict" := VOptimState (opt w);
     "config" := VConfig config ]}.

(** [# Save best model] *)
Definition save_best (args : Args) (pr : prepared) (epoch : Z)
    (train_metrics val_metrics : metrics) (st : loop_state) : M world loop_state :=
  if Fl.ltb (m_total_loss val_metrics) (best_val_loss st) then
    let best := m_total_loss val_metrics in
    w ← get;
    _ ← torch_save (best_checkpoint epoch w (pr_config pr)
                                    (m_total_loss train_metrics) best)
                   (best_path args);
    mret (LoopState best (train_losses st) (val_losses st))
  else mret st.

(** [# Save periodic checkpoints] *)
Definition save_periodic (args : Args) (pr : prepared) (epoch : Z)
    (val_metrics : metrics) : M world unit :=
  r ← lift (py_mod (epoch + 1) (arg_save_every args));
  if decide (r = 0%Z) then
    w ← get;
    torch_save (periodic_checkpoint epoch w (pr_config pr) (m_total_loss val_metrics))
               (periodic_path args epoch)
  else mret tt.

(** The body of [for epoch in range(args.epochs)]. *)
Definition epoch_body (args : Args) (pr : prepared) (st : loop_state) (epoch : Z)
  : M world loop_state :=
  train_metrics ← train_epoch (pr_train_loader pr) mse_loss true;
  let st := LoopState (best_val_loss st)
                      (train_losses st ++ [m_total_loss train_metrics]) (val_losses st) in
  val_metrics ← validate_epoch (pr_val_loader pr) mse_loss;
  let st := LoopState (best_val_loss st) (train_losses st)
                      (val_losses st ++ [m_total_loss val_metrics]) in
  st ← save_best args pr epoch train_metrics val_metrics st;
  _ ← (if decide (((epoch + 1) mod 10 = 0)%Z ∨ epoch = 0%Z)
       then plot_reconstruction_examples (pr_val_loader pr) (recon_path args epoch) 4
       else mret tt);
  _ ← save_periodic args pr epoch val_metrics;
  mret st.

(** [range(n)] *)
Definition py_range (n : Z) : list Z := map Z.of_nat (seq 0 (Z.to_nat n)).

Definition loop_state0 : loop_state := LoopState Fl.inf [] [].

(** The epoch loop, the final checkpoint and the training curve. *)
Definition run_epochs (args : Args) (pr : prepared) : M world loop_state :=
  st ← for_fold (py_range (arg_epochs args)) loop_state0 (epoch_body args pr);
  w ← get;
  _ ← torch_save (final_checkpoint (arg_epochs args) w (pr_config pr)) (final_path args);
  _ ← modify (fun w => set_files (<[curve_path args := Figure]> (files w)) w);
  mret st.

(** [main()]: the exception that ended it, if any, and the files of the
    output directory afterwards, [files0] being those found there. *)
Definition main (args : Args) (disk : gmap string h5file) (files0 : gmap string artifact)
  : outcome loop_state * gmap string artifact :=
  match prepare args disk with
  | Raise e => (Raise e, files0)
  | Ok (pr, mk) => let '(o, w) := run_epochs args pr (mk files0) in (o, files w)
  end.

End Script.

(** ** Vocabulary of the statements *)

(** A relation between the state before and after that every step of a
    computation keeps, whether it returns or raises. *)
Definition respects {S A} (R : relation S) (m : M S A) : Prop :=
  forall s, R s (m s).2.

(** What the loader does to one array. *)
Definition cleaned (a : ndarray) : ndarray :=
  if decide (0 < count_nan a)%nat then nan_to_num a else a.

Section Vocabulary.
Context `{RT : Runtime}.

(** The model's parameters, the gradient buffers, the optimizer and the
    scheduler are the same. *)
Definition same_learner : relation world := fun w w' =>
  params w' = params w /\ grads w' = grads w /\ opt w' = opt w /\ sched w' = sched w.

(** The files are the same. *)
Definition same_files : relation world := fun w w' => files w' = files w.

(** The file at [path], or its absence, is the same. *)
Definition keeps_file (path : string) : relation world := fun w w' =>
  files w' !! path = files w !! path.

(** The batch with another mask tensor, the rest as it is. *)
Definition with_mask (b : batch) (mask : list (list bool)) : batch :=
  Batch (b_input b) (b_target b) (b_time b) mask (b_block_size b) (b_mask_ratio b).

(** The world after a training batch: the gradient buffers hold the
    clipped gradient of the whole-sequence loss, the optimizer has made
    its step with them, the scheduler has advanced. *)
Definition trained (criterion : list float -> list float -> float) (scheduler : bool)
    (b : batch) (w : world) : world :=
  let g := clip_grad_norm_ (Fl.one binary64)
             (backward (full_loss criterion (training w) b) (params w) grad_none) in
  let po := optimizer_step g (params w) (opt w) in
  let so := if scheduler then scheduler_step (sched w) po.2 else (sched w, po.2) in
  World (rng w) po.1 (training w) g so.2 so.1 (files w).

(** The running totals after a batch. *)
Definition batch_totals (criterion : list float -> list float -> float)
    (acc : totals) (b : batch) (w : world) : totals :=
  Totals (py_add (total_loss acc) (item (full_loss criterion (training w) b (params w))))
         (py_add (total_masked_loss acc)
                 (item (region_loss criterion (training w) b (b_mask b) (params w))))
         (py_add (total_unmasked_loss acc)
                 (item (region_loss criterion (training w) b (mask_not (b_mask b))
                                    (params w))))
         (n_batches acc + 1).

(** The draws of the mask generator for the rows of a batch, in order. *)
Fixpoint draw_all (min_block_size max_block_size : Z) (min_mask_ratio max_mask_ratio : float)
    (rows : list tensor1) (g : Generator) : list (list bool * Z * float) * Generator :=
  match rows with
  | [] => ([], g)
  | flux :: rows' =>
      let '(d, g1) := draw_block_mask (length flux) min_block_size max_block_size
                                      min_mask_ratio max_mask_ratio g in
      let '(ds, g2) := draw_all min_block_size max_block_size
                                min_mask_ratio max_mask_ratio rows' g1 in
      (d :: ds, g2)
  end.

(** What every checkpoint is asked to hold, the loss values apart. *)
Definition ckpt_core (d : gmap string ckpt_value) : Prop :=
  (exists z, d !! "epoch" = Some (VInt z)) /\
  (exists p, d !! "model_state_dict" = Some (VModelState p)) /\
  (exists o, d !! "optimizer_state_dict" = Some (VOptimState o)) /\
  (exists c, d !! "config" = Some (VConfig c)).

Definition checkpoints_ok (fs : gmap string artifact) : Prop :=
  forall path d, fs !! path = Some (Checkpoint d) -> ckpt_core d.

Definition keeps_checkpoints_ok : relation world := fun w w' =>
  checkpoints_ok (files w) -> checkpoints_ok (files w').

(** Tests on the files of a run: there is a checkpoint at [path], and it
    has an entry for [key]. *)
Definition is_checkpoint (fs : gmap string artifact) (path : string) : bool :=
  match fs !! path with Some (Checkpoint _) => true | _ => false end.

Definition file_exists (fs : gmap string artifact) (path : string) : bool :=
  match fs !! path with Some _ => true | None => false end.


End Vocabulary.

(** ** An executable runtime

    A one-parameter network (the reconstruction is the masked signal
    scaled by the parameter), the mean squared error summed from left to
    right in binary32, a finite-difference gradient, a gradient-descent
    step that counts its calls, and counters for the random generators.
    It runs the script on concrete data. *)
Module Toy.

Definition f32_add := Fl.add binary32.
Definition f32_sub := Fl.sub binary32.
Definition f32_mul := Fl.mul binary32.
Definition f32_div := Fl.div binary32.

Fixpoint sq_err_sum (xs ys : list float) : float :=
  match xs, ys with
  | x :: xs', y :: ys' =>
      let d := f32_sub x y in f32_add (f32_mul d d) (sq_err_sum xs' ys')
  | _, _ => Fl.zero
  end.

Definition mse (xs ys : list float) : float :=
  f32_div (sq_err_sum xs ys) (Fl.of_Z binary32 (Z.of_nat (length xs))).

(** The block of one position at the offset the generator gives. *)
Definition draw (L : nat) (min_block max_block : Z) (min_ratio max_ratio : float)
    (g : nat) : (list bool * Z * float) * nat :=
  let start := (g `mod` L)%nat in
  ((map (fun i => Nat.eqb i start) (seq 0 L), 1%Z,
    Fl.div binary64 (Fl.of_Z binary64 1) (Fl.of_Z binary64 (Z.of_nat L))),
   S g).

Definition step_size : float := Fl.div binary32 (Fl.of_Z binary32 1) (Fl.of_Z binary32 1024).

Definition finite_difference (f : float -> float) (p : float) : float :=
  f32_div (f32_sub (f (f32_add p step_size)) (f p)) step_size.

Definition clip (max_norm g : float) : float :=
  if Fl.ltb max_norm (SFabs g) then
    (if Fl.ltb g Fl.zero then SFopp (Fl.round binary32 max_norm)
     else Fl.round binary32 max_norm)
  else g.

#[export] Instance runtime : Runtime := {|
  device_ok := fun name => bool_decide (name = "cpu");
  Generator := nat;
  manual_seed := Z.to_nat;
  randperm := fun n g => (reverse (seq 0 n), S g);
  randperm_perm := fun n g => reverse_Permutation (seq 0 n);
  random_sampler := fun n g => (reverse (seq 0 n), S g);
  loader_iter := S;
  draw_block_mask := draw;
  Params := float;
  init_params := fun _ g => (Fl.one binary32, S g);
  reconstruct := fun _ p x _ => map (map (fun vm : float * float => f32_mul p vm.1)) x;
  mse_loss := mse;
  Grad := float;
  grad_none := Fl.zero;
  backward := fun f p g => f32_add g (finite_difference f p);
  clip_grad_norm_ := clip;
  OptState := nat * float;
  AdamW := fun _ lr _ => (0%nat, Fl.round binary32 lr);
  optimizer_step := fun g p o => (f32_sub p (f32_mul o.2 g), (S o.1, o.2));
  Sched := nat;
  OneCycleLR := fun _ _ _ _ _ => 0%nat;
  scheduler_step := fun s o => (S s, o)
|}.

(** Eight light curves of three samples each: [flux k j = k + j/4],
    [time k j = j]. *)
Definition curve (k : Z) : list float :=
  map (fun j => lit (4 * k + j) 4) [0; 1; 2]%Z.
Definition times : list float := map (Fl.of_Z binary64) [0; 1; 2]%Z.

Definition flux_array : ndarray := NdArray float64 3 (map curve [0; 1; 2; 3; 4; 5; 6; 7]%Z).
Definition time_array : ndarray := NdArray float64 3 (replicate 8 times).

(** The same with an infinite flux value in every light curve. *)
Definition curve_inf (k : Z) : list float := [lit k 1; Fl.inf; lit k 1].
Definition flux_array_inf : ndarray :=
  NdArray float64 3 (map curve_inf [0; 1; 2; 3; 4; 5; 6; 7]%Z).

(** Two light curves with missing values, timestamps with one. *)
Definition flux_array_nan : ndarray :=
  NdArray float64 3 [[lit 1 2; Fl.nan; lit 3 2]; [Fl.nan; Fl.nan; Fl.inf]].
Definition time_array_nan : ndarray :=
  NdArray float64 3 [[lit 0 1; lit 1 1; Fl.nan]; [lit 0 1; lit 1 1; lit 2 1]].

(** Timestamps of another shape than the flux, and arrays without rows. *)
Definition time_array_short : ndarray :=
  NdArray float64 2 (replicate 8 (map (Fl.of_Z binary64) [0; 1]%Z)).
Definition empty_array : ndarray := NdArray float64 3 [].

Definition h5 (flux time : ndarray) : h5file :=
  {[ "flux" := H5Dataset flux; "time" := H5Dataset time ]}.

Definition disk : gmap string h5file :=
  {[ "lc.h5" := h5 flux_array time_array;
     "inf.h5" := h5 flux_array_inf time_array;
     "nan.h5" := h5 flux_array_nan time_array_nan;
     "mismatch.h5" := h5 flux_array time_array_short;
     "empty.h5" := h5 empty_array empty_array;
     "group.h5" := {[ "flux" := H5Group; "time" := H5Dataset time_array ]};
     "scalar.h5" := {[ "flux" := H5Dataset flux_array; "time" := H5Scalar ]} ]}.

(** [--input .. --output_dir out --epochs .. --batch_size 4 --val_split 0.5
    --block_size 2 --save_every ..], the rest at its default. *)
Definition args (input : string) (epochs save_every : Z) : Args :=
  MkArgs input "out" epochs 4 (lit 1 10000) [64; 128; 256; 512]%Z 4 4 2
         (lit 1 2) 2 (lit 1 2) 42 "auto" save_every.

(** What [main] has built for these arguments when its loop starts. *)
Definition prepared_of (a : Args) : prepared * (gmap string artifact -> world) :=
  let d := Dataset [] [] in
  let s := MkSubset d [] in
  let l := MkLoader s 1 false (main_collate_fn a) in
  ok_or (Prepared d s s l l (MkConfig 0 0 [] 0 0 0 Fl.zero Fl.zero Fl.zero) [],
         World 0%nat Fl.zero true Fl.zero (0%nat, Fl.zero) 0%nat)
        (prepare a disk).

(** A world in train mode, and a batch of one light curve with an
    infinite flux value, its first position masked. *)
Definition w0 : world :=
  World 0%nat (Fl.one binary32) true Fl.zero (0%nat, Fl.round binary32 (lit 1 10000))
        0%nat ∅.

Definition b_inf : batch :=
  Batch [[(Fl.zero, Fl.one binary32); (Fl.inf, Fl.zero); (Fl.one binary32, Fl.zero)]]
        [[Fl.one binary32; Fl.inf; Fl.one binary32]]
        [map (Fl.of_Z binary32) [0; 1; 2]%Z]
        [[true; false; false]] [1%Z] [lit 1 3].

End Toy.

(** * Properties *)

(** ** The monad *)

Lemma M_bind_unfold {S A B} (m : M S A) (k : A -> M S B) (s : S) :
  (m ≫= k) s = match m s with
               | (Ok a, s') => k a s'
               | (Raise e, s') => (Raise e, s')
               end.
Proof. reflexivity. Qed.

Lemma M_bind_ok {S A B} (m : M S A) (k : A -> M S B) (s s2 : S) (b : B) :
  (m ≫= k) s = (Ok b, s2) ->
  exists a s1, m s = (Ok a, s1) /\ k a s1 = (Ok b, s2).
Proof.
  rewrite M_bind_unfold. destruct (m s) as [[a|e] s1]; intros H.
  - exists a, s1. split; [reflexivity | exact H].
  - discriminate H.
Qed.

Lemma outcome_bind_ok {A B} (o : outcome A) (k : A -> outcome B) (b : B) :
  (o ≫= k) = Ok b -> exists a, o = Ok a /\ k a = Ok b.
Proof.
  destruct o as [a|e]; intros H.
  - exists a. split; [reflexivity | exact H].
  - discriminate H.
Qed.

Section Respects.
Context {S : Type} (R : relation S) `{!Reflexive R} `{!Transitive R}.

Lemma respects_ret {A} (a : A) : respects R (mret a : M S A).
Proof. intros s. simpl. reflexivity. Qed.

Lemma respects_raise {A} (e : py_exn) : respects R (raise e : M S A).
Proof. intros s. simpl. reflexivity. Qed.

Lemma respects_lift {A} (o : outcome A) : respects R (lift o : M S A).
Proof. intros s. simpl. reflexivity. Qed.

Lemma respects_get : respects R (get : M S S).
Proof. intros s. simpl. reflexivity. Qed.

Lemma respects_modify (f : S -> S) :
  (forall s, R s (f s)) -> respects R (modify f).
Proof. intros H s. simpl. apply H. Qed.

Lemma respects_bind {A B} (m : M S A) (k : A -> M S B) :
  respects R m -> (forall a, respects R (k a)) -> respects R (m ≫= k).
Proof.
  intros Hm Hk s. rewrite M_bind_unfold.
  specialize (Hm s). destruct (m s) as [[a|e] s1]; simpl in *.
  - transitivity s1; [exact Hm | apply Hk].
  - exact Hm.
Qed.

Lemma respects_for_fold {A B} (xs : list A) (body : B -> A -> M S B) (acc : B) :
  (forall acc x, respects R (body acc x)) -> respects R (for_fold xs acc body).
Proof.
  intros Hb. revert acc. induction xs as [|x xs IH]; intros acc; simpl.
  - apply respects_ret.
  - apply respects_bind; [apply Hb | intros acc'; apply IH].
Qed.

Lemma respects_for_each {A} (xs : list A) (body : A -> M S unit) :
  (forall x, respects R (body x)) -> respects R (for_each xs body).
Proof.
  intros Hb. induction xs as [|x xs IH]; simpl.
  - apply respects_ret.
  - apply respects_bind; [apply Hb | intros _; exact IH].
Qed.

End Respects.

(** ** What the loops leave alone *)

Section Frames.
Context `{RT : Runtime}.

#[local] Instance same_learner_refl : Reflexive same_learner.
Proof. intros w. unfold same_learner. auto. Qed.

#[local] Instance same_learner_trans : Transitive same_learner.
Proof.
  intros a b c (H1 & H2 & H3 & H4) (K1 & K2 & K3 & K4).
  unfold same_learner. repeat split; congruence.
Qed.

#[local] Instance same_files_refl : Reflexive same_files.
Proof. intros w. reflexivity. Qed.

#[local] Instance same_files_trans : Transitive same_files.
Proof. intros a b c H1 H2. unfold same_files in *. congruence. Qed.

Lemma respects_with_rng (R : relation world) {A} (m : M Generator A) :
  (forall w g, R w (set_rng g w)) -> respects R (with_rng m).
Proof.
  intros H w. unfold with_rng. destruct (m (rng w)) as [o g]. simpl. apply H.
Qed.

Lemma respects_for_batches (R : relation world) `{!Reflexive R} `{!Transitive R}
    {B} (dl : DataLoader) (acc : B) (body : B -> batch -> M world B) :
  (forall w g, R w (set_rng g w)) ->
  (forall acc b, respects R (body acc b)) ->
  respects R (for_batches dl acc body).
Proof.
  intros Hrng Hbody. unfold for_batches.
  apply (respects_bind R).
  - apply respects_with_rng, Hrng.
  - intros order. apply (respects_for_fold R).
    intros acc' chunk. apply (respects_bind R).
    + apply respects_with_rng, Hrng.
    + intros b. apply Hbody.
Qed.

Lemma validate_step_respects (R : relation world) `{!Reflexive R} `{!Transitive R}
    criterion acc b :
  respects R (validate_step criterion acc b).
Proof.
  unfold validate_step. apply (respects_bind R).
  - apply (respects_get R).
  - intros w. apply (respects_ret R).
Qed.

Lemma validate_epoch_respects (R : relation world) `{!Reflexive R} `{!Transitive R}
    dl criterion :
  (forall w g, R w (set_rng g w)) ->
  (forall w b, R w (set_training b w)) ->
  respects R (validate_epoch dl criterion).
Proof.
  intros Hrng Htr. unfold validate_epoch.
  apply (respects_bind R).
  { apply (respects_modify R). intros w. apply Htr. }
  intros _. apply (respects_bind R).
  { apply (respects_for_batches R); try assumption.
    intros acc b. apply (validate_step_respects R). }
  intros acc. apply (respects_lift R).
Qed.

Lemma train_step_same_files criterion scheduler acc b :
  respects same_files (train_step criterion scheduler acc b).
Proof.
  unfold train_step.
  repeat (first
    [ apply (respects_ret same_files)
    | apply (respects_get same_files)
    | apply (respects_modify same_files); intros ?; reflexivity
    | apply (respects_bind same_files); [| intros ?]
    | destruct scheduler ]).
Qed.

Lemma train_epoch_same_files dl criterion scheduler :
  respects same_files (train_epoch dl criterion scheduler).
Proof.
  unfold train_epoch.
  apply (respects_bind same_files).
  { apply (respects_modify same_files). intros w. reflexivity. }
  intros _. apply (respects_bind same_files).
  { apply (respects_for_batches same_files).
    - intros w g. reflexivity.
    - intros acc b. apply train_step_same_files. }
  intros acc. apply (respects_lift same_files).
Qed.

Lemma validate_epoch_same_files dl criterion :
  respects same_files (validate_epoch dl criterion).
Proof.
  apply (validate_epoch_respects same_files); intros; reflexivity.
Qed.

Lemma validate_epoch_same_learner dl criterion :
  respects same_learner (validate_epoch dl criterion).
Proof.
  apply (validate_epoch_respects same_learner);
    intros; unfold same_learner; simpl; auto.
Qed.

End Frames.

(** ** The loader *)

Lemma nan_to_num1_not_nan d x : Fl.isnan (nan_to_num1 d x) = false.
Proof. destruct d, x as [s|[]| |s m e]; reflexivity. Qed.

Lemma count_nan_row_clean d (r : list float) :
  count_nan_row (map (nan_to_num1 d) r) = 0%nat.
Proof.
  unfold count_nan_row. induction r as [|x r IH]; [reflexivity|].
  simpl. rewrite filter_cons. destruct (decide _) as [E|E].
  - rewrite nan_to_num1_not_nan in E. discriminate E.
  - exact IH.
Qed.

Lemma count_nan_clean (a : ndarray) : count_nan (nan_to_num a) = 0%nat.
Proof.
  unfold count_nan, nan_to_num. simpl.
  induction (nd_rows a) as [|r rows IH]; [reflexivity|].
  simpl. rewrite count_nan_row_clean, IH. reflexivity.
Qed.

Lemma nan_to_num_lookup (a : ndarray) (i j : nat) (r : list float) (x : float) :
  nd_rows a !! i = Some r -> r !! j = Some x ->
  exists r', nd_rows (nan_to_num a) !! i = Some r'
             /\ r' !! j = Some (nan_to_num1 (nd_dtype a) x).
Proof.
  intros Hr Hx. exists (map (nan_to_num1 (nd_dtype a)) r). split.
  - unfold nan_to_num. simpl. rewrite list_lookup_fmap, Hr. reflexivity.
  - rewrite list_lookup_fmap, Hx. reflexivity.
Qed.

Lemma count_nan_row_lookup (r : list float) (j : nat) :
  r !! j = Some Fl.nan -> (0 < count_nan_row r)%nat.
Proof.
  unfold count_nan_row. revert j. induction r as [|x r IH]; intros j H; [discriminate|].
  rewrite filter_cons. destruct j as [|j]; simpl in H.
  - injection H as ->. simpl. lia.
  - destruct (decide _); simpl; [lia | eapply IH, H].
Qed.

Lemma count_nan_lookup (a : ndarray) (i j : nat) (r : list float) :
  nd_rows a !! i = Some r -> r !! j = Some Fl.nan -> (0 < count_nan a)%nat.
Proof.
  unfold count_nan. generalize (nd_rows a). intros rows. revert i.
  induction rows as [|r0 rows IH]; intros i Hr Hx; [discriminate|].
  simpl. destruct i as [|i]; simpl in Hr.
  - injection Hr as ->. apply count_nan_row_lookup in Hx. lia.
  - specialize (IH i Hr Hx). lia.
Qed.

Lemma load_lightcurve_data_eq disk path f flux time :
  disk !! path = Some f ->
  f !! "flux" = Some (H5Dataset flux) -> f !! "time" = Some (H5Dataset time) ->
  exists out,
    load_lightcurve_data disk path = Ok (Loaded (cleaned flux) (cleaned time) out) /\
    ((0 < count_nan flux)%nat ->
       "Warning: " +:+ pretty (count_nan flux) +:+ " NaN values found in flux" ∈ out) /\
    ((0 < count_nan time)%nat ->
       "Warning: " +:+ pretty (count_nan time) +:+ " NaN values found in timestamps" ∈ out).
Proof.
  intros Hd Hf Ht. unfold load_lightcurve_data, h5_get, cleaned.
  rewrite Hd. simpl. rewrite Hf. simpl. rewrite Ht. simpl.
  destruct (decide (0 < count_nan flux)%nat) as [Ef|Ef];
    destruct (decide (0 < count_nan time)%nat) as [Et|Et];
    eexists; (split; [reflexivity|]); split; intros H; try lia;
    set_solver.
Qed.

(** Of an array that has a NaN the infinities are rewritten as well, and
    are not counted. *)
Fact nan_to_num_clamps_infinities (d : dtype) :
  nan_to_num1 d Fl.inf = Fl.max_float (finfo d) /\
  nan_to_num1 d Fl.neg_inf = SFopp (Fl.max_float (finfo d)).
Proof. split; reflexivity. Qed.

(** C9: the loader replaces every NaN of the flux array and of the
    timestamp array by 0.0, so that none is left, prints for each array
    the number of NaN values it found there, and returns an array without
    NaN as it is. *)
Theorem C9_nan_replaced_and_counted
    (disk : gmap string h5file) (path : string) (f : h5file) (flux time : ndarray) :
  disk !! path = Some f ->
  f !! "flux" = Some (H5Dataset flux) -> f !! "time" = Some (H5Dataset time) ->
  exists ld,
    load_lightcurve_data disk path = Ok ld /\
    (forall i j r, nd_rows flux !! i = Some r -> r !! j = Some Fl.nan ->
       exists r', nd_rows (ld_flux ld) !! i = Some r' /\ r' !! j = Some Fl.zero) /\
    (forall i j r, nd_rows time !! i = Some r -> r !! j = Some Fl.nan ->
       exists r', nd_rows (ld_timestamps ld) !! i = Some r' /\ r' !! j = Some Fl.zero) /\
    count_nan (ld_flux ld) = 0%nat /\
    count_nan (ld_timestamps ld) = 0%nat /\
    ((0 < count_nan flux)%nat ->
       "Warning: " +:+ pretty (count_nan flux) +:+ " NaN values found in flux"
         ∈ ld_printed ld) /\
    ((0 < count_nan time)%nat ->
       "Warning: " +:+ pretty (count_nan time) +:+ " NaN values found in timestamps"
         ∈ ld_printed ld) /\
    (count_nan flux = 0%nat -> ld_flux ld = flux) /\
    (count_nan time = 0%nat -> ld_timestamps ld = time).
Proof.
  intros Hd Hf Ht.
  destruct (load_lightcurve_data_eq disk path f flux time Hd Hf Ht) as (out & -> & Wf & Wt).
  eexists. split; [reflexivity|]. simpl.
  assert (Hrep : forall a i j r, nd_rows a !! i = Some r -> r !! j = Some Fl.nan ->
            exists r', nd_rows (cleaned a) !! i = Some r' /\ r' !! j = Some Fl.zero).
  { intros a i j r Hr Hx. unfold cleaned.
    destruct (decide _) as [E|E].
    - destruct (nan_to_num_lookup a i j r Fl.nan Hr Hx) as (r' & H1 & H2). eauto.
    - exfalso. apply E. eapply count_nan_lookup; eassumption. }
  assert (Hclean : forall a, count_nan (cleaned a) = 0%nat).
  { intros a. unfold cleaned. destruct (decide _); [apply count_nan_clean | lia]. }
  assert (Hsame : forall a, count_nan a = 0%nat -> cleaned a = a).
  { intros a E. unfold cleaned. destruct (decide _); [lia | reflexivity]. }
  split; [intros i j r; apply Hrep|].
  split; [intros i j r; apply Hrep|].
  split; [apply Hclean|]. split; [apply Hclean|].
  split; [exact Wf|]. split; [exact Wt|].
  split; apply Hsame.
Qed.

(** ** What [main] has built when its loop starts *)

Section Prepare.
Context `{RT : Runtime}.

Lemma DataLoader_init_ok dataset batch_size shuffle collate_fn dl :
  DataLoader_init dataset batch_size shuffle collate_fn = Ok dl ->
  ((0 < batch_size)%Z /\ (shuffle = true -> sub_len dataset <> 0%nat)) /\
  dl = MkLoader dataset (Z.to_nat batch_size) shuffle collate_fn.
Proof.
  unfold DataLoader_init. intros H.
  destruct (decide _) as [E|E]; [discriminate|].
  destruct (decide _) as [E'|E']; [discriminate|].
  injection H as <-. split; [|reflexivity]. split; [lia|].
  intros Hs He. apply E. auto.
Qed.

Lemma prepare_ok args disk pr mk :
  prepare args disk = Ok (pr, mk) ->
  exists ld,
    load_lightcurve_data disk (arg_input args) = Ok ld /\
    nd_size (ld_flux ld) <> 0%nat /\
    LightCurveDataset_init (ld_flux ld) (ld_timestamps ld) = Ok (pr_dataset pr) /\
    split_dataset (pr_dataset pr) (arg_val_split args) (arg_seed args)
      = Ok (pr_train_dataset pr, pr_val_dataset pr) /\
    pr_train_loader pr
      = MkLoader (pr_train_dataset pr) (Z.to_nat (arg_batch_size args)) true
                 (main_collate_fn args) /\
    pr_val_loader pr
      = MkLoader (pr_val_dataset pr) (Z.to_nat (arg_batch_size args)) false
                 (main_collate_fn args).
Proof.
  unfold prepare. intros H.
  apply outcome_bind_ok in H as ([] & Hseed & H).
  apply outcome_bind_ok in H as ([] & Hdev & H).
  apply outcome_bind_ok in H as (ld & Hld & H).
  apply outcome_bind_ok in H as ([] & Hsz & H).
  apply outcome_bind_ok in H as ([] & Hsz' & H).
  apply outcome_bind_ok in H as (ds & Hds & H).
  apply outcome_bind_ok in H as ([tr va] & Hsplit & H).
  apply outcome_bind_ok in H as (tl & Htl & H).
  apply outcome_bind_ok in H as (vl & Hvl & H).
  destruct (init_params _ _) as [p g1].
  apply outcome_bind_ok in H as ([] & Hlr & H).
  apply outcome_bind_ok in H as ([] & Hsteps & H).
  injection H as <- <-. simpl.
  exists ld. split; [exact Hld|].
  split. { destruct (decide (nd_size (ld_flux ld) = 0%nat)); [discriminate | assumption]. }
  split; [exact Hds|]. split; [exact Hsplit|].
  apply DataLoader_init_ok in Htl as [_ ->]. apply DataLoader_init_ok in Hvl as [_ ->].
  split; reflexivity.
Qed.

End Prepare.

(** ** The training and the evaluation loop *)

Section Loops.
Context `{RT : Runtime}.

Lemma train_step_eq criterion scheduler acc b w :
  train_step criterion scheduler acc b w
  = (Ok (batch_totals criterion acc b w), trained criterion scheduler b w).
Proof. destruct scheduler; reflexivity. Qed.

Lemma trained_with_mask criterion scheduler b mask w :
  trained criterion scheduler (with_mask b mask) w = trained criterion scheduler b w.
Proof. reflexivity. Qed.

(** C1: in a training batch the loss handed to [backward] is the
    criterion (the mean squared error, in [main]) of the whole
    reconstruction against the whole target; the optimizer steps with
    the clipped gradient of that loss.  The masked-only and the
    unmasked-only loss are computed, as the criterion of the
    reconstruction against the target at the positions the mask of the
    batch selects, respectively leaves out, and are only added to the
    running totals: with any other mask tensor in the batch, the
    parameters, the gradients, the optimizer and the scheduler come out
    the same.  (Every batch is its own [with_mask] at its mask.) *)
Theorem C1_whole_sequence_loss_is_optimized
    (criterion : list float -> list float -> float) (scheduler : bool)
    (acc : totals) (b : batch) (w : world) :
  let loss := fun p =>
    criterion (concat (reconstruct (training w) p (b_input b) (b_time b)))
              (concat (b_target b)) in
  let g := clip_grad_norm_ (Fl.one binary64) (backward loss (params w) grad_none) in
  let w' := (train_step criterion scheduler acc b w).2 in
  grads w' = g /\
  params w' = (optimizer_step g (params w) (opt w)).1 /\
  opt w' = (if scheduler
            then (scheduler_step (sched w) (optimizer_step g (params w) (opt w)).2).2
            else (optimizer_step g (params w) (opt w)).2) /\
  (forall mask, (train_step criterion scheduler acc (with_mask b mask) w).2 = w') /\
  (forall mask,
      let x_recon := reconstruct (training w) (params w) (b_input b) (b_time b) in
      exists acc',
        (train_step criterion scheduler acc (with_mask b mask) w).1 = Ok acc' /\
        total_loss acc' = py_add (total_loss acc) (item (loss (params w))) /\
        total_masked_loss acc'
        = py_add (total_masked_loss acc)
                 (item (criterion (masked_select x_recon mask)
                                  (masked_select (b_target b) mask))) /\
        total_unmasked_loss acc'
        = py_add (total_unmasked_loss acc)
                 (item (criterion (masked_select x_recon (mask_not mask))
                                  (masked_select (b_target b) (mask_not mask)))) /\
        n_batches acc' = (n_batches acc + 1)%Z) /\
  with_mask b (b_mask b) = b.
Proof.
  intros loss g w'. subst w'. rewrite train_step_eq. simpl.
  split; [reflexivity|]. split; [reflexivity|].
  split; [destruct scheduler; reflexivity|].
  split; [|split].
  - intros mask. rewrite train_step_eq. reflexivity.
  - intros mask. rewrite train_step_eq. simpl. eexists.
    split; [reflexivity|]. repeat split; reflexivity.
  - destruct b; reflexivity.
Qed.

(** C4, as the script has it: no test of the loss stands between a
    batch and the optimizer.  Whatever the value of the loss, NaN and
    the infinities included, the batch does not raise, the optimizer
    steps with the clipped gradient, the scheduler advances, and the
    loss is added to the epoch's total. *)
Theorem C4_step_taken_whatever_the_loss
    (criterion : list float -> list float -> float) (acc : totals) (b : batch)
    (w : world) :
  let loss := full_loss criterion (training w) b in
  let g := clip_grad_norm_ (Fl.one binary64) (backward loss (params w) grad_none) in
  let po := optimizer_step g (params w) (opt w) in
  exists acc',
    train_step criterion true acc b w
    = (Ok acc', World (rng w) po.1 (training w) g (scheduler_step (sched w) po.2).2
                      (scheduler_step (sched w) po.2).1 (files w)) /\
    total_loss acc' = py_add (total_loss acc) (item (loss (params w))) /\
    n_batches acc' = (n_batches acc + 1)%Z.
Proof.
  intros loss g po. rewrite train_step_eq. eexists. split; [reflexivity|].
  split; reflexivity.
Qed.

(** C8: a validation pass leaves the parameters, the gradient buffers,
    the optimizer, the scheduler and the files as they were, whether it
    returns or raises; and the loader [main] builds for validation
    visits the indices 0, 1, 2, ... of the validation subset in that
    order, batch after batch, whatever the state of the random
    generator. *)
Theorem C8_validation_reads_only
    (dl : DataLoader) (criterion : list float -> list float -> float) (w : world) :
  let w' := (validate_epoch dl criterion w).2 in
  (params w' = params w /\ grads w' = grads w /\ opt w' = opt w /\ sched w' = sched w
   /\ files w' = files w) /\
  (forall args disk pr mk g,
      prepare args disk = Ok (pr, mk) ->
      (loader_order (pr_val_loader pr) g).1
      = Ok (chunks (Z.to_nat (arg_batch_size args))
                   (seq 0 (sub_len (pr_val_dataset pr))))).
Proof.
  intros w'. split.
  - pose proof (validate_epoch_same_learner dl criterion w) as (H1 & H2 & H3 & H4).
    pose proof (validate_epoch_same_files dl criterion w) as H5.
    subst w'. auto.
  - intros args disk pr mk g H.
    apply prepare_ok in H as (ld & _ & _ & _ & _ & _ & ->).
    reflexivity.
Qed.

End Loops.

(** ** The batch assembler *)

Section Collate.
Context `{RT : Runtime}.

Lemma zero_masked_length (flux : tensor1) :
  forall mask : list bool, length (zero_masked flux mask) = length flux.
Proof. induction flux as [|x flux IH]; intros [|m mask]; simpl; auto. Qed.

Lemma zero_masked_lookup (flux : tensor1) :
  forall (mask : list bool) (j : nat) (x : float) (m : bool),
    flux !! j = Some x -> mask !! j = Some m ->
    zero_masked flux mask !! j = Some (if m then Fl.zero else x).
Proof.
  induction flux as [|y flux IH]; intros [|m' mask] j x m Hx Hm; try discriminate.
  destruct j as [|j]; simpl in *.
  - injection Hx as <-. injection Hm as <-. reflexivity.
  - eapply IH; eassumption.
Qed.

Lemma stack_ok {A} (ts ts' : list (list A)) : stack ts = Ok ts' -> ts' = ts.
Proof.
  unfold stack. destruct ts as [|t ts]; [discriminate|].
  destruct (forallb _ _); [|discriminate]. intros H. injection H as <-. reflexivity.
Qed.

Lemma stack_last_ok {A} (a b : list A) (r : list (A * A)) :
  stack_last a b = Ok r -> length a = length b /\ r = zip a b.
Proof.
  unfold stack_last. destruct (Nat.eqb (length a) (length b)) eqn:E; [|discriminate].
  intros H. injection H as <-. apply Nat.eqb_eq in E. auto.
Qed.

Lemma lift_ok {S A} (o : outcome A) (s s' : S) (a : A) :
  lift o s = (Ok a, s') -> o = Ok a /\ s' = s.
Proof. unfold lift. intros H. injection H as -> ->. auto. Qed.

(** The loop over the rows of a batch, in terms of the generator's
    draws: it fails unless every mask drawn has the length of its row. *)
Lemma collate_loop_ok minb maxb minr maxr (rows : list tensor1) :
  forall acc g acc' g',
    collate_loop minb maxb minr maxr acc rows g = (Ok acc', g') ->
    let ds := (draw_all minb maxb minr maxr rows g).1 in
    g' = (draw_all minb maxb minr maxr rows g).2 /\
    Forall2 (fun (flux : tensor1) d => length d.1.1 = length flux) rows ds /\
    batch_inputs acc'
    = batch_inputs acc
      ++ zip_with (fun flux mask => zip (zero_masked flux mask) (map bool_to_float mask))
                  rows (map (fun d => d.1.1) ds) /\
    batch_targets acc' = batch_targets acc ++ rows /\
    batch_masks acc' = batch_masks acc ++ map (fun d => d.1.1) ds /\
    batch_block_sizes acc' = batch_block_sizes acc ++ map (fun d => d.1.2) ds /\
    batch_mask_ratios acc' = batch_mask_ratios acc ++ map (fun d => d.2) ds.
Proof.
  induction rows as [|flux rows IH]; intros acc g acc' g' H.
  - simpl in H. injection H as <- <-. simpl. rewrite !app_nil_r. repeat split; auto.
  - simpl in H. apply M_bind_ok in H as (acc1 & g1 & Hs & H).
    unfold collate_sample in Hs.
    apply M_bind_ok in Hs as ([[[fm mask] bs] ratio] & g1' & Hd & Hs).
    unfold dynamic_block_mask in Hd. simpl.
    destruct (draw_block_mask _ _ _ _ _ g) as [[[mask0 bs0] ratio0] g0] eqn:Ed.
    injection Hd as <- <- <- <- <-.
    apply M_bind_ok in Hs as (inp & g1'' & Hst & Hs).
    apply lift_ok in Hst as [Hst ->].
    apply stack_last_ok in Hst as [Hlen ->].
    injection Hs as <- <-.
    apply IH in H as (Hg & HF & Hi & Ht & Hm & Hb & Hr). simpl in *.
    destruct (draw_all minb maxb minr maxr rows g0) as [ds g2] eqn:Eds. simpl in *.
    rewrite zero_masked_length, length_map in Hlen.
    repeat split.
    + exact Hg.
    + constructor; [simpl; congruence | exact HF].
    + rewrite Hi, <- app_assoc. reflexivity.
    + rewrite Ht, <- app_assoc. reflexivity.
    + rewrite Hm, <- app_assoc. reflexivity.
    + rewrite Hb, <- app_assoc. reflexivity.
    + rewrite Hr, <- app_assoc. reflexivity.
Qed.

(** A batch that [collate_with_masking] returns. *)
Lemma collate_ok (items : list sample) minb (maxb : option Z) minr maxr g b g' :
  collate_with_masking items minb maxb minr maxr g = (Ok b, g') ->
  let rows := map s_flux items in
  let maxb' := match maxb with
               | None => (Z.of_nat (seq_len_of rows) / 2)%Z
               | Some m => m
               end in
  let ds := (draw_all minb maxb' minr maxr rows g).1 in
  g' = (draw_all minb maxb' minr maxr rows g).2 /\
  Forall2 (fun (flux : tensor1) d => length d.1.1 = length flux) rows ds /\
  b_input b
  = zip_with (fun flux mask => zip (zero_masked flux mask) (map bool_to_float mask))
             rows (map (fun d => d.1.1) ds) /\
  b_target b = rows /\
  b_time b = map s_time items /\
  b_mask b = map (fun d => d.1.1) ds /\
  b_block_size b = map (fun d => d.1.2) ds /\
  b_mask_ratio b = map (fun d => Fl.round binary32 d.2) ds.
Proof.
  unfold collate_with_masking. intros H.
  apply M_bind_ok in H as (bf & g1 & Hbf & H). apply lift_ok in Hbf as [Hbf ->].
  apply stack_ok in Hbf as ->.
  apply M_bind_ok in H as (bt & g1 & Hbt & H). apply lift_ok in Hbt as [Hbt ->].
  apply stack_ok in Hbt as ->.
  apply M_bind_ok in H as (acc & g1 & Hloop & H).
  apply collate_loop_ok in Hloop as (Hg & HF & Hi & Ht & Hm & Hb & Hr).
  simpl in Hi, Ht, Hm, Hb, Hr.
  apply M_bind_ok in H as (inp & g2 & Hinp & H). apply lift_ok in Hinp as [Hinp ->].
  apply stack_ok in Hinp as ->.
  apply M_bind_ok in H as (tgt & g2 & Htgt & H). apply lift_ok in Htgt as [Htgt ->].
  apply stack_ok in Htgt as ->.
  apply M_bind_ok in H as (msk & g2 & Hmsk & H). apply lift_ok in Hmsk as [Hmsk ->].
  apply stack_ok in Hmsk as ->.
  injection H as <- <-. simpl.
  repeat split; try assumption.
  rewrite Hr, map_map. reflexivity.
Qed.

(** C2: in a batch that the collate function returns, the target tensor
    is the flux of the samples and the time tensor their timestamps, as
    they were given.  Masking shows in the input tensor alone: at every
    position its first channel is 0.0 where the mask is set and the
    flux value elsewhere, and its second channel is the mask as 1.0 or
    0.0. *)
Theorem C2_target_is_unmasked_flux
    (items : list sample) (min_block_size : Z) (max_block_size : option Z)
    (min_mask_ratio max_mask_ratio : float) (g g' : Generator) (b : batch) :
  collate_with_masking items min_block_size max_block_size
                       min_mask_ratio max_mask_ratio g = (Ok b, g') ->
  b_target b = map s_flux items /\
  b_time b = map s_time items /\
  forall (i : nat) (flux : tensor1), map s_flux items !! i = Some flux ->
    exists (row : list (float * float)) (mask : list bool),
      b_input b !! i = Some row /\ b_mask b !! i = Some mask /\
      length row = length flux /\ length mask = length flux /\
      forall (j : nat) (x : float), flux !! j = Some x ->
        exists m : bool,
          mask !! j = Some m /\
          row !! j = Some (if m then Fl.zero else x, bool_to_float m).
Proof.
  intros H. apply collate_ok in H as (_ & HF & Hi & Ht & Htime & Hm & _ & _).
  split; [exact Ht|]. split; [exact Htime|].
  intros i flux Hflux.
  destruct (Forall2_lookup_l _ _ _ _ _ HF Hflux) as (d & Hd & Hlen).
  set (mask := d.1.1) in *.
  exists (zip (zero_masked flux mask) (map bool_to_float mask)), mask.
  assert (Hmask : map (fun d => d.1.1) (draw_all min_block_size
            match max_block_size with
            | Some m => m
            | None => (Z.of_nat (seq_len_of (map s_flux items)) / 2)%Z
            end min_mask_ratio max_mask_ratio (map s_flux items) g).1 !! i = Some mask).
  { rewrite list_lookup_fmap, Hd. reflexivity. }
  split. { rewrite Hi. rewrite lookup_zip_with. rewrite Hflux. simpl. rewrite Hmask. reflexivity. }
  split. { rewrite Hm. exact Hmask. }
  split. { rewrite length_zip_with, zero_masked_length, length_map. lia. }
  split; [exact Hlen|].
  intros j x Hx.
  destruct (lookup_lt_is_Some_2 mask j) as [m Hmj].
  { rewrite Hlen. eapply lookup_lt_Some, Hx. }
  exists m. split; [exact Hmj|].
  rewrite lookup_zip_with.
  rewrite (zero_masked_lookup flux mask j x m Hx Hmj). simpl.
  rewrite list_lookup_fmap, Hmj. reflexivity.
Qed.

Lemma collate_default_block_size (items : list sample) minb minr maxr g :
  collate_with_masking items minb None minr maxr g
  = collate_with_masking items minb
      (Some (Z.of_nat (seq_len_of (map s_flux items)) / 2)%Z) minr maxr g.
Proof.
  unfold collate_with_masking. rewrite !M_bind_unfold.
  destruct (lift (stack (map s_flux items)) g) as [[bf|e] g1] eqn:E; [|reflexivity].
  apply lift_ok in E as [E ->]. apply stack_ok in E as ->. reflexivity.
Qed.

(** C10: in a run of [main] both loaders collate with the minimum block
    size 1 and the minimum mask ratio 0.1, whatever the command line:
    the masks, block sizes and ratios of a batch are the mask
    generator's draws for the bounds 1, [--block_size], 0.1 and
    [--mask_ratio], the ratios rounded to float32 by the tensor that
    holds them.  And the collate function given no maximum block size
    works as with half the sequence length, rounded down. *)
Theorem C10_masking_bounds (args : Args) (disk : gmap string h5file)
    (pr : prepared) (mk : gmap string artifact -> world) :
  prepare args disk = Ok (pr, mk) ->
  (forall dl items g b g',
      dl = pr_train_loader pr \/ dl = pr_val_loader pr ->
      dl_collate_fn dl items g = (Ok b, g') ->
      let ds := draw_all 1 (arg_block_size args) (lit 1 10) (arg_mask_ratio args)
                         (map s_flux items) g in
      b_mask b = map (fun d => d.1.1) ds.1 /\
      b_block_size b = map (fun d => d.1.2) ds.1 /\
      b_mask_ratio b = map (fun d => Fl.round binary32 d.2) ds.1 /\
      g' = ds.2) /\
  (forall items min_block_size min_mask_ratio max_mask_ratio g,
      collate_with_masking items min_block_size None min_mask_ratio max_mask_ratio g
      = collate_with_masking items min_block_size
          (Some (Z.of_nat (seq_len_of (map s_flux items)) / 2)%Z)
          min_mask_ratio max_mask_ratio g).
Proof.
  intros H. apply prepare_ok in H as (ld & _ & _ & _ & _ & Htl & Hvl).
  split.
  - intros dl items g b g' Hdl Hc.
    assert (Hfn : dl_collate_fn dl = main_collate_fn args).
    { destruct Hdl as [-> | ->]; [rewrite Htl | rewrite Hvl]; reflexivity. }
    rewrite Hfn in Hc. unfold main_collate_fn in Hc.
    apply collate_ok in Hc as (Hg & _ & _ & _ & _ & Hm & Hb & Hr).
    simpl. auto.
  - intros. apply collate_default_block_size.
Qed.

End Collate.

(** ** Dataset and split *)

Section Split.
Context `{RT : Runtime}.

Lemma py_slice_nonneg {A} (l : list A) (a b : nat) :
  (a <= b <= length l)%nat ->
  py_slice l (Z.of_nat a) (Z.of_nat b) = take (b - a) (drop a l).
Proof.
  intros H. unfold py_slice.
  destruct (Z.ltb_spec (Z.of_nat a) 0); [lia|].
  destruct (Z.ltb_spec (Z.of_nat b) 0); [lia|].
  rewrite !Z.min_l by lia.
  replace (Z.to_nat (Z.of_nat b - Z.of_nat a)) with (b - a)%nat by lia.
  rewrite Nat2Z.id. reflexivity.
Qed.

Lemma randperm_length (n : nat) (g : Generator) : length (randperm n g).1 = n.
Proof. rewrite (Permutation_length (randperm_perm n g)). apply length_seq. Qed.

(** Two lengths that are not negative and add up to the size of the
    dataset: read as fractions or not, they cut the permutation drawn
    at the first of them. *)
Lemma random_split_two (dataset : LightCurveDataset) (a b : Z) (g : Generator) :
  (a + b = Z.of_nat (ds_len dataset))%Z -> (0 <= a)%Z -> (0 <= b)%Z ->
  random_split dataset [a; b] g
  = Ok [MkSubset dataset (py_slice (randperm (ds_len dataset) g).1 0 a);
        MkSubset dataset (py_slice (randperm (ds_len dataset) g).1 a (a + b))].
Proof.
  intros Hsum Ha Hb. unfold random_split.
  match goal with |- (?m ≫= _) = _ => assert (E : m = Ok [a; b]) end.
  { simpl. destruct (decide _) as [E1|E1]; [|reflexivity].
    destruct (decide _) as [F|F].
    - replace (Z.of_nat (ds_len dataset)) with 1%Z by lia.
      simpl. rewrite !Z.mul_1_l. reflexivity.
    - exfalso. apply F. repeat constructor; lia. }
  rewrite E. simpl.
  replace (a + (b + 0))%Z with (Z.of_nat (ds_len dataset)) by lia.
  rewrite decide_True by reflexivity.
  rewrite Nat2Z.id.
  replace (0 + a - a)%Z with 0%Z by lia.
  replace (0 + a)%Z with a by lia.
  replace (a + b - b)%Z with a by lia. reflexivity.
Qed.

(** The split for a validation size between 0 and the size of the
    dataset: the permutation drawn from the seeded generator, cut in
    two. *)
Lemma split_dataset_ok (dataset : LightCurveDataset) (val_split : float) (seed : Z) (v : Z) :
  py_int (py_int_mul (Z.of_nat (ds_len dataset)) val_split) = Ok v ->
  (0 <= v <= Z.of_nat (ds_len dataset))%Z ->
  let indices := (randperm (ds_len dataset) (manual_seed seed)).1 in
  let t := (ds_len dataset - Z.to_nat v)%nat in
  split_dataset dataset val_split seed
  = Ok (MkSubset dataset (take t indices), MkSubset dataset (drop t indices)).
Proof.
  intros Hv Hrange indices t. unfold split_dataset. rewrite Hv. simpl.
  rewrite random_split_two by lia. simpl. fold indices.
  assert (Hlen : length indices = ds_len dataset) by apply randperm_length.
  change 0%Z with (Z.of_nat 0).
  replace (Z.of_nat (ds_len dataset) - v)%Z with (Z.of_nat t) by lia.
  replace (Z.of_nat t + v)%Z with (Z.of_nat (ds_len dataset)) by lia.
  rewrite !py_slice_nonneg by lia.
  rewrite drop_0, Nat.sub_0_r. f_equal. f_equal. f_equal.
  apply take_ge. rewrite length_drop. lia.
Qed.

(** The validation size is the binary64 product, truncated: 0.15 of 100
    is 15, 0.29 of 100 is 28, 0.15 of 10 is 1. *)
Fact val_size_examples :
  py_int (py_int_mul 100 (lit 15 100)) = Ok 15%Z /\
  py_int (py_int_mul 100 (lit 29 100)) = Ok 28%Z /\
  py_int (py_int_mul 10 (lit 15 100)) = Ok 1%Z.
Proof. vm_compute. repeat split. Qed.

(** C7: the split that [main] makes depends on the input, the seed and
    the fraction alone: two runs that agree on them get the same train
    and validation subsets, whatever their other arguments.  The
    validation subset has [int(N * val_split)] indices, the train subset
    the other [N - int(N * val_split)], and together they are the
    indices 0 .. N-1, each once. *)
Theorem C7_split_is_determined_by_seed
    (args1 args2 : Args) (disk : gmap string h5file)
    (pr1 pr2 : prepared) (mk1 mk2 : gmap string artifact -> world) (v : Z) :
  prepare args1 disk = Ok (pr1, mk1) ->
  prepare args2 disk = Ok (pr2, mk2) ->
  arg_input args1 = arg_input args2 ->
  arg_seed args1 = arg_seed args2 ->
  arg_val_split args1 = arg_val_split args2 ->
  py_int (py_int_mul (Z.of_nat (ds_len (pr_dataset pr1))) (arg_val_split args1)) = Ok v ->
  (0 <= v <= Z.of_nat (ds_len (pr_dataset pr1)))%Z ->
  pr_train_dataset pr1 = pr_train_dataset pr2 /\
  pr_val_dataset pr1 = pr_val_dataset pr2 /\
  Z.of_nat (sub_len (pr_val_dataset pr1)) = v /\
  Z.of_nat (sub_len (pr_train_dataset pr1)) = (Z.of_nat (ds_len (pr_dataset pr1)) - v)%Z /\
  sub_indices (pr_train_dataset pr1) ++ sub_indices (pr_val_dataset pr1)
    ≡ₚ seq 0 (ds_len (pr_dataset pr1)).
Proof.
  intros H1 H2 Hin Hseed Hfrac Hv Hrange.
  apply prepare_ok in H1 as (ld1 & Hld1 & _ & Hds1 & Hsp1 & _ & _).
  apply prepare_ok in H2 as (ld2 & Hld2 & _ & Hds2 & Hsp2 & _ & _).
  rewrite <- Hin, Hld1 in Hld2. injection Hld2 as <-.
  rewrite Hds1 in Hds2. injection Hds2 as Hds.
  rewrite <- Hds, <- Hseed, <- Hfrac, Hsp1 in Hsp2. injection Hsp2 as <- <-.
  split; [reflexivity|]. split; [reflexivity|].
  rewrite (split_dataset_ok _ _ _ v Hv Hrange) in Hsp1.
  injection Hsp1 as <- <-. unfold sub_len. simpl.
  rewrite length_drop, length_take, randperm_length.
  split; [lia|]. split; [lia|].
  rewrite take_drop. apply randperm_perm.
Qed.

Lemma mul_zero_finite (x : float) :
  Fl.isfinite x = true ->
  exists s, py_int_mul 0 x = S754_zero s.
Proof.
  destruct x as [s| | |s m e]; try discriminate; intros _; eexists; reflexivity.
Qed.

(** An empty dataset is split into two empty subsets. *)
Lemma split_dataset_empty (dataset : LightCurveDataset) (val_split : float) (seed : Z) :
  ds_len dataset = 0%nat -> Fl.isfinite val_split = true ->
  split_dataset dataset val_split seed = Ok (MkSubset dataset [], MkSubset dataset []).
Proof.
  intros Hlen Hfin.
  rewrite (split_dataset_ok dataset val_split seed 0).
  - rewrite Hlen. simpl.
    pose proof (randperm_length 0 (manual_seed seed)) as Hl.
    destruct (randperm 0 (manual_seed seed)).1; [reflexivity | discriminate Hl].
  - rewrite Hlen. change (Z.of_nat 0) with 0%Z.
    destruct (mul_zero_finite val_split Hfin) as [s ->]. reflexivity.
  - lia.
Qed.

Lemma outcome_bind_raise {A B} (o : outcome A) (k : A -> outcome B) (e : py_exn) :
  (o ≫= k) = Raise e -> o = Raise e \/ exists a, o = Ok a /\ k a = Raise e.
Proof.
  destruct o as [a|e']; intros H.
  - right. exists a. split; [reflexivity | exact H].
  - left. injection H as ->. reflexivity.
Qed.

Lemma load_raises disk path e :
  load_lightcurve_data disk path = Raise e ->
  e = OSError \/ e = KeyError \/ e = TypeError \/ e = ValueError.
Proof.
  unfold load_lightcurve_data, h5_get. intros H.
  destruct (disk !! path) as [f|]; simpl in H; [|injection H as <-; auto].
  destruct (f !! "flux") as [[a| |]|]; simpl in H; try (injection H as <-; tauto).
  destruct (f !! "time") as [[t| |]|]; simpl in H; try (injection H as <-; tauto).
  destruct (decide _), (decide _); discriminate H.
Qed.

Lemma py_int_raises x e :
  py_int x = Raise e -> e = ValueError \/ e = OverflowError.
Proof.
  destruct x as [s|s| |s m e0]; simpl; intros H;
    first [discriminate H | injection H as <-; auto].
Qed.

Lemma split_raises dataset val_split seed e :
  split_dataset dataset val_split seed = Raise e ->
  e = ValueError \/ e = OverflowError.
Proof.
  unfold split_dataset. intros H.
  apply outcome_bind_raise in H as [H | (v & _ & H)]; [eapply py_int_raises, H|].
  apply outcome_bind_raise in H as [H | (subsets & _ & H)].
  - unfold random_split in H.
    apply outcome_bind_raise in H as [H | (lengths & _ & H)].
    + repeat (destruct (decide _)); first [discriminate H | injection H as <-; auto].
    + destruct (decide _); [discriminate H|]. injection H as <-. auto.
  - destruct subsets as [|a [|b [|c l]]]; first [discriminate H | injection H as <-; auto].
Qed.

Lemma DataLoader_init_raises dataset batch_size shuffle collate_fn e :
  DataLoader_init dataset batch_size shuffle collate_fn = Raise e -> e = ValueError.
Proof.
  unfold DataLoader_init. repeat (destruct (decide _)); intros H;
    first [injection H as <-; reflexivity | discriminate H].
Qed.

(** The exceptions with which the steps modelled in [prepare] end. *)
Lemma prepare_raises (args : Args) (disk : gmap string h5file) (e : py_exn) :
  prepare args disk = Raise e ->
  e = OSError \/ e = KeyError \/ e = TypeError \/ e = ValueError \/ e = OverflowError
  \/ e = RuntimeError.
Proof.
  unfold prepare. intros H.
  apply outcome_bind_raise in H as [H | ([] & _ & H)].
  { unfold seed_all in H. apply outcome_bind_raise in H as [H | ([] & _ & H)];
      destruct (decide _); first [discriminate H | injection H as <-; tauto]. }
  apply outcome_bind_raise in H as [H | ([] & _ & H)].
  { unfold select_device in H. destruct (decide _); [discriminate H|].
    destruct (device_ok _); [discriminate H | injection H as <-; tauto]. }
  apply outcome_bind_raise in H as [H | (ld & _ & H)].
  { apply load_raises in H. tauto. }
  apply outcome_bind_raise in H as [H | ([] & _ & H)].
  { destruct (decide _); [injection H as <-; tauto | discriminate H]. }
  apply outcome_bind_raise in H as [H | ([] & _ & H)].
  { destruct (decide _); [injection H as <-; tauto | discriminate H]. }
  apply outcome_bind_raise in H as [H | (ds & _ & H)]; [discriminate H|].
  apply outcome_bind_raise in H as [H | ([tr va] & _ & H)].
  { apply split_raises in H. tauto. }
  apply outcome_bind_raise in H as [H | (tl & _ & H)].
  { apply DataLoader_init_raises in H. tauto. }
  apply outcome_bind_raise in H as [H | (vl & _ & H)].
  { apply DataLoader_init_raises in H. tauto. }
  destruct (init_params _ _) as [p g1].
  apply outcome_bind_raise in H as [H | ([] & _ & H)].
  { destruct (Fl.leb _ _); [discriminate H | injection H as <-; tauto]. }
  apply outcome_bind_raise in H as [H | ([] & _ & H)].
  { destruct (decide _); [injection H as <-; tauto | discriminate H]. }
  discriminate H.
Qed.

(** C3, as the script has it: neither the dataset nor the split looks
    at shapes or sizes.  The constructor accepts any two arrays; an
    empty dataset is split into two empty subsets; no step of [main]
    before its loop raises ShapeMismatchError or EmptyDatasetError; and
    once the seed and the device are accepted and the file is loaded, a
    flux array without rows ends [main] before its loop with the
    ValueError of NumPy's minimum of an empty array. *)
Theorem C3_no_shape_or_emptiness_check :
  (forall flux timestamps,
      LightCurveDataset_init flux timestamps
      = Ok (Dataset (from_numpy_float flux) (from_numpy_float timestamps))) /\
  (forall dataset val_split seed,
      ds_len dataset = 0%nat -> Fl.isfinite val_split = true ->
      split_dataset dataset val_split seed
      = Ok (MkSubset dataset [], MkSubset dataset [])) /\
  (forall args disk e,
      prepare args disk = Raise e ->
      e <> ShapeMismatchError /\ e <> EmptyDatasetError) /\
  (forall args disk ld,
      seed_all (arg_seed args) = Ok tt ->
      select_device (arg_device args) = Ok tt ->
      load_lightcurve_data disk (arg_input args) = Ok ld ->
      nd_rows (ld_flux ld) = [] ->
      prepare args disk = Raise ValueError).
Proof.
  split; [reflexivity|]. split; [apply split_dataset_empty|].
  split.
  - intros args disk e H. apply prepare_raises in H.
    split; intros ->; repeat (destruct H as [H|H]; [discriminate H|]); discriminate H.
  - intros args disk ld Hseed Hdev Hld Hrows. unfold prepare.
    rewrite Hseed. simpl. rewrite Hdev. simpl. rewrite Hld. simpl.
    unfold nd_size. rewrite Hrows. reflexivity.
Qed.

End Split.

(** ** Checkpoints *)

Section Checkpoints.
Context `{RT : Runtime}.

#[local] Instance same_learner_refl' : Reflexive same_learner := same_learner_refl.
#[local] Instance same_learner_trans' : Transitive same_learner := same_learner_trans.

#[local] Instance keeps_file_refl path : Reflexive (keeps_file path).
Proof. intros w. reflexivity. Qed.

#[local] Instance keeps_file_trans path : Transitive (keeps_file path).
Proof. intros a b c H1 H2. unfold keeps_file in *. congruence. Qed.

#[local] Instance keeps_checkpoints_ok_refl : Reflexive keeps_checkpoints_ok.
Proof. intros w H. exact H. Qed.

#[local] Instance keeps_checkpoints_ok_trans : Transitive keeps_checkpoints_ok.
Proof. intros a b c H1 H2 H. apply H2, H1, H. Qed.

Lemma respects_weaken {A} (R R' : relation world) (m : M world A) :
  (forall w w', R w w' -> R' w w') -> respects R m -> respects R' m.
Proof. intros HR Hm w. apply HR, Hm. Qed.

(** *** Paths *)

Lemma path_join_inj dir a b : path_join dir a = path_join dir b -> a = b.
Proof.
  unfold path_join. intros H. apply String.app_inj in H. injection H as H. exact H.
Qed.

Lemma best_not_recon args epoch : best_path args <> recon_path args epoch.
Proof. intros H. apply path_join_inj in H. discriminate H. Qed.

Lemma best_not_periodic args epoch : best_path args <> periodic_path args epoch.
Proof. intros H. apply path_join_inj in H. discriminate H. Qed.


Lemma string_length_app (s t : string) :
  String.length (s +:+ t) = (String.length s + String.length t)%nat.
Proof.
  induction s as [|a s IH]; [reflexivity|].
  change (S (String.length (s +:+ t)) = S (String.length s + String.length t)).
  rewrite IH. reflexivity.
Qed.

Lemma string_app_inj_r (t s1 s2 : string) : s1 +:+ t = s2 +:+ t -> s1 = s2.
Proof.
  revert s2. induction s1 as [|a s1 IH]; intros [|b s2] H.
  - reflexivity.
  - apply (f_equal String.length) in H. rewrite !string_length_app in H.
    simpl in H. lia.
  - apply (f_equal String.length) in H. rewrite !string_length_app in H.
    simpl in H. lia.
  - change (String a (s1 +:+ t) = String b (s2 +:+ t)) in H.
    injection H as -> H. f_equal. apply IH, H.
Qed.

Lemma periodic_path_inj args e1 e2 :
  periodic_path args e1 = periodic_path args e2 -> e1 = e2.
Proof.
  intros H. apply path_join_inj in H. apply String.app_inj in H.
  apply string_app_inj_r in H. apply pretty_Z_inj in H. lia.
Qed.

Lemma recon_not_periodic args e1 e2 : recon_path args e1 <> periodic_path args e2.
Proof. intros H. apply path_join_inj in H. discriminate H. Qed.

Lemma final_not_best args : final_path args <> best_path args.
Proof. intros H. apply path_join_inj in H. discriminate H. Qed.

Lemma final_not_recon args e : final_path args <> recon_path args e.
Proof. intros H. apply path_join_inj in H. discriminate H. Qed.

Lemma final_not_periodic args e : final_path args <> periodic_path args e.
Proof. intros H. apply path_join_inj in H. discriminate H. Qed.

Lemma curve_not_best args : curve_path args <> best_path args.
Proof. intros H. apply path_join_inj in H. discriminate H. Qed.

Lemma curve_not_recon args e : curve_path args <> recon_path args e.
Proof. intros H. apply path_join_inj in H. discriminate H. Qed.

Lemma curve_not_periodic args e : curve_path args <> periodic_path args e.
Proof. intros H. apply path_join_inj in H. discriminate H. Qed.

(** *** What the three dicts hold *)

Lemma best_checkpoint_core epoch w config tl vl :
  ckpt_core (best_checkpoint epoch w config tl vl).
Proof.
  unfold ckpt_core.
  split; [exists epoch|split; [exists (params w)|split; [exists (opt w)|exists config]]];
    vm_compute; reflexivity.
Qed.

Lemma periodic_checkpoint_core epoch w config vl :
  ckpt_core (periodic_checkpoint epoch w config vl).
Proof.
  unfold ckpt_core.
  split; [exists epoch|split; [exists (params w)|split; [exists (opt w)|exists config]]];
    vm_compute; reflexivity.
Qed.


Lemma checkpoint_of_learner epoch w w' config tl vl :
  same_learner w w' ->
  best_checkpoint epoch w' config tl vl = best_checkpoint epoch w config tl vl.
Proof. intros (Hp & _ & Ho & _). unfold best_checkpoint. rewrite Hp, Ho. reflexivity. Qed.

(** *** Saving *)




Lemma torch_save_keeps_file d path p :
  p <> path -> respects (keeps_file p) (torch_save d path).
Proof. intros Hne w. unfold keeps_file. simpl. apply lookup_insert_ne. congruence. Qed.

Lemma torch_save_same_learner d path : respects same_learner (torch_save d path).
Proof. intros w. unfold same_learner. simpl. auto. Qed.

(** *** The figure of reconstruction examples *)

Lemma plot_respects (R : relation world) `{!Reflexive R} `{!Transitive R}
    dl save_path n_examples :
  (forall w g, R w (set_rng g w)) ->
  (forall w b, R w (set_training b w)) ->
  (forall w, R w (set_files (<[save_path := Figure]> (files w)) w)) ->
  respects R (plot_reconstruction_examples dl save_path n_examples).
Proof.
  intros Hrng Htr Hfig. unfold plot_reconstruction_examples.
  apply (respects_bind R). { apply (respects_modify R). intros w. apply Htr. }
  intros _. apply (respects_bind R). { apply respects_with_rng, Hrng. }
  intros order. apply (respects_bind R).
  { destruct order; [apply (respects_raise R) | apply respects_with_rng, Hrng]. }
  intros b. apply (respects_bind R). { apply (respects_get R). }
  intros w. apply (respects_bind R).
  { destruct (decide _); [apply (respects_raise R) | apply (respects_ret R)]. }
  intros _. apply (respects_bind R).
  { apply (respects_for_each R). intros i.
    repeat case_match; first [apply (respects_ret R) | apply (respects_raise R)]. }
  intros _. apply (respects_modify R). exact Hfig.
Qed.


Lemma plot_keeps_file dl save_path n p :
  p <> save_path -> respects (keeps_file p) (plot_reconstruction_examples dl save_path n).
Proof.
  intros Hne. apply (plot_respects (keeps_file p)).
  - intros w g. reflexivity.
  - intros w b. reflexivity.
  - intros w. unfold keeps_file. simpl. apply lookup_insert_ne. congruence.
Qed.

Lemma plot_same_learner dl save_path n :
  respects same_learner (plot_reconstruction_examples dl save_path n).
Proof.
  apply (plot_respects same_learner); intros; unfold same_learner; simpl; auto.
Qed.

(** *** The steps of an epoch *)

Lemma save_best_respects (R : relation world) `{!Reflexive R} `{!Transitive R}
    args pr epoch tm vm st :
  (forall d, ckpt_core d -> respects R (torch_save d (best_path args))) ->
  respects R (save_best args pr epoch tm vm st).
Proof.
  intros Hsave. unfold save_best. destruct (Fl.ltb _ _); [|apply (respects_ret R)].
  apply (respects_bind R); [apply (respects_get R)|]. intros w.
  apply (respects_bind R); [apply Hsave, best_checkpoint_core|]. intros _.
  apply (respects_ret R).
Qed.

Lemma save_periodic_respects (R : relation world) `{!Reflexive R} `{!Transitive R}
    args pr epoch vm :
  (forall d, ckpt_core d -> respects R (torch_save d (periodic_path args epoch))) ->
  respects R (save_periodic args pr epoch vm).
Proof.
  intros Hsave. unfold save_periodic.
  apply (respects_bind R); [apply (respects_lift R)|]. intros r.
  destruct (decide _); [|apply (respects_ret R)].
  apply (respects_bind R); [apply (respects_get R)|]. intros w.
  apply Hsave, periodic_checkpoint_core.
Qed.



Lemma prepare_files args disk pr mk files0 :
  prepare args disk = Ok (pr, mk) -> files (mk files0) = files0.
Proof.
  unfold prepare. intros H.
  apply outcome_bind_ok in H as ([] & Hseed & H).
  apply outcome_bind_ok in H as ([] & Hdev & H).
  apply outcome_bind_ok in H as (ld & Hld & H).
  apply outcome_bind_ok in H as ([] & Hsz & H).
  apply outcome_bind_ok in H as ([] & Hsz' & H).
  apply outcome_bind_ok in H as (ds & Hds & H).
  apply outcome_bind_ok in H as ([tr va] & Hsplit & H).
  apply outcome_bind_ok in H as (tl & Htl & H).
  apply outcome_bind_ok in H as (vl & Hvl & H).
  destruct (init_params _ _) as [p g1].
  apply outcome_bind_ok in H as ([] & Hlr & H).
  apply outcome_bind_ok in H as ([] & Hsteps & H).
  injection H as <- <-. reflexivity.
Qed.


(** *** Loops that return *)

Lemma for_fold_inv {S A B} (P : list A -> B -> S -> Prop) (body : B -> A -> M S B) :
  (forall done acc x s acc' s',
      P done acc s -> body acc x s = (Ok acc', s') -> P (done ++ [x]) acc' s') ->
  forall xs done acc s acc' s',
    P done acc s -> for_fold xs acc body s = (Ok acc', s') -> P (done ++ xs) acc' s'.
Proof.
  intros Hstep. induction xs as [|x xs IH]; intros done acc s acc' s' HP H.
  - simpl in H. injection H as <- <-. rewrite app_nil_r. exact HP.
  - simpl in H. apply M_bind_ok in H as (acc1 & s1 & Hx & H).
    rewrite cons_middle, app_assoc. eapply IH; [|exact H].
    eapply Hstep; eassumption.
Qed.

(** An epoch that returns, step by step. *)
Lemma epoch_body_inv args pr st epoch w st' w' :
  epoch_body args pr st epoch w = (Ok st', w') ->
  exists tm vm w2 w3 w4,
    files w2 = files w /\
    save_best args pr epoch tm vm
      (LoopState (best_val_loss st) (train_losses st ++ [m_total_loss tm])
                 (val_losses st ++ [m_total_loss vm])) w2 = (Ok st', w3) /\
    (forall p, p <> recon_path args epoch -> files w4 !! p = files w3 !! p) /\
    same_learner w3 w4 /\
    save_periodic args pr epoch vm w4 = (Ok tt, w').
Proof.
  unfold epoch_body. intros H.
  apply M_bind_ok in H as (tm & w1 & Htrain & H).
  apply M_bind_ok in H as (vm & w2 & Hval & H).
  apply M_bind_ok in H as (st1 & w3 & Hbest & H).
  apply M_bind_ok in H as ([] & w4 & Hplot & H).
  apply M_bind_ok in H as ([] & w5 & Hper & H).
  injection H as <- <-.
  exists tm, vm, w2, w3, w4. split; [|split; [exact Hbest|split; [|split; [|exact Hper]]]].
  - pose proof (train_epoch_same_files (pr_train_loader pr) mse_loss true w) as E1.
    pose proof (validate_epoch_same_files (pr_val_loader pr) mse_loss w1) as E2.
    rewrite Htrain in E1. rewrite Hval in E2. unfold same_files in *. simpl in *.
    congruence.
  - intros p Hp. destruct (decide _).
    + pose proof (plot_keeps_file (pr_val_loader pr) (recon_path args epoch) 4 p Hp w3)
        as K. rewrite Hplot in K. exact K.
    + injection Hplot as <-. reflexivity.
  - destruct (decide _).
    + pose proof (plot_same_learner (pr_val_loader pr) (recon_path args epoch) 4 w3) as K.
      rewrite Hplot in K. exact K.
    + injection Hplot as <-. reflexivity.
Qed.

(** What [save_best] returns. *)
Lemma save_best_eq args pr epoch tm vm st w :
  save_best args pr epoch tm vm st w
  = if Fl.ltb (m_total_loss vm) (best_val_loss st)
    then (Ok (LoopState (m_total_loss vm) (train_losses st) (val_losses st)),
          set_files (<[best_path args :=
                        Checkpoint (best_checkpoint epoch w (pr_config pr)
                                      (m_total_loss tm) (m_total_loss vm))]> (files w)) w)
    else (Ok st, w).
Proof. unfold save_best. destruct (Fl.ltb _ _); reflexivity. Qed.

(** What [save_periodic] returns when it returns. *)
Lemma save_periodic_ok args pr epoch vm w w' :
  save_periodic args pr epoch vm w = (Ok tt, w') ->
  arg_save_every args <> 0%Z /\
  w' = if decide (((epoch + 1) mod arg_save_every args)%Z = 0%Z)
       then set_files (<[periodic_path args epoch :=
                          Checkpoint (periodic_checkpoint epoch w (pr_config pr)
                                        (m_total_loss vm))]> (files w)) w
       else w.
Proof.
  unfold save_periodic, py_mod. destruct (decide (arg_save_every args = 0%Z)) as [E|E].
  - discriminate.
  - intros H. split; [exact E|]. simpl in H.
    rewrite M_bind_unfold in H. simpl in H.
    destruct (decide _); injection H as <-; reflexivity.
Qed.

(** The local variables after an epoch that returns. *)
Lemma epoch_body_state args pr st epoch w st' w' :
  epoch_body args pr st epoch w = (Ok st', w') ->
  exists tl v,
    train_losses st' = train_losses st ++ [tl] /\
    val_losses st' = val_losses st ++ [v] /\
    best_val_loss st' = if Fl.ltb v (best_val_loss st) then v else best_val_loss st.
Proof.
  intros H. apply epoch_body_inv in H as (tm & vm & w2 & w3 & w4 & _ & Hb & _).
  rewrite save_best_eq in Hb. simpl in Hb.
  exists (m_total_loss tm), (m_total_loss vm).
  destruct (Fl.ltb _ _); injection Hb as <- _; auto.
Qed.

(** A run that returns: its loop has returned, and the final checkpoint
    and the training curve were added to the files. *)
Lemma main_ok_inv args disk files0 st :
  (main args disk files0).1 = Ok st ->
  exists pr mk w1,
    prepare args disk = Ok (pr, mk) /\
    for_fold (py_range (arg_epochs args)) loop_state0 (epoch_body args pr) (mk files0)
    = (Ok st, w1) /\
    (main args disk files0).2
    = <[curve_path args := Figure]>
        (<[final_path args :=
            Checkpoint (final_checkpoint (arg_epochs args) w1 (pr_config pr))]> (files w1)).
Proof.
  unfold main. destruct (prepare args disk) as [[pr mk]|e] eqn:E; [|discriminate].
  destruct (run_epochs args pr (mk files0)) as [o w'] eqn:Er. simpl. intros ->.
  unfold run_epochs in Er.
  apply M_bind_ok in Er as (st1 & w1 & Hloop & Er).
  apply M_bind_ok in Er as (w1' & w2 & Hget & Er). injection Hget as <- <-.
  apply M_bind_ok in Er as ([] & w3 & Hsave & Er). injection Hsave as <-.
  apply M_bind_ok in Er as ([] & w4 & Hfig & Er). injection Hfig as <-.
  injection Er as <- <-.
  exists pr, mk, w1. auto.
Qed.

Lemma best_checkpoint_entries epoch w config tl vl :
  best_checkpoint epoch w config tl vl !! "val_loss" = Some (VFloat vl) /\
  best_checkpoint epoch w config tl vl !! "epoch" = Some (VInt epoch).
Proof. split; vm_compute; reflexivity. Qed.

(** The file of the best checkpoint after an epoch that returns. *)
Lemma epoch_body_best_file args pr st epoch w st' w' :
  epoch_body args pr st epoch w = (Ok st', w') ->
  exists tl v,
    best_val_loss st' = (if Fl.ltb v (best_val_loss st) then v else best_val_loss st) /\
    files w' !! best_path args
    = if Fl.ltb v (best_val_loss st)
      then Some (Checkpoint (best_checkpoint epoch w' (pr_config pr) tl v))
      else files w !! best_path args.
Proof.
  intros H. apply epoch_body_inv in H as (tm & vm & w2 & w3 & w4 & Hf & Hb & Hk & Hl & Hp).
  apply save_periodic_ok in Hp as [_ Hp].
  assert (K : files w' !! best_path args = files w3 !! best_path args
              /\ same_learner w3 w').
  { rewrite Hp. destruct (decide _); simpl.
    - rewrite lookup_insert_ne by (apply not_eq_sym, best_not_periodic).
      split; [apply Hk, best_not_recon|].
      destruct Hl as (L1 & L2 & L3 & L4). unfold same_learner. simpl. auto.
    - split; [apply Hk, best_not_recon | exact Hl]. }
  destruct K as [K1 K2]. rewrite save_best_eq in Hb. simpl in Hb.
  exists (m_total_loss tm), (m_total_loss vm). rewrite K1.
  destruct (Fl.ltb _ _); injection Hb as <- <-; simpl.
  - split; [reflexivity|]. rewrite lookup_insert_eq. f_equal. f_equal.
    symmetry. apply checkpoint_of_learner.
    destruct K2 as (L1 & L2 & L3 & L4). unfold same_learner. simpl in *. auto.
  - split; [reflexivity|]. congruence.
Qed.





(** *** The best checkpoint *)

Lemma ltb_inf (v : float) :
  Fl.ltb v Fl.inf = true <-> Fl.isnan v = false /\ v <> Fl.inf.
Proof.
  destruct v as [s|[]| |s m e]; simpl; split;
    first [ intros H; discriminate H
          | intros [H1 H2]; first [discriminate H1 | contradiction H2; reflexivity]
          | intros _; split; [reflexivity | discriminate]
          | intros _; reflexivity ].
Qed.

(** An epoch that returns, step by step: [w2] is the world when the
    best checkpoint is considered, [w3] the world after. *)
Lemma epoch_body_ok args pr st epoch w st' w' :
  epoch_body args pr st epoch w = (Ok st', w') ->
  exists tm vm w2 w3,
    files w2 = files w /\
    save_best args pr epoch tm vm
      (LoopState (best_val_loss st) (train_losses st ++ [m_total_loss tm])
                 (val_losses st ++ [m_total_loss vm])) w2 = (Ok st', w3) /\
    keeps_file (best_path args) w3 w' /\ same_learner w3 w'.
Proof.
  unfold epoch_body. intros H.
  apply M_bind_ok in H as (tm & w1 & Htrain & H).
  apply M_bind_ok in H as (vm & w2 & Hval & H).
  apply M_bind_ok in H as (st1 & w3 & Hbest & H).
  apply M_bind_ok in H as ([] & w4 & Hplot & H).
  apply M_bind_ok in H as ([] & w5 & Hper & H).
  injection H as <- <-.
  exists tm, vm, w2, w3. split; [|split; [exact Hbest|]].
  - pose proof (train_epoch_same_files (pr_train_loader pr) mse_loss true w) as E1.
    pose proof (validate_epoch_same_files (pr_val_loader pr) mse_loss w1) as E2.
    rewrite Htrain in E1. rewrite Hval in E2. unfold same_files in *. simpl in *.
    congruence.
  - assert (P : keeps_file (best_path args) w3 w4 /\ same_learner w3 w4).
    { destruct (decide _).
      - pose proof (plot_keeps_file (pr_val_loader pr) (recon_path args epoch) 4
                      (best_path args) (best_not_recon args epoch) w3) as K1.
        pose proof (plot_same_learner (pr_val_loader pr) (recon_path args epoch) 4 w3)
          as K2.
        rewrite Hplot in K1, K2. auto.
      - injection Hplot as <-. split; reflexivity. }
    assert (Q : keeps_file (best_path args) w4 w5 /\ same_learner w4 w5).
    { pose proof (save_periodic_respects (keeps_file (best_path args)) args pr epoch vm)
        as K1.
      pose proof (save_periodic_respects same_learner args pr epoch vm) as K2.
      specialize (K1 (fun d _ => torch_save_keeps_file d _ _ (best_not_periodic args epoch)) w4).
      specialize (K2 (fun d _ => torch_save_same_learner d _) w4).
      rewrite Hper in K1, K2. auto. }
    destruct P as [P1 P2], Q as [Q1 Q2].
    split; etransitivity; eassumption.
Qed.

(** C6, as the script has it: in an epoch that returns, [v] being its
    validation loss over the whole sequences, the best checkpoint is
    written, over any earlier one, if [v] is strictly below the best
    validation loss so far, and is left as it was if not.  In the first
    epoch, where the best so far is +inf, it is written if and only if
    [v] is neither NaN nor +inf. *)
Theorem C6_best_written_iff_strictly_better
    (args : Args) (pr : prepared) (st st' : loop_state) (epoch : Z) (w w' : world) :
  epoch_body args pr st epoch w = (Ok st', w') ->
  exists v,
    val_losses st' = val_losses st ++ [v] /\
    (Fl.ltb v (best_val_loss st) = true ->
       best_val_loss st' = v /\
       exists train_loss,
         files w' !! best_path args
         = Some (Checkpoint (best_checkpoint epoch w' (pr_config pr) train_loss v))) /\
    (Fl.ltb v (best_val_loss st) = false ->
       best_val_loss st' = best_val_loss st /\
       files w' !! best_path args = files w !! best_path args) /\
    (best_val_loss st = Fl.inf ->
       (Fl.ltb v (best_val_loss st) = true <-> Fl.isnan v = false /\ v <> Fl.inf)).
Proof.
  intros H. apply epoch_body_ok in H as (tm & vm & w2 & w3 & Hf & Hbest & Hk & Hl).
  exists (m_total_loss vm). unfold save_best in Hbest. simpl in Hbest.
  destruct (Fl.ltb (m_total_loss vm) (best_val_loss st)) eqn:E.
  - apply M_bind_ok in Hbest as (w2' & w2'' & Hget & Hbest). injection Hget as <- <-.
    apply M_bind_ok in Hbest as ([] & w3' & Hsave & Hbest). injection Hsave as <-.
    injection Hbest as <- <-. simpl.
    split; [reflexivity|]. split; [|split].
    + intros _. split; [reflexivity|]. exists (m_total_loss tm).
      rewrite Hk. simpl. rewrite lookup_insert_eq. f_equal. f_equal.
      symmetry. apply checkpoint_of_learner.
      destruct Hl as (L1 & L2 & L3 & L4). unfold same_learner. simpl in *. auto.
    + intros Hfalse. discriminate Hfalse.
    + intros Hinf. rewrite Hinf in E. split; [intros _; apply ltb_inf, E | reflexivity].
  - injection Hbest as <- <-. simpl.
    split; [reflexivity|]. split; [|split].
    + intros Htrue. discriminate Htrue.
    + intros _. split; [reflexivity|]. rewrite Hk. congruence.
    + intros Hinf. rewrite Hinf in E. split; [intros Htrue; discriminate Htrue|].
      intros Hv. apply ltb_inf in Hv. congruence.
Qed.

End Checkpoints.

(** * Further properties *)

(** ** The loader and the dataset *)

Lemma load_cases (disk : gmap string h5file) (path : string) :
  match load_lightcurve_data disk path with
  | Ok ld =>
      exists f flux time,
        disk !! path = Some f /\
        f !! "flux" = Some (H5Dataset flux) /\ f !! "time" = Some (H5Dataset time) /\
        ld_flux ld = cleaned flux /\ ld_timestamps ld = cleaned time
  | Raise e =>
      (e = OSError /\ disk !! path = None) \/
      exists f,
        disk !! path = Some f /\
        ((e = KeyError /\ f !! "flux" = None) \/
         (e = TypeError /\ f !! "flux" = Some H5Group) \/
         (e = ValueError /\ f !! "flux" = Some H5Scalar) \/
         exists flux,
           f !! "flux" = Some (H5Dataset flux) /\
           ((e = KeyError /\ f !! "time" = None) \/
            (e = TypeError /\ f !! "time" = Some H5Group) \/
            (e = ValueError /\ f !! "time" = Some H5Scalar)))
  end.
Proof.
  unfold load_lightcurve_data, h5_get.
  destruct (disk !! path) as [f|] eqn:Hd; simpl; [|left; auto].
  destruct (f !! "flux") as [[flux| |]|] eqn:Hf; simpl.
  - destruct (f !! "time") as [[time| |]|] eqn:Ht; simpl.
    + pose proof (load_lightcurve_data_eq disk path f flux time Hd Hf Ht) as (out & E & _).
      unfold load_lightcurve_data, h5_get in E. rewrite Hd in E. simpl in E.
      rewrite Hf in E. simpl in E. rewrite Ht in E. simpl in E. rewrite E.
      exists f, flux, time. auto.
    + right. exists f. split; [reflexivity|]. right. right. right.
      exists flux. split; [exact Hf|]. right. right. auto.
    + right. exists f. split; [reflexivity|]. right. right. right.
      exists flux. split; [exact Hf|]. right. left. auto.
    + right. exists f. split; [reflexivity|]. right. right. right.
      exists flux. split; [exact Hf|]. left. auto.
  - right. exists f. split; [reflexivity|]. right. right. left. auto.
  - right. exists f. split; [reflexivity|]. right. left. auto.
  - right. exists f. split; [reflexivity|]. left. auto.
Qed.

(** X1: how a load ends, for a file whose objects are 2-D float
    datasets, scalar datasets or groups.  It returns exactly when the
    file is there and both names are array datasets, and then with the
    two arrays cleaned of NaN.  A missing file gives OSError; [flux] is
    read first, then [time], and the first of them that is missing
    gives KeyError, that is a group TypeError, that is a scalar dataset
    ValueError. *)
Theorem X1_load_outcome (disk : gmap string h5file) (path : string) :
  match load_lightcurve_data disk path with
  | Ok ld =>
      exists f flux time,
        disk !! path = Some f /\
        f !! "flux" = Some (H5Dataset flux) /\ f !! "time" = Some (H5Dataset time) /\
        ld_flux ld = cleaned flux /\ ld_timestamps ld = cleaned time
  | Raise e =>
      (e = OSError /\ disk !! path = None) \/
      exists f,
        disk !! path = Some f /\
        ((e = KeyError /\ f !! "flux" = None) \/
         (e = TypeError /\ f !! "flux" = Some H5Group) \/
         (e = ValueError /\ f !! "flux" = Some H5Scalar) \/
         exists flux,
           f !! "flux" = Some (H5Dataset flux) /\
           ((e = KeyError /\ f !! "time" = None) \/
            (e = TypeError /\ f !! "time" = Some H5Group) \/
            (e = ValueError /\ f !! "time" = Some H5Scalar)))
  end.
Proof. apply load_cases. Qed.

Lemma cleaned_shape (a : ndarray) :
  nd_dtype (cleaned a) = nd_dtype a /\ nd_cols (cleaned a) = nd_cols a /\
  length (nd_rows (cleaned a)) = length (nd_rows a).
Proof.
  unfold cleaned. destruct (decide _); [|auto]. simpl. rewrite length_map. auto.
Qed.

Lemma nan_to_num1_finite (d : dtype) (x : float) :
  Fl.isfinite x = true -> nan_to_num1 d x = x.
Proof. destruct x as [s|s| |s m e]; try discriminate; reflexivity. Qed.

Lemma cleaned_lookup (a : ndarray) (i j : nat) (r : list float) (x : float) :
  nd_rows a !! i = Some r -> r !! j = Some x -> Fl.isfinite x = true ->
  exists r', nd_rows (cleaned a) !! i = Some r' /\ length r' = length r /\ r' !! j = Some x.
Proof.
  intros Hr Hx Hfin. unfold cleaned. destruct (decide _).
  - exists (map (nan_to_num1 (nd_dtype a)) r). simpl.
    rewrite list_lookup_fmap, Hr. split; [reflexivity|].
    split; [apply length_map|].
    rewrite list_lookup_fmap, Hx. simpl. rewrite nan_to_num1_finite by exact Hfin.
    reflexivity.
  - exists r. auto.
Qed.

(** X2: loading keeps the dtype and the shape of both arrays, and every
    value that is neither NaN nor infinite stays where it is, unchanged. *)
Theorem X2_load_keeps_shape_and_finite_values
    (disk : gmap string h5file) (path : string) (f : h5file) (flux time : ndarray) :
  disk !! path = Some f ->
  f !! "flux" = Some (H5Dataset flux) -> f !! "time" = Some (H5Dataset time) ->
  exists ld,
    load_lightcurve_data disk path = Ok ld /\
    (nd_dtype (ld_flux ld) = nd_dtype flux /\ nd_shape (ld_flux ld) = nd_shape flux) /\
    (nd_dtype (ld_timestamps ld) = nd_dtype time /\
     nd_shape (ld_timestamps ld) = nd_shape time) /\
    (forall i j r x, nd_rows flux !! i = Some r -> r !! j = Some x ->
       Fl.isfinite x = true ->
       exists r', nd_rows (ld_flux ld) !! i = Some r' /\ length r' = length r
                  /\ r' !! j = Some x) /\
    (forall i j r x, nd_rows time !! i = Some r -> r !! j = Some x ->
       Fl.isfinite x = true ->
       exists r', nd_rows (ld_timestamps ld) !! i = Some r' /\ length r' = length r
                  /\ r' !! j = Some x).
Proof.
  intros Hd Hf Ht.
  destruct (load_lightcurve_data_eq disk path f flux time Hd Hf Ht) as (out & -> & _).
  eexists. split; [reflexivity|]. simpl.
  destruct (cleaned_shape flux) as (F1 & F2 & F3), (cleaned_shape time) as (T1 & T2 & T3).
  unfold nd_shape. rewrite F2, F3, T2, T3.
  split; [auto|]. split; [auto|].
  split; intros i j r x; apply cleaned_lookup.
Qed.

Lemma cleaned_idem (a : ndarray) : cleaned (cleaned a) = cleaned a.
Proof.
  assert (H : count_nan (cleaned a) = 0%nat).
  { unfold cleaned. destruct (decide _); [apply count_nan_clean | lia]. }
  unfold cleaned at 1. rewrite H. destruct (decide _); [lia | reflexivity].
Qed.

(** X3: what a load returns can be stored and loaded again as it is: the
    second load changes no value and prints no warning. *)
Theorem X3_reload_is_identity
    (disk : gmap string h5file) (path path' : string) (ld : loaded) :
  load_lightcurve_data disk path = Ok ld ->
  load_lightcurve_data
    (<[path' := {[ "flux" := H5Dataset (ld_flux ld);
                   "time" := H5Dataset (ld_timestamps ld) ]}]> disk) path'
  = Ok (Loaded (ld_flux ld) (ld_timestamps ld)
               ["Loaded flux: " +:+ repr_shape (ld_flux ld)
                +:+ ", time: " +:+ repr_shape (ld_timestamps ld)]).
Proof.
  intros H. pose proof (load_cases disk path) as H1. rewrite H in H1.
  destruct H1 as (f & flux & time & _ & _ & _ & Ef & Et).
  assert (Cf : count_nan (ld_flux ld) = 0%nat).
  { rewrite Ef. unfold cleaned. destruct (decide _); [apply count_nan_clean | lia]. }
  assert (Ct : count_nan (ld_timestamps ld) = 0%nat).
  { rewrite Et. unfold cleaned. destruct (decide _); [apply count_nan_clean | lia]. }
  unfold load_lightcurve_data, h5_get. rewrite lookup_insert_eq. simpl.
  rewrite lookup_insert_eq. simpl.
  rewrite lookup_insert_ne by discriminate. rewrite lookup_singleton_eq. simpl.
  rewrite Cf, Ct. reflexivity.
Qed.

(** X4: the dataset has as many items as the flux array has rows,
    whatever the timestamps; an item is returned exactly when both arrays
    have the row, and then it is that row of each, rounded to binary32;
    otherwise IndexError is raised. *)
Theorem X4_dataset_items (flux timestamps : ndarray) :
  exists ds,
    LightCurveDataset_init flux timestamps = Ok ds /\
    ds_len ds = length (nd_rows flux) /\
    forall idx,
      match ds_getitem ds idx with
      | Ok s =>
          exists rf rt,
            nd_rows flux !! idx = Some rf /\ nd_rows timestamps !! idx = Some rt /\
            s_flux s = map (Fl.round binary32) rf /\ s_time s = map (Fl.round binary32) rt
      | Raise e =>
          e = IndexError /\
          (length (nd_rows flux) <= idx \/ length (nd_rows timestamps) <= idx)%nat
      end.
Proof.
  eexists. split; [reflexivity|]. split.
  { unfold ds_len, from_numpy_float. simpl. apply length_map. }
  intros idx. unfold ds_getitem, from_numpy_float. simpl.
  rewrite !list_lookup_fmap.
  destruct (nd_rows flux !! idx) as [rf|] eqn:Ef; simpl.
  - destruct (nd_rows timestamps !! idx) as [rt|] eqn:Et; simpl.
    + exists rf, rt. auto.
    + split; [reflexivity|]. right. apply lookup_ge_None, Et.
  - split; [reflexivity|]. left. apply lookup_ge_None, Ef.
Qed.

(** ** The subsets of a run *)

Section MoreSplit.
Context `{RT : Runtime}.

Lemma py_slice_sublist {A} (l : list A) (a b : Z) : py_slice l a b `sublist_of` l.
Proof.
  unfold py_slice. etransitivity; [apply sublist_take | apply sublist_drop].
Qed.

Lemma random_split_sublists (dataset : LightCurveDataset) (lengths : list Z)
    (g : Generator) (subsets : list Subset) :
  random_split dataset lengths g = Ok subsets ->
  Forall (fun s => sub_dataset s = dataset /\
                   sub_indices s `sublist_of` (randperm (ds_len dataset) g).1) subsets.
Proof.
  unfold random_split. intros H.
  apply outcome_bind_ok in H as (lengths' & _ & H).
  destruct (decide _) as [E|]; [|discriminate].
  injection H as <-. rewrite E, Nat2Z.id.
  apply Forall_fmap, Forall_forall. intros [o l] _. simpl.
  split; [reflexivity | apply py_slice_sublist].
Qed.

Lemma sublist_of_perm_valid (n : nat) (l p : list nat) :
  l `sublist_of` p -> p ≡ₚ seq 0 n ->
  NoDup l /\ forall i, i ∈ l -> (i < n)%nat.
Proof.
  intros Hs Hp. split.
  - eapply sublist_NoDup; [|exact Hs]. rewrite Hp. apply NoDup_seq.
  - intros i Hi. eapply elem_of_sublist in Hi; [|exact Hs].
    rewrite Hp in Hi. apply elem_of_seq in Hi. lia.
Qed.

Lemma split_dataset_valid (dataset : LightCurveDataset) (val_split : float) (seed : Z)
    (tr va : Subset) :
  split_dataset dataset val_split seed = Ok (tr, va) ->
  (sub_dataset tr = dataset /\ NoDup (sub_indices tr) /\
   forall i, i ∈ sub_indices tr -> (i < ds_len dataset)%nat) /\
  (sub_dataset va = dataset /\ NoDup (sub_indices va) /\
   forall i, i ∈ sub_indices va -> (i < ds_len dataset)%nat).
Proof.
  unfold split_dataset. intros H.
  apply outcome_bind_ok in H as (v & _ & H).
  apply outcome_bind_ok in H as (subsets & Hs & H).
  apply random_split_sublists in Hs.
  destruct subsets as [|a [|b [|c l]]]; try discriminate H.
  injection H as <- <-.
  apply Forall_cons in Hs as [[Ha1 Ha2] Hs]. apply Forall_cons in Hs as [[Hb1 Hb2] _].
  pose proof (randperm_perm (ds_len dataset) (manual_seed seed)) as Hp.
  destruct (sublist_of_perm_valid _ _ _ Ha2 Hp), (sublist_of_perm_valid _ _ _ Hb2 Hp).
  auto.
Qed.

Lemma sub_getitem_ok (s : Subset) (idx : nat) :
  (forall i, i ∈ sub_indices s -> (i < ds_len (sub_dataset s))%nat) ->
  (ds_len (sub_dataset s) <= length (ds_timestamps (sub_dataset s)))%nat ->
  (idx < sub_len s)%nat ->
  exists i f t,
    sub_indices s !! idx = Some i /\ ds_flux (sub_dataset s) !! i = Some f /\
    ds_timestamps (sub_dataset s) !! i = Some t /\
    sub_getitem s idx = Ok (Sample f t).
Proof.
  intros Hvalid Hts Hidx. unfold sub_getitem, ds_getitem.
  destruct (lookup_lt_is_Some_2 (sub_indices s) idx Hidx) as [i Hi]. rewrite Hi.
  assert (Hin : (i < ds_len (sub_dataset s))%nat).
  { apply Hvalid. eapply list_elem_of_lookup_2, Hi. }
  destruct (lookup_lt_is_Some_2 (ds_flux (sub_dataset s)) i Hin) as [f Hf].
  destruct (lookup_lt_is_Some_2 (ds_timestamps (sub_dataset s)) i) as [t Ht]; [lia|].
  rewrite Hf, Ht. exists i, f, t. auto.
Qed.

(** X5: the two subsets that [main] trains and validates on index the
    dataset without repetition and within its bounds, whatever the
    fraction; so, the timestamps having at least as many rows as the
    flux, every item of either subset can be fetched: no batch of a run
    fails with IndexError. *)
Theorem X5_subsets_index_the_dataset
    (args : Args) (disk : gmap string h5file) (pr : prepared)
    (mk : gmap string artifact -> world) :
  prepare args disk = Ok (pr, mk) ->
  forall s, s = pr_train_dataset pr \/ s = pr_val_dataset pr ->
    sub_dataset s = pr_dataset pr /\
    NoDup (sub_indices s) /\
    (forall i, i ∈ sub_indices s -> (i < ds_len (pr_dataset pr))%nat) /\
    ((ds_len (pr_dataset pr) <= length (ds_timestamps (pr_dataset pr)))%nat ->
     forall idx, (idx < sub_len s)%nat -> is_ok (sub_getitem s idx) = true).
Proof.
  intros H s Hs. apply prepare_ok in H as (ld & _ & _ & _ & Hsp & _ & _).
  apply split_dataset_valid in Hsp as [(A1 & A2 & A3) (B1 & B2 & B3)].
  assert (K : sub_dataset s = pr_dataset pr /\ NoDup (sub_indices s) /\
              (forall i, i ∈ sub_indices s -> (i < ds_len (pr_dataset pr))%nat)).
  { destruct Hs as [-> | ->]; auto. }
  destruct K as (K1 & K2 & K3). split; [exact K1|]. split; [exact K2|].
  split; [exact K3|]. intros Hts idx Hidx.
  destruct (sub_getitem_ok s idx) as (i & f & t & _ & _ & _ & ->);
    rewrite ?K1; auto.
Qed.

End MoreSplit.

(** ** Batches *)

Section MoreCollate.
Context `{RT : Runtime}.

Lemma select_row_partition {A} (r : list A) :
  forall m : list bool, length r = length m ->
    select_row r m ++ select_row r (map negb m) ≡ₚ r.
Proof.
  induction r as [|x r IH]; intros [|b m] Hlen; try discriminate Hlen; [reflexivity|].
  injection Hlen as Hlen. specialize (IH m Hlen). destruct b; simpl.
  - rewrite IH. reflexivity.
  - rewrite <- Permutation_middle. rewrite IH. reflexivity.
Qed.

Lemma masked_select_partition {A} (t : list (list A)) (mask : list (list bool)) :
  Forall2 (fun r m => length r = length m) t mask ->
  masked_select t mask ++ masked_select t (mask_not mask) ≡ₚ concat t.
Proof.
  induction 1 as [|r m t mask Hrow _ IH]; [reflexivity|].
  simpl.
  etransitivity;
    [|apply Permutation_app; [apply (select_row_partition r m Hrow) | exact IH]].
  rewrite <- !app_assoc. apply Permutation_app_head.
  rewrite !app_assoc. apply Permutation_app_tail, Permutation_app_comm.
Qed.

Lemma stack_uniform {A} (ts ts' : list (list A)) :
  stack ts = Ok ts' ->
  ts <> [] /\ Forall (fun u => length u = seq_len_of ts) ts.
Proof.
  unfold stack. destruct ts as [|t ts]; [discriminate|].
  destruct (forallb _ _) eqn:E; [|discriminate]. intros _. split; [discriminate|].
  apply Forall_forall. intros u Hu. rewrite forallb_forall in E.
  apply Nat.eqb_eq, E, list_elem_of_In, Hu.
Qed.

Lemma masked_rows_lengths (rows : list tensor1) (ds : list (list bool * Z * float)) :
  Forall2 (fun (flux : tensor1) d => length d.1.1 = length flux) rows ds ->
  Forall2 (fun (r : tensor1) (x : list (float * float)) => length r = length x) rows
          (zip_with (fun flux mask => zip (zero_masked flux mask) (map bool_to_float mask))
                    rows (map (fun d => d.1.1) ds)).
Proof.
  induction 1 as [|flux d rows ds Hlen _ IH]; simpl; constructor; [|exact IH].
  rewrite length_zip_with, zero_masked_length, length_map. lia.
Qed.

(** A batch that is returned: its rows and their lengths. *)
Lemma collate_shape (items : list sample) minb (maxb : option Z) minr maxr g b g' :
  collate_with_masking items minb maxb minr maxr g = (Ok b, g') ->
  items <> [] /\
  Forall (fun r : tensor1 => length r = seq_len_of (map s_flux items)) (b_target b) /\
  Forall (fun r : tensor1 => length r = seq_len_of (map s_time items)) (b_time b) /\
  Forall2 (fun (r : tensor1) (m : list bool) => length r = length m) (b_target b) (b_mask b) /\
  Forall2 (fun (r : tensor1) (x : list (float * float)) => length r = length x)
          (b_target b) (b_input b).
Proof.
  intros H.
  assert (Hst : exists bf bt, stack (map s_flux items) = Ok bf /\ stack (map s_time items) = Ok bt).
  { unfold collate_with_masking in H.
    apply M_bind_ok in H as (bf & g1 & Hbf & H). apply lift_ok in Hbf as [Hbf ->].
    apply M_bind_ok in H as (bt & g1 & Hbt & H). apply lift_ok in Hbt as [Hbt ->].
    eauto. }
  destruct Hst as (bf & bt & Hbf & Hbt).
  apply stack_uniform in Hbf as [Hne Huf]. apply stack_uniform in Hbt as [_ Hut].
  apply collate_ok in H as (_ & HF & Hi & Ht & Htime & Hm & _ & _).
  rewrite Ht, Htime, Hm, Hi.
  split. { intros ->. apply Hne. reflexivity. }
  split; [exact Huf|]. split; [exact Hut|].
  split.
  - apply Forall2_fmap_r. eapply Forall2_impl; [exact HF|]. simpl. intros; congruence.
  - apply masked_rows_lengths, HF.
Qed.

(** X6: in a batch that the collate function returns, the positions
    selected by the mask and those selected by its negation are, taken
    together, all the positions of the target, each once: what
    [train_epoch] averages as masked and as unmasked loss splits the
    whole-sequence loss's elements in two. *)
Theorem X6_mask_splits_the_batch
    (items : list sample) (min_block_size : Z) (max_block_size : option Z)
    (min_mask_ratio max_mask_ratio : float) (g g' : Generator) (b : batch) :
  collate_with_masking items min_block_size max_block_size
                       min_mask_ratio max_mask_ratio g = (Ok b, g') ->
  masked_select (b_target b) (b_mask b)
    ++ masked_select (b_target b) (mask_not (b_mask b)) ≡ₚ concat (b_target b) /\
  (length (masked_select (b_target b) (b_mask b))
   + length (masked_select (b_target b) (mask_not (b_mask b))))%nat
  = length (concat (b_target b)).
Proof.
  intros H. apply collate_shape in H as (_ & _ & _ & HF & _).
  pose proof (masked_select_partition _ _ HF) as P.
  split; [exact P|]. rewrite <- length_app. apply Permutation_length, P.
Qed.

Lemma row_lengths_transfer {A B} (L : nat) (t : list (list A)) (u : list (list B)) :
  Forall (fun r => length r = L) t ->
  Forall2 (fun r x => length r = length x) t u ->
  Forall (fun x => length x = L) u.
Proof.
  intros Ht HF. induction HF as [|r x t u Hrx _ IH]; constructor.
  - apply Forall_cons in Ht as [Hr _]. congruence.
  - apply IH. apply Forall_cons in Ht as [_ Ht]. exact Ht.
Qed.

(** X7: the collate function returns only for a batch that is not empty
    and whose flux rows have one length, and whose timestamp rows have
    one length; the tensors it returns have one row per item, those of
    target, input and mask of the length of the flux rows. *)
Theorem X7_batch_shape
    (items : list sample) (min_block_size : Z) (max_block_size : option Z)
    (min_mask_ratio max_mask_ratio : float) (g g' : Generator) (b : batch) :
  collate_with_masking items min_block_size max_block_size
                       min_mask_ratio max_mask_ratio g = (Ok b, g') ->
  (0 < length items)%nat /\
  Forall (fun s => length (s_flux s) = seq_len_of (map s_flux items)) items /\
  Forall (fun s => length (s_time s) = seq_len_of (map s_time items)) items /\
  length (b_input b) = length items /\ length (b_target b) = length items /\
  length (b_time b) = length items /\ length (b_mask b) = length items /\
  length (b_block_size b) = length items /\ length (b_mask_ratio b) = length items /\
  Forall (fun r => length r = seq_len_of (map s_flux items)) (b_input b) /\
  Forall (fun r => length r = seq_len_of (map s_flux items)) (b_target b) /\
  Forall (fun r => length r = seq_len_of (map s_flux items)) (b_mask b).
Proof.
  intros H.
  pose proof (collate_shape _ _ _ _ _ _ _ _ H) as (Hne & Hut & Htt & HFm & HFi).
  pose proof (collate_ok _ _ _ _ _ _ _ _ H) as (_ & HF & _ & Ht & Htime & Hm & Hb & Hr).
  pose proof (Forall2_length _ _ _ HF) as Hl. rewrite length_map in Hl.
  pose proof (Forall2_length _ _ _ HFm) as Hlm.
  pose proof (Forall2_length _ _ _ HFi) as Hli.
  assert (Hn : length (b_target b) = length items) by (rewrite Ht; apply length_map).
  split. { destruct items; [contradiction | simpl; lia]. }
  split. { rewrite Ht in Hut. apply Forall_fmap in Hut. exact Hut. }
  split. { rewrite Htime in Htt. apply Forall_fmap in Htt. exact Htt. }
  split; [lia|]. split; [exact Hn|].
  split. { rewrite Htime. apply length_map. }
  split; [lia|].
  split. { rewrite Hb, length_map. lia. }
  split. { rewrite Hr, length_map. lia. }
  split; [|split; [exact Hut|]].
  - eapply row_lengths_transfer; [exact Hut | exact HFi].
  - eapply row_lengths_transfer; [exact Hut | exact HFm].
Qed.

End MoreCollate.

(** ** Loaders and the first epoch *)

Section MoreLoops.
Context `{RT : Runtime}.

Lemma chunks_fuel_concat {A} (k fuel : nat) : forall l : list A,
  (1 <= k)%nat -> (length l <= fuel)%nat -> concat (chunks_fuel fuel k l) = l.
Proof.
  induction fuel as [|fuel IH]; intros [|x l] Hk Hlen; simpl in *; try reflexivity; [lia|].
  destruct k as [|k]; [lia|]. simpl. f_equal.
  rewrite IH; [apply take_drop | lia | rewrite length_drop; lia].
Qed.

Lemma chunks_fuel_sizes {A} (k fuel : nat) : forall l : list A,
  (1 <= k)%nat -> Forall (fun c => (1 <= length c <= k)%nat) (chunks_fuel fuel k l).
Proof.
  induction fuel as [|fuel IH]; intros [|x l] Hk; simpl; try constructor.
  - destruct k as [|k]; [lia|]. simpl. rewrite length_take. lia.
  - apply IH, Hk.
Qed.

Lemma ceil_div_step (n k : nat) :
  (1 <= k)%nat -> (1 <= n)%nat ->
  ((n + k - 1) / k)%nat = S ((n - k + k - 1) / k).
Proof.
  intros Hk Hn. destruct (le_lt_dec n k) as [Hle|Hgt].
  - replace (n - k)%nat with 0%nat by lia.
    rewrite (Nat.div_small (0 + k - 1)) by lia.
    symmetry. apply (Nat.div_unique _ _ 1 (n - 1)); lia.
  - replace (n + k - 1)%nat with ((n - k + k - 1) + 1 * k)%nat by lia.
    rewrite Nat.div_add by lia. lia.
Qed.

Lemma chunks_fuel_count {A} (k fuel : nat) : forall l : list A,
  (1 <= k)%nat -> (length l <= fuel)%nat ->
  length (chunks_fuel fuel k l) = ((length l + k - 1) / k)%nat.
Proof.
  induction fuel as [|fuel IH]; intros l Hk Hlen.
  - destruct l; [|simpl in Hlen; lia]. simpl. symmetry. apply Nat.div_small. lia.
  - destruct l as [|x l]; [simpl; symmetry; apply Nat.div_small; lia|].
    rewrite (ceil_div_step (length (x :: l)) k) by (simpl; lia).
    change (chunks_fuel (S fuel) k (x :: l))
      with (take k (x :: l) :: chunks_fuel fuel k (drop k (x :: l))).
    rewrite length_cons. f_equal.
    rewrite IH; [|exact Hk|rewrite length_drop; simpl in *; lia].
    rewrite length_drop. reflexivity.
Qed.

(** What [prepare] has checked of the arguments. *)
Lemma prepare_args_ok args disk pr mk :
  prepare args disk = Ok (pr, mk) ->
  (0 < arg_batch_size args)%Z /\ (0 < arg_epochs args)%Z /\
  (0 < dl_len (pr_train_loader pr))%nat /\
  (0 <= arg_seed args <= 2 ^ 32 - 1)%Z /\
  (arg_device args = "auto" \/ device_ok (arg_device args) = true) /\
  Fl.leb Fl.zero (arg_lr args) = true.
Proof.
  unfold prepare. intros H.
  apply outcome_bind_ok in H as ([] & Hseed & H).
  apply outcome_bind_ok in H as ([] & Hdev & H).
  apply outcome_bind_ok in H as (ld & Hld & H).
  apply outcome_bind_ok in H as ([] & Hsz & H).
  apply outcome_bind_ok in H as ([] & Hsz' & H).
  apply outcome_bind_ok in H as (ds & Hds & H).
  apply outcome_bind_ok in H as ([tr va] & Hsplit & H).
  apply outcome_bind_ok in H as (tl & Htl & H).
  apply outcome_bind_ok in H as (vl & Hvl & H).
  destruct (init_params _ _) as [p g1].
  apply outcome_bind_ok in H as ([] & Hlr & H).
  apply outcome_bind_ok in H as ([] & Hsteps & H).
  injection H as <- <-. simpl.
  apply DataLoader_init_ok in Htl as [[Hbs _] _].
  destruct (decide (Z.of_nat (dl_len tl) * arg_epochs args ≤ 0)%Z) as [|Hs];
    [discriminate|].
  split; [lia|].
  pose proof (Nat2Z.is_nonneg (dl_len tl)) as Hnn.
  assert (Hlen : (0 < dl_len tl)%nat).
  { destruct (dl_len tl) as [|k]; [exfalso; apply Hs; simpl; lia | lia]. }
  split; [nia|]. split; [exact Hlen|].
  split.
  { unfold seed_all in Hseed. apply outcome_bind_ok in Hseed as ([] & _ & Hseed).
    destruct (decide (0 ≤ arg_seed args ≤ 2 ^ 32 - 1)%Z); [assumption | discriminate]. }
  split.
  { unfold select_device in Hdev. destruct (decide _); [left; assumption|].
    destruct (device_ok _); [right; reflexivity | discriminate]. }
  destruct (Fl.leb _ _); [reflexivity | discriminate].
Qed.

(** X8: in a run, the validation loader visits the indices 0 .. n-1 of
    the validation subset once each and in order, cut into batches that
    are never empty nor longer than the batch size; and either loader
    has the number of its items divided by the batch size, rounded up,
    as its length, the number [main] multiplies by the epochs for the
    scheduler. *)
Theorem X8_batches_of_a_run
    (args : Args) (disk : gmap string h5file) (pr : prepared)
    (mk : gmap string artifact -> world) :
  prepare args disk = Ok (pr, mk) ->
  let bs := Z.to_nat (arg_batch_size args) in
  (forall g, exists order,
      (loader_order (pr_val_loader pr) g).1 = Ok order /\
      concat order = seq 0 (sub_len (pr_val_dataset pr)) /\
      Forall (fun c => (1 <= length c <= bs)%nat) order /\
      length order = dl_len (pr_val_loader pr)) /\
  dl_len (pr_val_loader pr) = ((sub_len (pr_val_dataset pr) + bs - 1) / bs)%nat /\
  dl_len (pr_train_loader pr) = ((sub_len (pr_train_dataset pr) + bs - 1) / bs)%nat.
Proof.
  intros H bs.
  pose proof (prepare_args_ok _ _ _ _ H) as (Hbs & _ & _).
  apply prepare_ok in H as (ld & _ & _ & _ & _ & -> & ->).
  assert (Hk : (1 <= bs)%nat) by (subst bs; lia).
  unfold dl_len, loader_order, chunks. simpl. fold bs.
  split; [|split].
  - intros g. eexists. split; [reflexivity|].
    split; [apply chunks_fuel_concat; [exact Hk | reflexivity]|].
    split; [apply chunks_fuel_sizes, Hk | reflexivity].
  - rewrite chunks_fuel_count by (try exact Hk; reflexivity).
    rewrite length_seq. reflexivity.
  - rewrite chunks_fuel_count by (try exact Hk; reflexivity).
    rewrite length_seq. reflexivity.
Qed.

(** X9: over an empty subset, unshuffled, the validation loop divides
    zero by zero batches: it raises ZeroDivisionError, having changed
    nothing of the model, the optimizer, the scheduler or the files. *)
Theorem X9_validation_of_nothing
    (dl : DataLoader) (criterion : list float -> list float -> float) (w : world) :
  sub_len (dl_dataset dl) = 0%nat -> dl_shuffle dl = false ->
  (validate_epoch dl criterion w).1 = Raise ZeroDivisionError /\
  same_learner w (validate_epoch dl criterion w).2 /\
  files (validate_epoch dl criterion w).2 = files w.
Proof.
  intros Hlen Hsh. split; [|split].
  - unfold validate_epoch, for_batches, loader_order, with_rng.
    rewrite !M_bind_unfold. simpl. rewrite Hlen, Hsh. reflexivity.
  - apply validate_epoch_same_learner.
  - apply validate_epoch_same_files.
Qed.

Lemma for_each_ok {S A} (xs : list A) (body : A -> M S unit) (s s' : S) :
  for_each xs body s = (Ok tt, s') ->
  forall x, x ∈ xs -> exists s1 s2, body x s1 = (Ok tt, s2).
Proof.
  revert s. induction xs as [|y xs IH]; intros s H x Hx.
  - apply elem_of_nil in Hx. contradiction.
  - simpl in H. apply M_bind_ok in H as ([] & s1 & Hy & H).
    apply elem_of_cons in Hx as [-> | Hx]; [eauto | eapply IH; eassumption].
Qed.

Lemma map_outcome_length {A B} (f : A -> outcome B) (l : list A) (r : list B) :
  map_outcome f l = Ok r -> length r = length l.
Proof.
  revert r. induction l as [|x l IH]; intros r H; simpl in H.
  - injection H as <-. reflexivity.
  - apply outcome_bind_ok in H as (y & _ & H).
    apply outcome_bind_ok in H as (ys & Hys & H). injection H as <-.
    simpl. f_equal. apply IH, Hys.
Qed.

(** The figure is saved only if the first batch of the loader has a row
    for each example. *)
Lemma plot_ok_rows (dl : DataLoader) (save_path : string) (n : nat) (w w' : world) :
  plot_reconstruction_examples dl save_path n w = (Ok tt, w') ->
  exists chunk rest b g g',
    (loader_order dl g).1 = Ok (chunk :: rest) /\
    fetch dl chunk g' = (Ok b, (fetch dl chunk g').2) /\
    (n <= length (b_time b))%nat.
Proof.
  unfold plot_reconstruction_examples. intros H.
  apply M_bind_ok in H as ([] & w1 & Hm & H). injection Hm as <-.
  apply M_bind_ok in H as (order & w2 & Ho & H).
  unfold with_rng in Ho.
  destruct (loader_order dl (rng (set_training false w))) as [o g2] eqn:Eo.
  injection Ho as -> <-.
  apply M_bind_ok in H as (b & w3 & Hb & H).
  destruct order as [|chunk rest]; [discriminate Hb|].
  unfold with_rng in Hb.
  destruct (fetch dl chunk (rng (set_rng g2 (set_training false w)))) as [ob g3] eqn:Ef.
  injection Hb as -> <-.
  apply M_bind_ok in H as (w3' & w4 & Hg & H). injection Hg as <- <-.
  apply M_bind_ok in H as ([] & w5 & Hsub & H).
  apply M_bind_ok in H as ([] & w6 & Hloop & _).
  exists chunk, rest, b, (rng (set_training false w)),
         (rng (set_rng g2 (set_training false w))).
  split; [rewrite Eo; reflexivity|]. split; [rewrite Ef; reflexivity|].
  destruct n as [|n]; [lia|].
  destruct (for_each_ok _ _ _ _ Hloop n) as (s1 & s2 & Hbody).
  { apply elem_of_seq. lia. }
  destruct (take (S n) (b_time b) !! n) as [t|] eqn:Et; [|discriminate Hbody].
  apply lookup_lt_Some in Et. rewrite length_take in Et. lia.
Qed.

Lemma head_chunk_length {A} (k : nat) (l chunk : list A) (rest : list (list A)) :
  chunks k l = chunk :: rest -> length chunk = Nat.min k (length l).
Proof.
  unfold chunks. destruct l as [|x l]; [discriminate|].
  simpl. intros H. injection H as <- _. destruct k; simpl; [reflexivity|].
  rewrite length_take. reflexivity.
Qed.

(** An epoch that returns: the figure, when it is due, was saved, and
    the periodic checkpoint was considered without error. *)
Lemma epoch_body_steps args pr st epoch w st' w' :
  epoch_body args pr st epoch w = (Ok st', w') ->
  (((epoch + 1) mod 10 = 0)%Z \/ epoch = 0%Z ->
   exists w3 w4,
     plot_reconstruction_examples (pr_val_loader pr) (recon_path args epoch) 4 w3
     = (Ok tt, w4)) /\
  (exists vm w4 w5, save_periodic args pr epoch vm w4 = (Ok tt, w5)).
Proof.
  unfold epoch_body. intros H.
  apply M_bind_ok in H as (tm & w1 & Htrain & H).
  apply M_bind_ok in H as (vm & w2 & Hval & H).
  apply M_bind_ok in H as (st1 & w3 & Hbest & H).
  apply M_bind_ok in H as ([] & w4 & Hplot & H).
  apply M_bind_ok in H as ([] & w5 & Hper & H).
  split; [|eauto].
  intros Hc. destruct (decide _); [eauto | contradiction].
Qed.

Lemma py_range_first (n : Z) : (0 < n)%Z -> exists rest, py_range n = 0%Z :: rest.
Proof.
  intros H. unfold py_range. destruct (Z.to_nat n) as [|k] eqn:E; [lia|].
  simpl. eauto.
Qed.

(** A run that returns has been prepared and has completed its first
    epoch. *)
Lemma main_ok_first_epoch args disk files0 st :
  (main args disk files0).1 = Ok st ->
  exists pr mk w st1 w1,
    prepare args disk = Ok (pr, mk) /\
    epoch_body args pr loop_state0 0 w = (Ok st1, w1).
Proof.
  unfold main. destruct (prepare args disk) as [[pr mk]|e] eqn:E; [|discriminate].
  destruct (run_epochs args pr (mk files0)) as [o w'] eqn:Er. simpl. intros ->.
  unfold run_epochs in Er. apply M_bind_ok in Er as (st1 & w1 & Hloop & _).
  pose proof (prepare_args_ok _ _ _ _ E) as (_ & Hep & _).
  destruct (py_range_first _ Hep) as (rest & Hr). rewrite Hr in Hloop.
  simpl in Hloop. apply M_bind_ok in Hloop as (st2 & w2 & Hfirst & _).
  exists pr, mk, (mk files0), st2, w2. auto.
Qed.

(** X10: a run returns only if its batch size is at least 4 and its
    validation subset has at least 4 light curves: the figure drawn at
    the end of the first epoch indexes four rows of the first validation
    batch. *)
Theorem X10_four_examples_to_plot
    (args : Args) (disk : gmap string h5file) (files0 : gmap string artifact)
    (st : loop_state) :
  (main args disk files0).1 = Ok st ->
  (4 <= arg_batch_size args)%Z /\
  exists pr mk,
    prepare args disk = Ok (pr, mk) /\ (4 <= sub_len (pr_val_dataset pr))%nat.
Proof.
  intros H. apply main_ok_first_epoch in H as (pr & mk & w & st1 & w1 & Hp & He).
  apply epoch_body_steps in He as [Hplot _].
  destruct Hplot as (w3 & w4 & Hplot); [right; reflexivity|].
  apply plot_ok_rows in Hplot as (chunk & rest & b & g & g' & Ho & Hf & Hn).
  pose proof (prepare_args_ok _ _ _ _ Hp) as (Hbs & _ & _).
  pose proof (prepare_ok _ _ _ _ Hp) as (ld & _ & _ & _ & _ & _ & Hvl).
  rewrite Hvl in Ho, Hf. unfold loader_order in Ho. simpl in Ho.
  injection Ho as Ho. apply head_chunk_length in Ho. rewrite length_seq in Ho.
  unfold fetch in Hf. simpl in Hf.
  apply M_bind_ok in Hf as (items & g1 & Hitems & Hc).
  apply lift_ok in Hitems as [Hitems ->].
  apply map_outcome_length in Hitems.
  unfold main_collate_fn in Hc. apply collate_ok in Hc as (_ & _ & _ & _ & Htime & _).
  rewrite Htime, length_map, Hitems, Ho in Hn.
  split; [lia|]. exists pr, mk. split; [exact Hp | lia].
Qed.

(** X11: a run with [--save_every 0] does not return: the test for the
    periodic checkpoint at the end of the first epoch divides by zero. *)
Theorem X11_save_every_zero
    (args : Args) (disk : gmap string h5file) (files0 : gmap string artifact) :
  arg_save_every args = 0%Z ->
  is_ok (main args disk files0).1 = false /\
  forall pr epoch vm w,
    save_periodic args pr epoch vm w = (Raise ZeroDivisionError, w).
Proof.
  intros Hz.
  assert (Hs : forall pr epoch vm w,
             save_periodic args pr epoch vm w = (Raise ZeroDivisionError, w)).
  { intros. unfold save_periodic, py_mod. rewrite Hz. reflexivity. }
  split; [|exact Hs].
  destruct (main args disk files0).1 as [st|e] eqn:E; [|reflexivity].
  apply main_ok_first_epoch in E as (pr & mk & w & st1 & w1 & _ & He).
  apply epoch_body_steps in He as [_ (vm & w4 & w5 & Hper)].
  rewrite Hs in Hper. discriminate Hper.
Qed.

(** X12: arguments that end [main] before any training and before any
    file is written: a batch size or a number of epochs that is not
    positive, a validation fraction that is NaN, a seed outside
    0 .. 2^32 - 1, a device name other than [auto] that [torch.device]
    refuses, or a learning rate [lr] for which [0.0 <= lr] is false. *)
Theorem X12_arguments_refused
    (args : Args) (disk : gmap string h5file) (files0 : gmap string artifact) :
  (arg_batch_size args <= 0)%Z \/ (arg_epochs args <= 0)%Z
  \/ Fl.isnan (arg_val_split args) = true
  \/ ~ (0 <= arg_seed args <= 2 ^ 32 - 1)%Z
  \/ (arg_device args <> "auto" /\ device_ok (arg_device args) = false)
  \/ Fl.leb Fl.zero (arg_lr args) = false ->
  exists e, main args disk files0 = (Raise e, files0).
Proof.
  intros Hbad. unfold main.
  destruct (prepare args disk) as [[pr mk]|e] eqn:E; [|exists e; reflexivity].
  exfalso.
  pose proof (prepare_args_ok _ _ _ _ E) as (Hbs & Hep & _ & Hseed & Hdev & Hlr).
  destruct Hbad as [Hb | [Hb | [Hb | [Hb | [[Hb1 Hb2] | Hb]]]]];
    [lia | lia | | contradiction | destruct Hdev; congruence | congruence].
  apply prepare_ok in E as (ld & _ & _ & _ & Hsp & _).
  unfold split_dataset in Hsp. apply outcome_bind_ok in Hsp as (v & Hv & _).
  destruct (arg_val_split args); try discriminate Hb.
  unfold py_int_mul, Fl.mul, SFmul in Hv.
  destruct (Fl.of_Z binary64 _); discriminate Hv.
Qed.

End MoreLoops.

(** ** Files of a run *)

Section MoreCheckpoints.
Context `{RT : Runtime}.

#[local] Instance more_same_learner_refl : Reflexive same_learner := same_learner_refl.
#[local] Instance more_same_learner_trans : Transitive same_learner := same_learner_trans.
#[local] Instance more_keeps_file_refl path : Reflexive (keeps_file path) :=
  keeps_file_refl path.
#[local] Instance more_keeps_file_trans path : Transitive (keeps_file path) :=
  keeps_file_trans path.

(** *** The order of floats *)

Lemma ltb_irrefl (x : float) : Fl.ltb x x = false.
Proof.
  destruct x as [s|[]| |[] m e]; try reflexivity;
    unfold Fl.ltb, SFltb; simpl; rewrite Z.compare_refl, Pos.compare_cont_refl;
    reflexivity.
Qed.

Ltac compare_cases :=
  repeat match goal with
  | H : context [Z.compare ?a ?b] |- _ => destruct (Z.compare_spec a b); simpl in H
  | |- context [Z.compare ?a ?b] => destruct (Z.compare_spec a b); simpl
  | H : context [Pos.compare_cont Eq ?a ?b] |- _ =>
      change (Pos.compare_cont Eq a b) with (Pos.compare a b) in H;
      destruct (Pos.compare_spec a b); simpl in H
  | |- context [Pos.compare_cont Eq ?a ?b] =>
      change (Pos.compare_cont Eq a b) with (Pos.compare a b);
      destruct (Pos.compare_spec a b); simpl
  end.

Lemma ltb_trans (a b c : float) :
  Fl.ltb a b = true -> Fl.ltb b c = true -> Fl.ltb a c = true.
Proof.
  unfold Fl.ltb, SFltb.
  destruct a as [sa|sa| |sa ma ea], b as [sb|sb| |sb mb eb], c as [sc|sc| |sc mc ec];
    try destruct sa; try destruct sb; try destruct sc; simpl;
    try discriminate; try reflexivity; intros H1 H2;
    compare_cases; try discriminate; try reflexivity; subst; try lia.
Qed.

Lemma py_range_length (n : Z) : length (py_range n) = Z.to_nat n.
Proof. unfold py_range. rewrite length_map, length_seq. reflexivity. Qed.

Lemma py_range_elem (n e : Z) : e ∈ py_range n -> (0 <= e < n)%Z.
Proof.
  unfold py_range. intros H. apply list_elem_of_fmap in H as (k & -> & Hk).
  apply elem_of_seq in Hk. lia.
Qed.

(** X13: a run that returns has recorded one training loss and one
    validation loss per epoch, and the best validation loss it reports
    is one of those recorded, or +inf, and none of those recorded is
    strictly below it. *)
Theorem X13_best_loss_is_least
    (args : Args) (disk : gmap string h5file) (files0 : gmap string artifact)
    (st : loop_state) :
  (main args disk files0).1 = Ok st ->
  length (train_losses st) = Z.to_nat (arg_epochs args) /\
  length (val_losses st) = Z.to_nat (arg_epochs args) /\
  (forall v, v ∈ val_losses st -> Fl.ltb v (best_val_loss st) = false) /\
  (best_val_loss st = Fl.inf \/ best_val_loss st ∈ val_losses st).
Proof.
  intros H. apply main_ok_inv in H as (pr & mk & w1 & _ & Hloop & _).
  pose (P := fun (done : list Z) (s : loop_state) (_ : world) =>
    length (train_losses s) = length done /\
    length (val_losses s) = length done /\
    (forall v, v ∈ val_losses s -> Fl.ltb v (best_val_loss s) = false) /\
    (best_val_loss s = Fl.inf \/ best_val_loss s ∈ val_losses s)).
  assert (H0 : P [] loop_state0 (mk files0)).
  { unfold P. simpl. repeat split; auto.
    intros v Hv. apply elem_of_nil in Hv. contradiction. }
  assert (HP : P ([] ++ py_range (arg_epochs args)) st w1).
  { eapply (for_fold_inv P); [|exact H0|exact Hloop].
    - intros done acc x s acc' s' (L1 & L2 & Hlow & Hin) Hbody.
      apply epoch_body_state in Hbody as (tl & v & E1 & E2 & E3).
      unfold P. rewrite E1, E2, E3. clear E1 E2 E3.
      rewrite !length_app, L1, L2. simpl.
      split; [reflexivity|]. split; [reflexivity|].
      destruct (Fl.ltb v (best_val_loss acc)) eqn:E.
      + split.
        * intros u Hu. apply elem_of_app in Hu as [Hu | Hu].
          -- destruct (Fl.ltb u v) eqn:Euv; [|reflexivity].
             rewrite <- (Hlow u Hu). symmetry. eapply ltb_trans; eassumption.
          -- apply list_elem_of_singleton in Hu as ->. apply ltb_irrefl.
        * right. apply elem_of_app. right. apply list_elem_of_singleton. reflexivity.
      + split.
        * intros u Hu. apply elem_of_app in Hu as [Hu | Hu]; [apply Hlow, Hu|].
          apply list_elem_of_singleton in Hu as ->. exact E.
        * destruct Hin as [Hin | Hin]; [left; exact Hin|].
          right. apply elem_of_app. left. exact Hin. }
  destruct HP as (L1 & L2 & Hlow & Hin). simpl in L1, L2.
  rewrite py_range_length in L1, L2. auto.
Qed.

(** X14: after a run that returns, unless no epoch improved on +inf, the
    file of the best checkpoint is a checkpoint saved by one of the
    run's epochs, and the validation loss it records is the best
    validation loss the run reports. *)
Theorem X14_best_file_records_best_loss
    (args : Args) (disk : gmap string h5file) (files0 : gmap string artifact)
    (st : loop_state) :
  (main args disk files0).1 = Ok st ->
  best_val_loss st = Fl.inf \/
  exists d e,
    (main args disk files0).2 !! best_path args = Some (Checkpoint d) /\
    ckpt_core d /\
    d !! "val_loss" = Some (VFloat (best_val_loss st)) /\
    d !! "epoch" = Some (VInt e) /\ (0 <= e < arg_epochs args)%Z.
Proof.
  intros H. apply main_ok_inv in H as (pr & mk & w1 & _ & Hloop & ->).
  pose (J := fun (done : list Z) (s : loop_state) (w : world) =>
    best_val_loss s = Fl.inf \/
    exists d e, files w !! best_path args = Some (Checkpoint d) /\ ckpt_core d /\
                d !! "val_loss" = Some (VFloat (best_val_loss s)) /\
                d !! "epoch" = Some (VInt e) /\ e ∈ done).
  assert (H0 : J [] loop_state0 (mk files0)) by (left; reflexivity).
  assert (HJ : J ([] ++ py_range (arg_epochs args)) st w1).
  { eapply (for_fold_inv J); [|exact H0|exact Hloop].
    intros done acc x s acc' s' HJ Hbody.
    apply epoch_body_best_file in Hbody as (tl & v & E1 & E2).
    unfold J. rewrite E1, E2. clear E1 E2.
    destruct (Fl.ltb v (best_val_loss acc)).
    - right. eexists _, x. split; [reflexivity|].
      split; [apply best_checkpoint_core|].
      destruct (best_checkpoint_entries x s' (pr_config pr) tl v) as [B1 B2].
      split; [exact B1|]. split; [exact B2|].
      apply elem_of_app. right. apply list_elem_of_singleton. reflexivity.
    - destruct HJ as [HJ | (d & e & F1 & F2 & F3 & F4 & F5)]; [left; exact HJ|].
      right. exists d, e. split; [exact F1|]. split; [exact F2|].
      split; [exact F3|]. split; [exact F4|].
      apply elem_of_app. left. exact F5. }
  destruct HJ as [HJ | (d & e & F1 & F2 & F3 & F4 & F5)]; [left; exact HJ|].
  right. exists d, e.
  rewrite lookup_insert_ne by apply curve_not_best.
  rewrite lookup_insert_ne by apply final_not_best.
  split; [exact F1|]. split; [exact F2|]. split; [exact F3|]. split; [exact F4|].
  apply py_range_elem in F5. lia.
Qed.

(** X15: at the end of an epoch that returns, the checkpoint interval is
    not zero; if it divides the number of the epoch, counted from one,
    the periodic checkpoint of that epoch is on disk, with the epoch's
    index and validation loss; if not, the file of that name is as it
    was.  Different epochs have different files. *)
Theorem X15_periodic_checkpoint
    (args : Args) (pr : prepared) (st st' : loop_state) (epoch : Z) (w w' : world) :
  epoch_body args pr st epoch w = (Ok st', w') ->
  arg_save_every args <> 0%Z /\
  (exists v,
     val_losses st' = val_losses st ++ [v] /\
     (((epoch + 1) mod arg_save_every args = 0)%Z ->
        files w' !! periodic_path args epoch
        = Some (Checkpoint (periodic_checkpoint epoch w' (pr_config pr) v))) /\
     (((epoch + 1) mod arg_save_every args <> 0)%Z ->
        files w' !! periodic_path args epoch = files w !! periodic_path args epoch)) /\
  (forall e, periodic_path args e = periodic_path args epoch -> e = epoch).
Proof.
  intros H. apply epoch_body_inv in H as (tm & vm & w2 & w3 & w4 & Hf & Hb & Hk & Hl & Hp).
  apply save_periodic_ok in Hp as [Hz Hp].
  split; [exact Hz|]. split; [|intros e; apply periodic_path_inj].
  exists (m_total_loss vm).
  assert (Hst : val_losses st' = val_losses st ++ [m_total_loss vm]).
  { rewrite save_best_eq in Hb. simpl in Hb.
    destruct (Fl.ltb _ _); injection Hb as <- _; reflexivity. }
  split; [exact Hst|]. rewrite Hp. split; intros Hmod; destruct (decide _); try contradiction.
  - simpl. rewrite lookup_insert_eq. reflexivity.
  - rewrite Hk by (apply not_eq_sym, recon_not_periodic).
    pose proof (save_best_respects (keeps_file (periodic_path args epoch))
                  args pr epoch tm vm
                  (LoopState (best_val_loss st) (train_losses st ++ [m_total_loss tm])
                             (val_losses st ++ [m_total_loss vm]))) as K.
    specialize (K (fun d _ => torch_save_keeps_file d _ _
                     (not_eq_sym (best_not_periodic args epoch))) w2).
    rewrite Hb in K. unfold keeps_file in K. simpl in K. congruence.
Qed.

(** The files that an epoch does not write. *)
Lemma epoch_body_keeps_file args pr st epoch p :
  p <> best_path args -> p <> recon_path args epoch -> p <> periodic_path args epoch ->
  respects (keeps_file p) (epoch_body args pr st epoch).
Proof.
  intros Hb Hr Hp. unfold epoch_body.
  apply (respects_bind (keeps_file p)).
  { eapply respects_weaken; [|apply train_epoch_same_files].
    intros w w' E. unfold same_files in E. unfold keeps_file. rewrite E. reflexivity. }
  intros tm. apply (respects_bind (keeps_file p)).
  { eapply respects_weaken; [|apply validate_epoch_same_files].
    intros w w' E. unfold same_files in E. unfold keeps_file. rewrite E. reflexivity. }
  intros vm. apply (respects_bind (keeps_file p)).
  { apply (save_best_respects (keeps_file p)). intros d _.
    apply torch_save_keeps_file, Hb. }
  intros st1. apply (respects_bind (keeps_file p)).
  { destruct (decide _); [apply plot_keeps_file, Hr | apply (respects_ret (keeps_file p))]. }
  intros _. apply (respects_bind (keeps_file p)).
  { apply (save_periodic_respects (keeps_file p)). intros d _.
    apply torch_save_keeps_file, Hp. }
  intros _. apply (respects_ret (keeps_file p)).
Qed.

(** X16: a run that raises leaves the final checkpoint and the training
    curve unwritten: the files of those names are as they were found. *)
Theorem X16_final_checkpoint_only_on_completion
    (args : Args) (disk : gmap string h5file) (files0 : gmap string artifact) (e : py_exn) :
  (main args disk files0).1 = Raise e ->
  (main args disk files0).2 !! final_path args = files0 !! final_path args /\
  (main args disk files0).2 !! curve_path args = files0 !! curve_path args.
Proof.
  unfold main. destruct (prepare args disk) as [[pr mk]|e'] eqn:E; [|auto].
  pose proof (prepare_files _ _ _ _ files0 E) as Hf0.
  unfold run_epochs. rewrite M_bind_unfold.
  assert (K : forall p, p <> best_path args -> (forall ep, p <> recon_path args ep) ->
              (forall ep, p <> periodic_path args ep) ->
              keeps_file p (mk files0)
                (for_fold (py_range (arg_epochs args)) loop_state0
                          (epoch_body args pr) (mk files0)).2).
  { intros p H1 H2 H3. apply (respects_for_fold (keeps_file p)).
    intros st ep. apply epoch_body_keeps_file; auto. }
  destruct (for_fold _ _ _ _) as [[st1|e1] w1]; [discriminate|].
  simpl. intros _. unfold keeps_file in K. simpl in K. rewrite <- Hf0. split; apply K.
  - apply final_not_best.
  - apply final_not_recon.
  - apply final_not_periodic.
  - apply curve_not_best.
  - apply curve_not_recon.
  - apply curve_not_periodic.
Qed.

(** *** The figure and the modes *)

#[local] Instance keeps_training_refl :
  Reflexive (fun w w' : world => training w' = training w).
Proof. intros w. reflexivity. Qed.

#[local] Instance keeps_training_trans :
  Transitive (fun w w' : world => training w' = training w).
Proof. intros a b c H1 H2. congruence. Qed.

Lemma mode_after {A} (b : bool) (k : M world A) :
  respects (fun w w' : world => training w' = training w) k ->
  forall w, training ((modify (set_training b) ≫= fun _ => k) w).2 = b.
Proof.
  intros H w. rewrite M_bind_unfold. simpl. rewrite (H (set_training b w)). reflexivity.
Qed.

Lemma mode_irrelevant {A} (b b' : bool) (k : M world A) (w : world) :
  (modify (set_training b) ≫= fun _ => k) (set_training b' w)
  = (modify (set_training b) ≫= fun _ => k) w.
Proof. rewrite !M_bind_unfold. reflexivity. Qed.

Lemma train_step_keeps_mode criterion scheduler acc b :
  respects (fun w w' : world => training w' = training w)
           (train_step criterion scheduler acc b).
Proof.
  set (R := fun w w' : world => training w' = training w).
  unfold train_step.
  repeat (first
    [ apply (respects_ret R)
    | apply (respects_get R)
    | apply (respects_modify R); intros ?; reflexivity
    | apply (respects_bind R); [| intros ?]
    | destruct scheduler ]).
Qed.

(** X17: drawing the reconstruction examples changes nothing of the
    parameters, the gradients, the optimizer or the scheduler, and no
    file but its own, which holds the figure once the function has
    returned; and it leaves the model in eval mode, raising or not. *)
Theorem X17_plot_frame (dl : DataLoader) (save_path : string) (n : nat) (w : world) :
  let r := plot_reconstruction_examples dl save_path n w in
  same_learner w r.2 /\
  (forall p, p <> save_path -> files r.2 !! p = files w !! p) /\
  (is_ok r.1 = true -> files r.2 !! save_path = Some Figure) /\
  training r.2 = false.
Proof.
  intros r. subst r. split; [apply plot_same_learner|].
  split; [intros p Hp; apply (plot_keeps_file dl save_path n p Hp w)|].
  split.
  - destruct (plot_reconstruction_examples dl save_path n w) as [[[]|e] w'] eqn:E;
      [|discriminate]. intros _. simpl.
    unfold plot_reconstruction_examples in E.
    apply M_bind_ok in E as ([] & w1 & _ & E).
    apply M_bind_ok in E as (order & w2 & _ & E).
    apply M_bind_ok in E as (b & w3 & _ & E).
    apply M_bind_ok in E as (w3' & w4 & _ & E).
    apply M_bind_ok in E as ([] & w5 & _ & E).
    apply M_bind_ok in E as ([] & w6 & _ & E).
    injection E as <-. simpl. apply lookup_insert_eq.
  - unfold plot_reconstruction_examples. apply mode_after.
    set (R := fun w w' : world => training w' = training w).
    apply (respects_bind R). { apply respects_with_rng. intros; reflexivity. }
    intros order. apply (respects_bind R).
    { destruct order; [apply (respects_raise R) | apply respects_with_rng; intros; reflexivity]. }
    intros b. apply (respects_bind R). { apply (respects_get R). }
    intros w0. apply (respects_bind R).
    { destruct (decide _); [apply (respects_raise R) | apply (respects_ret R)]. }
    intros _. apply (respects_bind R).
    { apply (respects_for_each R). intros i.
      repeat case_match; first [apply (respects_ret R) | apply (respects_raise R)]. }
    intros _. apply (respects_modify R). intros; reflexivity.
Qed.

(** X18: the training loop runs the model in train mode and the
    validation loop in eval mode, whatever the mode on entry: the result
    and the state they leave do not depend on it, and the mode they
    leave is train, respectively eval, whether they return or raise. *)
Theorem X18_modes_of_the_loops
    (dl : DataLoader) (criterion : list float -> list float -> float)
    (scheduler b : bool) (w : world) :
  train_epoch dl criterion scheduler (set_training b w)
    = train_epoch dl criterion scheduler w /\
  training (train_epoch dl criterion scheduler w).2 = true /\
  validate_epoch dl criterion (set_training b w) = validate_epoch dl criterion w /\
  training (validate_epoch dl criterion w).2 = false.
Proof.
  set (R := fun w w' : world => training w' = training w).
  split; [apply mode_irrelevant|]. split.
  { unfold train_epoch. apply mode_after. apply (respects_bind R).
    - apply (respects_for_batches R); [intros; reflexivity|].
      intros acc b0. apply train_step_keeps_mode.
    - intros acc. apply (respects_lift R). }
  split; [apply mode_irrelevant|].
  unfold validate_epoch. apply mode_after. apply (respects_bind R).
  - apply (respects_for_batches R); [intros; reflexivity|].
    intros acc b0. apply (validate_step_respects R).
  - intros acc. apply (respects_lift R).
Qed.

End MoreCheckpoints.

(** * Concrete runs

    The script on the executable runtime [Toy.runtime] and the data of
    [Toy.disk]. *)

#[local] Existing Instance Toy.runtime.

(** A computation that returns, returns [ok_or] of itself. *)
Lemma ok_or_eq {A} (d : A) (o : outcome A) : is_ok o = true -> o = Ok (ok_or d o).
Proof. destruct o; [reflexivity | discriminate]. Qed.

(** The same for a computation with a final state. *)
Lemma run_ok_eq {A W} (d : A) (r : outcome A * W) :
  is_ok r.1 = true -> r = (Ok (ok_or d r.1), r.2).
Proof. destruct r as [[a|e] w]; [reflexivity | discriminate]. Qed.

(** [Toy.prepared_of] is what [prepare] returns when it returns. *)
Lemma prepared_of_eq (a : Args) :
  is_ok (prepare a Toy.disk) = true ->
  prepare a Toy.disk = Ok ((Toy.prepared_of a).1, (Toy.prepared_of a).2).
Proof.
  intros H. rewrite <- surjective_pairing. unfold Toy.prepared_of.
  apply ok_or_eq, H.
Qed.

(** The loader on [nan.h5]: two NaN in the flux, one in the timestamps. *)
Lemma C9_witness :
  exists ld,
    load_lightcurve_data Toy.disk "nan.h5" = Ok ld /\
    (forall i j r, nd_rows Toy.flux_array_nan !! i = Some r -> r !! j = Some Fl.nan ->
       exists r', nd_rows (ld_flux ld) !! i = Some r' /\ r' !! j = Some Fl.zero) /\
    (forall i j r, nd_rows Toy.time_array_nan !! i = Some r -> r !! j = Some Fl.nan ->
       exists r', nd_rows (ld_timestamps ld) !! i = Some r' /\ r' !! j = Some Fl.zero) /\
    count_nan (ld_flux ld) = 0%nat /\
    count_nan (ld_timestamps ld) = 0%nat /\
    ((0 < count_nan Toy.flux_array_nan)%nat ->
       "Warning: " +:+ pretty (count_nan Toy.flux_array_nan) +:+ " NaN values found in flux"
         ∈ ld_printed ld) /\
    ((0 < count_nan Toy.time_array_nan)%nat ->
       "Warning: " +:+ pretty (count_nan Toy.time_array_nan)
         +:+ " NaN values found in timestamps" ∈ ld_printed ld) /\
    (count_nan Toy.flux_array_nan = 0%nat -> ld_flux ld = Toy.flux_array_nan) /\
    (count_nan Toy.time_array_nan = 0%nat -> ld_timestamps ld = Toy.time_array_nan).
Proof.
  apply (C9_nan_replaced_and_counted Toy.disk "nan.h5"
           (Toy.h5 Toy.flux_array_nan Toy.time_array_nan));
    vm_compute; reflexivity.
Defined.

(** A batch whose whole-sequence loss is NaN: the optimizer has stepped and
    the parameter is no longer what it was. *)
Lemma C4_counterexample :
  Fl.isnan (item (full_loss mse_loss (training Toy.w0) Toy.b_inf (params Toy.w0))) = true /\
  opt (train_step mse_loss true totals0 Toy.b_inf Toy.w0).2 <> opt Toy.w0 /\
  params (train_step mse_loss true totals0 Toy.b_inf Toy.w0).2 <> params Toy.w0.
Proof.
  vm_compute. split; [reflexivity|]. split; intros H; discriminate H.
Qed.

(** The validation pass of a run on [lc.h5], and the order of its loader. *)
Lemma C8_witness :
  let pr := (Toy.prepared_of (Toy.args "lc.h5" 1 10)).1 in
  let w := (Toy.prepared_of (Toy.args "lc.h5" 1 10)).2 ∅ in
  let w' := (validate_epoch (pr_val_loader pr) mse_loss w).2 in
  (params w' = params w /\ grads w' = grads w /\ opt w' = opt w /\ sched w' = sched w
   /\ files w' = files w) /\
  (loader_order (pr_val_loader pr) 7%nat).1
  = Ok (chunks (Z.to_nat (arg_batch_size (Toy.args "lc.h5" 1 10)))
               (seq 0 (sub_len (pr_val_dataset pr)))).
Proof.
  intros pr w w'.
  destruct (C8_validation_reads_only (RT := Toy.runtime) (pr_val_loader pr) mse_loss w)
    as [H1 H2].
  split; [exact H1|].
  apply (H2 (Toy.args "lc.h5" 1 10) Toy.disk pr (Toy.prepared_of (Toy.args "lc.h5" 1 10)).2).
  apply prepared_of_eq. vm_compute. reflexivity.
Defined.

(** Two light curves collated with the bounds 1, 2, 0.1 and 0.5. *)
Lemma C2_witness :
  let items := [Sample (Toy.curve 1) Toy.times; Sample (Toy.curve 2) Toy.times] in
  let r := collate_with_masking items 1 (Some 2%Z) (lit 1 10) (lit 1 2) 5%nat in
  let b := ok_or Toy.b_inf r.1 in
  b_target b = map s_flux items /\
  b_time b = map s_time items /\
  forall (i : nat) (flux : tensor1), map s_flux items !! i = Some flux ->
    exists (row : list (float * float)) (mask : list bool),
      b_input b !! i = Some row /\ b_mask b !! i = Some mask /\
      length row = length flux /\ length mask = length flux /\
      forall (j : nat) (x : float), flux !! j = Some x ->
        exists m : bool,
          mask !! j = Some m /\
          row !! j = Some (if m then Fl.zero else x, bool_to_float m).
Proof.
  intros items r b.
  apply (C2_target_is_unmasked_flux (RT := Toy.runtime)
           items 1 (Some 2%Z) (lit 1 10) (lit 1 2) 5%nat r.2 b).
  vm_compute. reflexivity.
Defined.

(** The collate function of a run on [lc.h5], on two light curves. *)
Lemma C10_witness :
  let a := Toy.args "lc.h5" 1 10 in
  let pr := (Toy.prepared_of a).1 in
  let items := [Sample (Toy.curve 1) Toy.times; Sample (Toy.curve 2) Toy.times] in
  let r := dl_collate_fn (pr_val_loader pr) items 5%nat in
  let b := ok_or Toy.b_inf r.1 in
  let ds := draw_all 1 (arg_block_size a) (lit 1 10) (arg_mask_ratio a)
                     (map s_flux items) 5%nat in
  (b_mask b = map (fun d => d.1.1) ds.1 /\
   b_block_size b = map (fun d => d.1.2) ds.1 /\
   b_mask_ratio b = map (fun d => Fl.round binary32 d.2) ds.1 /\
   r.2 = ds.2) /\
  collate_with_masking items 1 None (lit 1 10) (lit 1 2) 5%nat
  = collate_with_masking items 1 (Some (Z.of_nat (seq_len_of (map s_flux items)) / 2)%Z)
                         (lit 1 10) (lit 1 2) 5%nat.
Proof.
  intros a pr items r b ds.
  destruct (C10_masking_bounds (RT := Toy.runtime) a Toy.disk pr (Toy.prepared_of a).2)
    as [H1 H2].
  { apply prepared_of_eq. vm_compute. reflexivity. }
  split.
  - apply (H1 (pr_val_loader pr) items 5%nat b r.2).
    + right. reflexivity.
    + vm_compute. reflexivity.
  - apply H2.
Defined.

(** Two runs on [lc.h5] with seed 42 and fraction 0.5 that differ in their
    number of epochs and checkpoint interval: eight light curves, four for
    validation. *)
Lemma C7_witness :
  let a1 := Toy.args "lc.h5" 1 10 in
  let a2 := Toy.args "lc.h5" 2 1 in
  let pr1 := (Toy.prepared_of a1).1 in
  let pr2 := (Toy.prepared_of a2).1 in
  pr_train_dataset pr1 = pr_train_dataset pr2 /\
  pr_val_dataset pr1 = pr_val_dataset pr2 /\
  Z.of_nat (sub_len (pr_val_dataset pr1)) = 4%Z /\
  Z.of_nat (sub_len (pr_train_dataset pr1)) = (Z.of_nat (ds_len (pr_dataset pr1)) - 4)%Z /\
  sub_indices (pr_train_dataset pr1) ++ sub_indices (pr_val_dataset pr1)
    ≡ₚ seq 0 (ds_len (pr_dataset pr1)).
Proof.
  intros a1 a2 pr1 pr2.
  apply (C7_split_is_determined_by_seed (RT := Toy.runtime) a1 a2 Toy.disk pr1 pr2
           (Toy.prepared_of a1).2 (Toy.prepared_of a2).2 4%Z).
  - apply prepared_of_eq. vm_compute. reflexivity.
  - apply prepared_of_eq. vm_compute. reflexivity.
  - reflexivity.
  - reflexivity.
  - reflexivity.
  - vm_compute. reflexivity.
  - vm_compute. split; discriminate.
Defined.

(** Flux of shape (8, 3) with timestamps of shape (8, 2): the dataset is
    built, [main] reaches its loop, trains and writes a best checkpoint,
    and does not end with ShapeMismatchError.  Arrays without rows: the
    dataset is built, and [main] ends with ValueError. *)
Lemma C3_counterexample :
  nd_shape Toy.flux_array <> nd_shape Toy.time_array_short /\
  LightCurveDataset_init Toy.flux_array Toy.time_array_short <> Raise ShapeMismatchError /\
  is_ok (prepare (Toy.args "mismatch.h5" 1 10) Toy.disk) = true /\
  (main (Toy.args "mismatch.h5" 1 10) Toy.disk ∅).1 <> Raise ShapeMismatchError /\
  is_checkpoint (main (Toy.args "mismatch.h5" 1 10) Toy.disk ∅).2
                "out/transformer_best.pt" = true /\
  length (nd_rows Toy.empty_array) = 0%nat /\
  LightCurveDataset_init Toy.empty_array Toy.empty_array <> Raise EmptyDatasetError /\
  (main (Toy.args "empty.h5" 1 10) Toy.disk ∅).1 = Raise ValueError.
Proof.
  vm_compute. repeat split; try discriminate; try reflexivity.
Qed.

(** An empty dataset split, a missing input file, and [empty.h5]. *)
Lemma C3_witness :
  split_dataset (Dataset [] []) (lit 15 100) 42 = Ok (MkSubset (Dataset [] []) [],
                                                      MkSubset (Dataset [] []) []) /\
  (OSError <> ShapeMismatchError /\ OSError <> EmptyDatasetError) /\
  prepare (Toy.args "empty.h5" 1 10) Toy.disk = Raise ValueError.
Proof.
  destruct (C3_no_shape_or_emptiness_check (RT := Toy.runtime)) as (_ & H2 & H3 & H4).
  split; [apply H2; reflexivity|].
  split.
  - apply (H3 (Toy.args "missing.h5" 1 10) Toy.disk). reflexivity.
  - apply (H4 (Toy.args "empty.h5" 1 10) Toy.disk
              (Loaded Toy.empty_array Toy.empty_array
                      ["Loaded flux: (0, 3), time: (0, 3)"]));
      vm_compute; reflexivity.
Defined.



(** A run of one epoch on [inf.h5]: the epoch completes with a validation
    loss that is NaN, the final checkpoint is written, and there is no
    best checkpoint. *)
Lemma C6_counterexample :
  let r := main (Toy.args "inf.h5" 1 1) Toy.disk ∅ in
  is_ok r.1 = true /\
  map Fl.isnan (val_losses (ok_or loop_state0 r.1)) = [true] /\
  file_exists r.2 "out/transformer_final.pt" = true /\
  file_exists r.2 "out/transformer_best.pt" = false.
Proof. vm_compute. repeat split; reflexivity. Qed.

(** The first epoch of a run on [lc.h5]. *)
Lemma C6_witness :
  let a := Toy.args "lc.h5" 1 10 in
  let pr := (Toy.prepared_of a).1 in
  let w := (Toy.prepared_of a).2 ∅ in
  let r := epoch_body a pr loop_state0 0 w in
  let st' := ok_or loop_state0 r.1 in
  exists v,
    val_losses st' = val_losses loop_state0 ++ [v] /\
    (Fl.ltb v (best_val_loss loop_state0) = true ->
       best_val_loss st' = v /\
       exists train_loss,
         files r.2 !! best_path a
         = Some (Checkpoint (best_checkpoint 0 r.2 (pr_config pr) train_loss v))) /\
    (Fl.ltb v (best_val_loss loop_state0) = false ->
       best_val_loss st' = best_val_loss loop_state0 /\
       files r.2 !! best_path a = files w !! best_path a) /\
    (best_val_loss loop_state0 = Fl.inf ->
       (Fl.ltb v (best_val_loss loop_state0) = true <-> Fl.isnan v = false /\ v <> Fl.inf)).
Proof.
  intros a pr w r st'.
  apply (C6_best_written_iff_strictly_better (RT := Toy.runtime) a pr loop_state0 st' 0 w r.2).
  apply (run_ok_eq loop_state0 r). vm_compute. reflexivity.
Defined.

(** ** Further concrete runs *)

(** The loader on [inf.h5], whose flux has an infinite value in each row. *)
Lemma X2_witness :
  exists ld,
    load_lightcurve_data Toy.disk "inf.h5" = Ok ld /\
    (nd_dtype (ld_flux ld) = nd_dtype Toy.flux_array_inf /\
     nd_shape (ld_flux ld) = nd_shape Toy.flux_array_inf) /\
    (nd_dtype (ld_timestamps ld) = nd_dtype Toy.time_array /\
     nd_shape (ld_timestamps ld) = nd_shape Toy.time_array) /\
    (forall i j r x, nd_rows Toy.flux_array_inf !! i = Some r -> r !! j = Some x ->
       Fl.isfinite x = true ->
       exists r', nd_rows (ld_flux ld) !! i = Some r' /\ length r' = length r
                  /\ r' !! j = Some x) /\
    (forall i j r x, nd_rows Toy.time_array !! i = Some r -> r !! j = Some x ->
       Fl.isfinite x = true ->
       exists r', nd_rows (ld_timestamps ld) !! i = Some r' /\ length r' = length r
                  /\ r' !! j = Some x).
Proof.
  apply (X2_load_keeps_shape_and_finite_values Toy.disk "inf.h5"
           (Toy.h5 Toy.flux_array_inf Toy.time_array));
    vm_compute; reflexivity.
Defined.

(** What is loaded from [nan.h5], stored as [clean.h5] and loaded again. *)
Lemma X3_witness :
  let ld := ok_or (Loaded Toy.empty_array Toy.empty_array [])
                  (load_lightcurve_data Toy.disk "nan.h5") in
  load_lightcurve_data
    (<["clean.h5" := {[ "flux" := H5Dataset (ld_flux ld);
                        "time" := H5Dataset (ld_timestamps ld) ]}]> Toy.disk)
    "clean.h5"
  = Ok (Loaded (ld_flux ld) (ld_timestamps ld)
               ["Loaded flux: " +:+ repr_shape (ld_flux ld)
                +:+ ", time: " +:+ repr_shape (ld_timestamps ld)]).
Proof.
  intros ld.
  apply (X3_reload_is_identity Toy.disk "nan.h5" "clean.h5" ld).
  apply ok_or_eq. vm_compute. reflexivity.
Defined.

(** The validation subset of a run on [lc.h5]. *)
Lemma X5_witness :
  let a := Toy.args "lc.h5" 1 10 in
  let pr := (Toy.prepared_of a).1 in
  let s := pr_val_dataset pr in
  sub_dataset s = pr_dataset pr /\
  NoDup (sub_indices s) /\
  (forall i, i ∈ sub_indices s -> (i < ds_len (pr_dataset pr))%nat) /\
  ((ds_len (pr_dataset pr) <= length (ds_timestamps (pr_dataset pr)))%nat ->
   forall idx, (idx < sub_len s)%nat -> is_ok (sub_getitem s idx) = true).
Proof.
  intros a pr s.
  apply (X5_subsets_index_the_dataset (RT := Toy.runtime) a Toy.disk pr
           (Toy.prepared_of a).2).
  - apply prepared_of_eq. vm_compute. reflexivity.
  - right. reflexivity.
Defined.

(** Two light curves collated with the bounds 1, 2, 0.1 and 0.5: the two
    selections of the batch. *)
Lemma X6_witness :
  let items := [Sample (Toy.curve 1) Toy.times; Sample (Toy.curve 2) Toy.times] in
  let r := collate_with_masking items 1 (Some 2%Z) (lit 1 10) (lit 1 2) 5%nat in
  let b := ok_or Toy.b_inf r.1 in
  masked_select (b_target b) (b_mask b)
    ++ masked_select (b_target b) (mask_not (b_mask b)) ≡ₚ concat (b_target b) /\
  (length (masked_select (b_target b) (b_mask b))
   + length (masked_select (b_target b) (mask_not (b_mask b))))%nat
  = length (concat (b_target b)).
Proof.
  intros items r b.
  apply (X6_mask_splits_the_batch (RT := Toy.runtime)
           items 1 (Some 2%Z) (lit 1 10) (lit 1 2) 5%nat r.2 b).
  vm_compute. reflexivity.
Defined.

(** Three light curves collated with the bounds 1, 3, 0.1 and 0.5: the
    shape of the batch. *)
Lemma X7_witness :
  let items := [Sample (Toy.curve 1) Toy.times; Sample (Toy.curve 2) Toy.times;
                Sample (Toy.curve 3) Toy.times] in
  let r := collate_with_masking items 1 (Some 3%Z) (lit 1 10) (lit 1 2) 7%nat in
  let b := ok_or Toy.b_inf r.1 in
  (0 < length items)%nat /\
  Forall (fun s => length (s_flux s) = seq_len_of (map s_flux items)) items /\
  Forall (fun s => length (s_time s) = seq_len_of (map s_time items)) items /\
  length (b_input b) = length items /\ length (b_target b) = length items /\
  length (b_time b) = length items /\ length (b_mask b) = length items /\
  length (b_block_size b) = length items /\ length (b_mask_ratio b) = length items /\
  Forall (fun r => length r = seq_len_of (map s_flux items)) (b_input b) /\
  Forall (fun r => length r = seq_len_of (map s_flux items)) (b_target b) /\
  Forall (fun r => length r = seq_len_of (map s_flux items)) (b_mask b).
Proof.
  intros items r b.
  apply (X7_batch_shape (RT := Toy.runtime)
           items 1 (Some 3%Z) (lit 1 10) (lit 1 2) 7%nat r.2 b).
  vm_compute. reflexivity.
Defined.

(** The loaders of a run on [lc.h5] with batches of four. *)
Lemma X8_witness :
  let a := Toy.args "lc.h5" 1 10 in
  let pr := (Toy.prepared_of a).1 in
  let bs := Z.to_nat (arg_batch_size a) in
  (forall g, exists order,
      (loader_order (pr_val_loader pr) g).1 = Ok order /\
      concat order = seq 0 (sub_len (pr_val_dataset pr)) /\
      Forall (fun c => (1 <= length c <= bs)%nat) order /\
      length order = dl_len (pr_val_loader pr)) /\
  dl_len (pr_val_loader pr) = ((sub_len (pr_val_dataset pr) + bs - 1) / bs)%nat /\
  dl_len (pr_train_loader pr) = ((sub_len (pr_train_dataset pr) + bs - 1) / bs)%nat.
Proof.
  intros a pr.
  apply (X8_batches_of_a_run (RT := Toy.runtime) a Toy.disk pr (Toy.prepared_of a).2).
  apply prepared_of_eq. vm_compute. reflexivity.
Defined.

(** A loader over no light curve. *)
Lemma X9_witness :
  let dl := MkLoader (MkSubset (Dataset [] []) []) 4 false
                     (main_collate_fn (Toy.args "lc.h5" 1 10)) in
  (validate_epoch dl mse_loss Toy.w0).1 = Raise ZeroDivisionError /\
  same_learner Toy.w0 (validate_epoch dl mse_loss Toy.w0).2 /\
  files (validate_epoch dl mse_loss Toy.w0).2 = files Toy.w0.
Proof.
  intros dl.
  apply (X9_validation_of_nothing (RT := Toy.runtime) dl mse_loss Toy.w0); reflexivity.
Defined.

(** A run of one epoch on [lc.h5]: batches of four, four light curves for
    validation. *)
Lemma X10_witness :
  let a := Toy.args "lc.h5" 1 10 in
  (4 <= arg_batch_size a)%Z /\
  exists pr mk,
    prepare a Toy.disk = Ok (pr, mk) /\ (4 <= sub_len (pr_val_dataset pr))%nat.
Proof.
  intros a.
  apply (X10_four_examples_to_plot (RT := Toy.runtime) a Toy.disk ∅
           (ok_or loop_state0 (main a Toy.disk ∅).1)).
  apply ok_or_eq. vm_compute. reflexivity.
Defined.

(** A run on [lc.h5] with a checkpoint interval of zero. *)
Lemma X11_witness :
  let a := Toy.args "lc.h5" 1 0 in
  is_ok (main a Toy.disk ∅).1 = false /\
  forall pr epoch vm w,
    save_periodic a pr epoch vm w = (Raise ZeroDivisionError, w).
Proof.
  intros a.
  apply (X11_save_every_zero (RT := Toy.runtime) a Toy.disk ∅). reflexivity.
Defined.

(** A run on [lc.h5] with a batch size of zero. *)
Lemma X12_witness :
  let a := MkArgs "lc.h5" "out" 1 0 (lit 1 10000) [64; 128; 256; 512]%Z 4 4 2
                  (lit 1 2) 2 (lit 1 2) 42 "auto" 10 in
  exists e, main a Toy.disk ∅ = (Raise e, ∅).
Proof.
  intros a.
  apply (X12_arguments_refused (RT := Toy.runtime) a Toy.disk ∅).
  left. simpl. lia.
Defined.

(** A run of two epochs on [lc.h5] with a checkpoint every epoch. *)
Lemma X13_witness :
  let a := Toy.args "lc.h5" 2 1 in
  let st := ok_or loop_state0 (main a Toy.disk ∅).1 in
  length (train_losses st) = Z.to_nat (arg_epochs a) /\
  length (val_losses st) = Z.to_nat (arg_epochs a) /\
  (forall v, v ∈ val_losses st -> Fl.ltb v (best_val_loss st) = false) /\
  (best_val_loss st = Fl.inf \/ best_val_loss st ∈ val_losses st).
Proof.
  intros a st.
  apply (X13_best_loss_is_least (RT := Toy.runtime) a Toy.disk ∅ st).
  apply ok_or_eq. vm_compute. reflexivity.
Defined.

(** The best checkpoint of that run. *)
Lemma X14_witness :
  let a := Toy.args "lc.h5" 2 1 in
  let st := ok_or loop_state0 (main a Toy.disk ∅).1 in
  best_val_loss st = Fl.inf \/
  exists d e,
    (main a Toy.disk ∅).2 !! best_path a = Some (Checkpoint d) /\
    ckpt_core d /\
    d !! "val_loss" = Some (VFloat (best_val_loss st)) /\
    d !! "epoch" = Some (VInt e) /\ (0 <= e < arg_epochs a)%Z.
Proof.
  intros a st.
  apply (X14_best_file_records_best_loss (RT := Toy.runtime) a Toy.disk ∅ st).
  apply ok_or_eq. vm_compute. reflexivity.
Defined.

(** The first epoch of a run on [lc.h5] with a checkpoint every epoch. *)
Lemma X15_witness :
  let a := Toy.args "lc.h5" 2 1 in
  let pr := (Toy.prepared_of a).1 in
  let w := (Toy.prepared_of a).2 ∅ in
  let r := epoch_body a pr loop_state0 0 w in
  let st' := ok_or loop_state0 r.1 in
  arg_save_every a <> 0%Z /\
  (exists v,
     val_losses st' = val_losses loop_state0 ++ [v] /\
     (((0 + 1) mod arg_save_every a = 0)%Z ->
        files r.2 !! periodic_path a 0
        = Some (Checkpoint (periodic_checkpoint 0 r.2 (pr_config pr) v))) /\
     (((0 + 1) mod arg_save_every a <> 0)%Z ->
        files r.2 !! periodic_path a 0 = files w !! periodic_path a 0)) /\
  (forall e, periodic_path a e = periodic_path a 0 -> e = 0%Z).
Proof.
  intros a pr w r st'.
  apply (X15_periodic_checkpoint (RT := Toy.runtime) a pr loop_state0 st' 0 w r.2).
  apply (run_ok_eq loop_state0 r). vm_compute. reflexivity.
Defined.

(** A run on [lc.h5] with a checkpoint interval of zero: it raises at the
    end of its first epoch, after the best checkpoint has been saved. *)
Lemma X16_witness :
  let a := Toy.args "lc.h5" 1 0 in
  (main a Toy.disk ∅).2 !! final_path a = (∅ : gmap string artifact) !! final_path a /\
  (main a Toy.disk ∅).2 !! curve_path a = (∅ : gmap string artifact) !! curve_path a.
Proof.
  intros a.
  apply (X16_final_checkpoint_only_on_completion (RT := Toy.runtime) a Toy.disk ∅
           ZeroDivisionError).
  vm_compute. reflexivity.
Defined.

(** ** What the libraries refuse *)

(** The loader on a file whose [flux] is a group, on one whose [time] is
    a scalar dataset, and on no file. *)
Fact load_refusals :
  load_lightcurve_data Toy.disk "group.h5" = Raise TypeError /\
  load_lightcurve_data Toy.disk "scalar.h5" = Raise ValueError /\
  load_lightcurve_data Toy.disk "missing.h5" = Raise OSError.
Proof. vm_compute. repeat split. Qed.

(** [main] with a device name that is refused, with a negative seed, with
    a seed of more than 64 bits, and with a learning rate that is NaN. *)
Fact main_refusals :
  let a (seed : Z) (lr : float) (device : string) :=
    MkArgs "lc.h5" "out" 1 4 lr [64; 128; 256; 512]%Z 4 4 2
           (lit 1 2) 2 (lit 1 2) seed device 10 in
  (main (a 42%Z (lit 1 10000) "bogus") Toy.disk ∅).1 = Raise RuntimeError /\
  (main (a (-1)%Z (lit 1 10000) "auto") Toy.disk ∅).1 = Raise ValueError /\
  (main (a (2 ^ 64)%Z (lit 1 10000) "auto") Toy.disk ∅).1 = Raise RuntimeError /\
  (main (a 42%Z Fl.nan "cpu") Toy.disk ∅).1 = Raise ValueError /\
  is_ok (main (a 42%Z (lit 1 10000) "cpu") Toy.disk ∅).1 = true.
Proof. vm_compute. repeat split. Qed.

(** One light curve split with the lengths 2 and -1, which add up to 1
    and are read as fractions; a shuffled loader over no item; and a
    figure of no example. *)
Fact library_refusals :
  let d := Dataset [Toy.curve 1] [Toy.times] in
  let collate := main_collate_fn (Toy.args "lc.h5" 1 10) in
  random_split d [2; -1]%Z 5%nat = Raise ValueError /\
  is_ok (random_split d [1; 0]%Z 5%nat) = true /\
  is_ok (DataLoader_init (MkSubset d []) 4 true collate) = false /\
  is_ok (DataLoader_init (MkSubset d []) 4 false collate) = true /\
  (plot_reconstruction_examples (pr_val_loader (Toy.prepared_of (Toy.args "lc.h5" 1 10)).1)
     "out/figure.png" 0 Toy.w0).1 = Raise ValueError.
Proof. vm_compute. repeat split. Qed.
